(** * Position context inside an XML document

    A shallow embedding of [server/services/context.py]: the context value
    ([XmlContext]), the service ([XmlContextService]), the tolerant parser
    ([XmlContextParser]), the SAX content handler ([ContextBuilderHandler])
    and the SAX error handler ([ContextParseErrorHandler]).

    Conventions of the embedding.
    - A Python [str] is a Rocq [string]; each character stands for the code
      point of the same number (0..255).  [len] is the number of characters.
    - A Python [int] is a [Z].
    - A call that may raise returns an [Outcome]: [Returned v] or
      [Raised e].
    - The handlers mutate the one context object they share with the parser.
      They are written in a state monad over that object in which a raise
      keeps the writes made before it, as Python does.
    - Where it matters which objects are shared between calls, module
      [Objects] keeps the objects of the calls in a store and passes
      references; a simulation relates it to the definitions on values.
    - The expat reader of [xml.sax] is not part of this code base.  It is
      the parameter [sax_reader]: what it does for a source text, in
      order: the events it delivers and, possibly, the exception it raises
      itself. *)

From Stdlib Require Import String Ascii List ZArith Bool Lia.
Import ListNotations.
Local Open Scope string_scope.
Local Open Scope Z_scope.

(** ** Python values *)

Module Py.

(** The exceptions that occur in the module under study. *)
Inductive Exception : Type :=
| IndexError
| TypeError
| ContextFoundException
| OtherError (name : string).

Inductive Outcome (A : Type) : Type :=
| Returned (value : A)
| Raised (exc : Exception).
Arguments Returned {A} value.
Arguments Raised {A} exc.

Definition len (s : string) : Z := Z.of_nat (String.length s).

(** [l[i]] on a Python list: a negative index counts from the end, an
    index outside [-len, len) raises [IndexError]. *)
Definition index {A : Type} (l : list A) (i : Z) : Outcome A :=
  let n := Z.of_nat (List.length l) in
  let j := if i <? 0 then i + n else i in
  if (j <? 0) || (n <=? j) then Raised IndexError
  else match nth_error l (Z.to_nat j) with
       | Some x => Returned x
       | None => Raised IndexError
       end.

(** [str.isspace] on one character, for code points below 256. *)
Definition isspace (c : ascii) : bool :=
  let n := nat_of_ascii c in
  ((9 <=? n) && (n <=? 13))%nat || ((28 <=? n) && (n <=? 32))%nat
  || (n =? 133)%nat || (n =? 160)%nat.

Fixpoint lstrip (s : string) : string :=
  match s with
  | EmptyString => EmptyString
  | String c rest => if isspace c then lstrip rest else s
  end.

Fixpoint rev_onto (s acc : string) : string :=
  match s with
  | EmptyString => acc
  | String c rest => rev_onto rest (String c acc)
  end.

Definition reverse (s : string) : string := rev_onto s EmptyString.

Definition rstrip (s : string) : string := reverse (lstrip (reverse s)).

(** [str.strip()] with no argument. *)
Definition strip (s : string) : string := rstrip (lstrip s).

(** The characters at which [str.splitlines] ends a line (code points
    below 256); a carriage return followed by a line feed ends one line. *)
Definition is_line_boundary (c : ascii) : bool :=
  let n := nat_of_ascii c in
  ((10 <=? n) && (n <=? 13))%nat || ((28 <=? n) && (n <=? 30))%nat
  || (n =? 133)%nat.

(** [str.splitlines(True)]: [cur] is the current line, reversed. *)
Fixpoint splitlines_from (s : string) (cur : string) : list string :=
  match s with
  | EmptyString =>
      match cur with
      | EmptyString => []
      | _ => [reverse cur]
      end
  | String c rest =>
      if (nat_of_ascii c =? 13)%nat then
        match rest with
        | String c' rest' =>
            if (nat_of_ascii c' =? 10)%nat
            then reverse (String c' (String c cur)) :: splitlines_from rest' EmptyString
            else reverse (String c cur) :: splitlines_from rest EmptyString
        | EmptyString => [reverse (String c cur)]
        end
      else if is_line_boundary c
      then reverse (String c cur) :: splitlines_from rest EmptyString
      else splitlines_from rest (String c cur)
  end.

Definition splitlines_keepends (s : string) : list string :=
  splitlines_from s EmptyString.

(** [str.isalnum() or c == '_']: what [\w] matches in a [str] pattern,
    for code points below 256. *)
Definition is_word (c : ascii) : bool :=
  let n := nat_of_ascii c in
  ((48 <=? n) && (n <=? 57)
   || (65 <=? n) && (n <=? 90)
   || (n =? 95)
   || (97 <=? n) && (n <=? 122)
   || (n =? 170) || (n =? 178) || (n =? 179) || (n =? 181)
   || (n =? 185) || (n =? 186)
   || (188 <=? n) && (n <=? 190)
   || (192 <=? n) && (n <=? 214)
   || (216 <=? n) && (n <=? 246)
   || (248 <=? n) && (n <=? 255))%nat.

(** The class [[a-z]]. *)
Definition is_lower_az (c : ascii) : bool :=
  let n := nat_of_ascii c in ((97 <=? n) && (n <=? 122))%nat.

End Py.
Import Py.

(** ** The two patterns of the error handler *)

Module Re.

(** The longest prefix of [s] made of characters of the class [p]. *)
Fixpoint span (p : ascii -> bool) (s : string) : string :=
  match s with
  | EmptyString => EmptyString
  | String c rest => if p c then String c (span p rest) else EmptyString
  end.

Fixpoint drop (n : nat) (s : string) : string :=
  match n, s with
  | O, _ => s
  | S n', String _ rest => drop n' rest
  | S _, EmptyString => EmptyString
  end.

(** A group of a match: its text and where it starts; it ends at
    [start + len text]. *)
Record Group : Type := { text : string; start : Z }.

Definition stop (g : Group) : Z := start g + len (text g).

(** [re.search(START_TAG_REGEX, line)]: the pattern is a [<], then one
    or more lowercase letters (group 1), then an optional space or line
    feed.  The match is the leftmost [<] followed by a lowercase letter;
    group 1 is the longest run of lowercase letters after it.  [i] is the
    offset of [s] in the line.  The result is group 1 (TAG_GROUP). *)
Fixpoint search_start_tag_from (i : Z) (s : string) : option Group :=
  match s with
  | EmptyString => None
  | String c rest =>
      if (nat_of_ascii c =? 60)%nat then
        match span is_lower_az rest with
        | EmptyString => search_start_tag_from (i + 1) rest
        | name => Some {| text := name; start := i + 1 |}
        end
      else search_start_tag_from (i + 1) rest
  end.

Definition search_start_tag (line : string) : option Group :=
  search_start_tag_from 0 line.

(** One match of ATTR_KEY_VALUE_REGEX at the head of [s], which is at
    offset [i].  The pattern is a space, any number of lowercase letters
    (group 1), an equals sign, a double quote, any number of word
    characters and dots (group 2), and an optional double quote.  Both
    runs are the longest possible: the character that must follow each
    is outside its class.  The result is groups 1 and 2 (ATTR_KEY_GROUP,
    ATTR_VALUE_GROUP) and the length of the match. *)
Definition match_attr_at (i : Z) (s : string) : option (Group * Group * nat) :=
  match s with
  | String sp rest =>
      if (nat_of_ascii sp =? 32)%nat then
        let key := span is_lower_az rest in
        match drop (String.length key) rest with
        | String e (String q rest2) =>
            if ((nat_of_ascii e =? 61) && (nat_of_ascii q =? 34))%nat then
              let value := span (fun c => is_word c || (nat_of_ascii c =? 46)%nat) rest2 in
              let closing :=
                match drop (String.length value) rest2 with
                | String q2 _ => if (nat_of_ascii q2 =? 34)%nat then 1%nat else 0%nat
                | EmptyString => 0%nat
                end in
              let key_start := i + 1 in
              let value_start := key_start + len key + 2 in
              Some ({| text := key; start := key_start |},
                    {| text := value; start := value_start |},
                    (3 + String.length key + String.length value + closing)%nat)
            else None
        | _ => None
        end
      else None
  | EmptyString => None
  end.

(** [re.finditer(ATTR_KEY_VALUE_REGEX, line)]: the matches from left to
    right, none overlapping the one before.  [skip] counts the characters
    of the last match that are still to be passed over. *)
Fixpoint finditer_attr_from (i : Z) (skip : nat) (s : string) : list (Group * Group) :=
  match s with
  | EmptyString => []
  | String _ rest =>
      match skip with
      | S k => finditer_attr_from (i + 1) k rest
      | O =>
          match match_attr_at i s with
          | Some (key, value, n) => (key, value) :: finditer_attr_from (i + 1) (pred n) rest
          | None => finditer_attr_from (i + 1) O rest
          end
      end
  end.

Definition finditer_attr (line : string) : list (Group * Group) :=
  finditer_attr_from 0 O line.

End Re.

(** ** The data model *)

(** [pygls.workspace.Position]; [Position()] is line 0, character 0. *)
Record Position : Type := { line : Z; character : Z }.

Definition Position_default : Position := {| line := 0; character := 0 |}.

(** [pygls.workspace.Document], as far as this module reads it: the
    attribute [source] and the property [lines], which is
    [source.splitlines(True)]. *)
Record Document : Type := { source : string }.

Definition lines (d : Document) : list string := splitlines_keepends (source d).

Inductive ContextTokenType : Type :=
| UNKNOWN
| TAG
| ATTRIBUTE_KEY
| ATTRIBUTE_VALUE.

Definition ContextTokenType_eqb (a b : ContextTokenType) : bool :=
  match a, b with
  | UNKNOWN, UNKNOWN | TAG, TAG
  | ATTRIBUTE_KEY, ATTRIBUTE_KEY | ATTRIBUTE_VALUE, ATTRIBUTE_VALUE => true
  | _, _ => false
  end.

(** What [reader.parse] does, step by step.  The first four are what the
    SAX reader hands to the two handlers: a start element comes with the
    locator's line (counted from 1) and column (counted from 0) at that
    event; a fatal error with its message and the line and column of the
    exception.  [startDocument] and [endDocument] do nothing and are left
    out.  The last is no call of a handler: [ReaderRaises name] is the
    reader itself raising the exception [name] ([LookupError] on a declared
    encoding it does not know, [ValueError] on a multi-byte one), which
    ends the pass; what stands after it in a stream is never reached.  An
    exception of [document.source.encode()], the statement before
    [reader.parse], is the same step at the head of the stream. *)
Inductive SaxEvent : Type :=
| StartElement (tag : string) (attributes : list (string * string)) (loc_line loc_column : Z)
| EndElement (tag : string)
| Characters (content : string)
| FatalError (message : string) (exc_line exc_column : Z)
| ReaderRaises (exception_name : string).

Definition SaxReader : Type := string -> list SaxEvent.

(** ** A reference reader

    The theorems below hold for every reader.  To run the module on a
    concrete document a reader is needed; [Ref.reader] is one for the
    fragment of XML made of start tags with quoted attributes, end tags,
    empty-element tags and character data.  It delivers the events in
    document order, a start element with the line and column of its [<], and
    ends the pass at the first fatal error, as a non-validating expat reader
    does on this fragment.  Character data is passed over (the content
    handler ignores it).  References, comments, declarations and the like
    are outside the fragment: the reader ends the pass on them with the
    message [unsupported]. *)

Module Ref.

Inductive Mode : Type :=
| InText
| TagOpen
| InTagName (rev_name : string)
| InAttrs (name : string) (rev_attrs : list (string * string))
| InAttrName (name : string) (rev_attrs : list (string * string)) (rev_key : string)
| BeforeEq (name : string) (rev_attrs : list (string * string)) (key : string)
| AfterEq (name : string) (rev_attrs : list (string * string)) (key : string)
| InValue (name : string) (rev_attrs : list (string * string)) (key : string)
    (rev_value : string) (quote : ascii)
| AfterValue (name : string) (rev_attrs : list (string * string))
| AfterSlash (name : string) (rev_attrs : list (string * string))
| InEndName (rev_name : string)
| EndSpace (name : string).

Record State : Type := {
  cur_line : Z;          (* counted from 1 *)
  cur_column : Z;        (* counted from 0 *)
  after_cr : bool;       (* the last character was a carriage return *)
  tok_line : Z;          (* where the current tag began *)
  tok_column : Z;
  open_elements : list string;   (* innermost first *)
  seen_root : bool;
  mode : Mode
}.

Definition initial : State :=
  {| cur_line := 1; cur_column := 0; after_cr := false; tok_line := 1; tok_column := 0;
     open_elements := []; seen_root := false; mode := InText |}.

Definition code (c : ascii) : nat := nat_of_ascii c.

Definition is_space (c : ascii) : bool :=
  ((code c =? 32) || (code c =? 9) || (code c =? 10) || (code c =? 13))%nat.

Definition is_name_start (c : ascii) : bool :=
  (((65 <=? code c) && (code c <=? 90)) || ((97 <=? code c) && (code c <=? 122))
   || (code c =? 95) || (code c =? 58))%nat.

Definition is_name_char (c : ascii) : bool :=
  (is_name_start c || ((48 <=? code c) && (code c <=? 57))
   || (code c =? 45) || (code c =? 46))%nat.

(** The state once [c] has been consumed, in mode [m]. *)
Definition step_over (c : ascii) (m : Mode) (st : State) : State :=
  let newline := ((code c =? 13) || ((code c =? 10) && negb (after_cr st)))%nat in
  let same := ((code c =? 10)%nat && after_cr st) in
  {| cur_line := if newline then cur_line st + 1 else cur_line st;
     cur_column := if newline then 0 else if same then cur_column st else cur_column st + 1;
     after_cr := (code c =? 13)%nat;
     tok_line := tok_line st; tok_column := tok_column st;
     open_elements := open_elements st; seen_root := seen_root st; mode := m |}.

Definition mark_token (st : State) : State :=
  {| cur_line := cur_line st; cur_column := cur_column st; after_cr := after_cr st;
     tok_line := cur_line st; tok_column := cur_column st;
     open_elements := open_elements st; seen_root := seen_root st; mode := mode st |}.

Definition with_open (els : list string) (st : State) : State :=
  {| cur_line := cur_line st; cur_column := cur_column st; after_cr := after_cr st;
     tok_line := tok_line st; tok_column := tok_column st;
     open_elements := els; seen_root := true; mode := mode st |}.

Definition fatal_here (message : string) (st : State) : list SaxEvent :=
  [FatalError message (cur_line st) (cur_column st)].

Definition fatal_token (message : string) (st : State) : list SaxEvent :=
  [FatalError message (tok_line st) (tok_column st)].

Definition invalid (st : State) : list SaxEvent :=
  fatal_here "not well-formed (invalid token)" st.

Definition has_key (key : string) (attrs : list (string * string)) : bool :=
  existsb (fun kv => String.eqb (fst kv) key) attrs.

Fixpoint scan (s : string) (st : State) : list SaxEvent :=
  match s with
  | EmptyString =>
      match mode st with
      | InText =>
          match open_elements st with
          | [] => if seen_root st then [] else fatal_here "no element found" st
          | _ => fatal_here "no element found" st
          end
      | _ => fatal_token "unclosed token" st
      end
  | String c rest =>
      let go m := scan rest (step_over c m st) in
      let start_tag name rev_attrs :=
        StartElement name (rev rev_attrs) (tok_line st) (tok_column st)
        :: scan rest (step_over c InText (with_open (name :: open_elements st) st)) in
      let empty_tag name rev_attrs :=
        StartElement name (rev rev_attrs) (tok_line st) (tok_column st)
        :: EndElement name
        :: scan rest (step_over c InText (with_open (open_elements st) st)) in
      let end_tag name :=
        match open_elements st with
        | top :: below =>
            if String.eqb top name
            then EndElement name :: scan rest (step_over c InText (with_open below st))
            else fatal_token "mismatched tag" st
        | [] => fatal_token "mismatched tag" st
        end in
      match mode st with
      | InText =>
          if (code c =? 60)%nat then
            match open_elements st with
            | [] => if seen_root st then fatal_here "junk after document element" st
                    else scan rest (step_over c TagOpen (mark_token st))
            | _ => scan rest (step_over c TagOpen (mark_token st))
            end
          else if (code c =? 38)%nat then fatal_here "unsupported" st
          else if is_space c then go InText
          else
            match open_elements st with
            | [] => if seen_root st then fatal_here "junk after document element" st
                    else fatal_here "syntax error" st
            | _ => go InText
            end
      | TagOpen =>
          if (code c =? 47)%nat then go (InEndName EmptyString)
          else if is_name_start c then go (InTagName (String c EmptyString))
          else if ((code c =? 33) || (code c =? 63))%nat then fatal_token "unsupported" st
          else invalid st
      | InTagName rn =>
          if is_name_char c then go (InTagName (String c rn))
          else if is_space c then go (InAttrs (reverse rn) [])
          else if (code c =? 62)%nat then start_tag (reverse rn) []
          else if (code c =? 47)%nat then go (AfterSlash (reverse rn) [])
          else invalid st
      | InAttrs name ra =>
          if is_space c then go (InAttrs name ra)
          else if (code c =? 62)%nat then start_tag name ra
          else if (code c =? 47)%nat then go (AfterSlash name ra)
          else if is_name_start c then go (InAttrName name ra (String c EmptyString))
          else invalid st
      | InAttrName name ra rk =>
          if is_name_char c then go (InAttrName name ra (String c rk))
          else if (code c =? 61)%nat then go (AfterEq name ra (reverse rk))
          else if is_space c then go (BeforeEq name ra (reverse rk))
          else invalid st
      | BeforeEq name ra key =>
          if is_space c then go (BeforeEq name ra key)
          else if (code c =? 61)%nat then go (AfterEq name ra key)
          else invalid st
      | AfterEq name ra key =>
          if is_space c then go (AfterEq name ra key)
          else if ((code c =? 34) || (code c =? 39))%nat
          then go (InValue name ra key EmptyString c)
          else invalid st
      | InValue name ra key rv q =>
          if (code c =? code q)%nat then
            if has_key key ra then fatal_token "duplicate attribute" st
            else go (AfterValue name ((key, reverse rv) :: ra))
          else if (code c =? 60)%nat then invalid st
          else if (code c =? 38)%nat then fatal_here "unsupported" st
          else if is_space c then go (InValue name ra key (String " " rv) q)
          else go (InValue name ra key (String c rv) q)
      | AfterValue name ra =>
          if is_space c then go (InAttrs name ra)
          else if (code c =? 62)%nat then start_tag name ra
          else if (code c =? 47)%nat then go (AfterSlash name ra)
          else invalid st
      | AfterSlash name ra =>
          if (code c =? 62)%nat then empty_tag name ra else invalid st
      | InEndName rn =>
          match rn with
          | EmptyString =>
              if is_name_start c then go (InEndName (String c rn)) else invalid st
          | _ =>
              if is_name_char c then go (InEndName (String c rn))
              else if is_space c then go (EndSpace (reverse rn))
              else if (code c =? 62)%nat then end_tag (reverse rn)
              else invalid st
          end
      | EndSpace name =>
          if is_space c then go (EndSpace name)
          else if (code c =? 62)%nat then end_tag name
          else invalid st
      end
  end.

Definition reader : SaxReader := fun source => scan source initial.

End Ref.

Section Context.

(** [XsdNode] of [.xsd.types]: an opaque handle. *)
Variable XsdNode : Type.

(** Modelled from the spec: [XsdTree] of [.xsd.types], which is not among
    the sources read here.  The spec gives the Schema Index a root-handle
    accessor and [findByName(name) -> NodeHandle], which may fail or
    return nothing: [find_node_by_name] returns a handle, returns [None],
    or raises. *)
Record XsdTree : Type := {
  root : XsdNode;
  find_node_by_name : string -> Outcome (option XsdNode)
}.

(** [class XmlContext].  The first seven fields are the attributes bound
    by [__init__].  The last three are the instance attributes [is_tag],
    [is_attribute] and [is_attribute_value]: [None] while the instance
    has no attribute of that name, [Some b] once a handler has bound it
    to [b]. *)
Record XmlContext : Type := {
  document_line : string;
  target_position : Position;
  is_empty : bool;
  token_name : option string;
  token_type : ContextTokenType;
  node : option XsdNode;
  node_stack : list string;
  is_tag : option bool;
  is_attribute : option bool;
  is_attribute_value : option bool
}.

(** [XmlContext.__init__], with its defaults as the callers leave them. *)
Definition XmlContext_init (document_line : string) (position : Position)
    (is_empty : bool) : XmlContext :=
  {| document_line := document_line;
     target_position := position;
     is_empty := is_empty;
     token_name := None;
     token_type := UNKNOWN;
     node := None;
     node_stack := [];
     is_tag := None;
     is_attribute := None;
     is_attribute_value := None |}.

(** Attribute assignments [self._context.x = v]. *)
Definition set_token_name (v : option string) (c : XmlContext) : XmlContext :=
  {| document_line := document_line c; target_position := target_position c;
     is_empty := is_empty c; token_name := v; token_type := token_type c;
     node := node c; node_stack := node_stack c; is_tag := is_tag c;
     is_attribute := is_attribute c; is_attribute_value := is_attribute_value c |}.

Definition set_node (v : option XsdNode) (c : XmlContext) : XmlContext :=
  {| document_line := document_line c; target_position := target_position c;
     is_empty := is_empty c; token_name := token_name c; token_type := token_type c;
     node := v; node_stack := node_stack c; is_tag := is_tag c;
     is_attribute := is_attribute c; is_attribute_value := is_attribute_value c |}.

Definition set_node_stack (v : list string) (c : XmlContext) : XmlContext :=
  {| document_line := document_line c; target_position := target_position c;
     is_empty := is_empty c; token_name := token_name c; token_type := token_type c;
     node := node c; node_stack := v; is_tag := is_tag c;
     is_attribute := is_attribute c; is_attribute_value := is_attribute_value c |}.

Definition set_is_tag (v : bool) (c : XmlContext) : XmlContext :=
  {| document_line := document_line c; target_position := target_position c;
     is_empty := is_empty c; token_name := token_name c; token_type := token_type c;
     node := node c; node_stack := node_stack c; is_tag := Some v;
     is_attribute := is_attribute c; is_attribute_value := is_attribute_value c |}.

Definition set_is_attribute (v : bool) (c : XmlContext) : XmlContext :=
  {| document_line := document_line c; target_position := target_position c;
     is_empty := is_empty c; token_name := token_name c; token_type := token_type c;
     node := node c; node_stack := node_stack c; is_tag := is_tag c;
     is_attribute := Some v; is_attribute_value := is_attribute_value c |}.

Definition set_is_attribute_value (v : bool) (c : XmlContext) : XmlContext :=
  {| document_line := document_line c; target_position := target_position c;
     is_empty := is_empty c; token_name := token_name c; token_type := token_type c;
     node := node c; node_stack := node_stack c; is_tag := is_tag c;
     is_attribute := is_attribute c; is_attribute_value := Some v |}.

(** The three query methods, called as [ctx.is_tag()] and so on.  An
    instance attribute of the same name hides the method, and calling
    the [bool] bound to it raises [TypeError]. *)
Definition XmlContext_is_tag (c : XmlContext) : Outcome bool :=
  match is_tag c with
  | Some _ => Raised TypeError
  | None => Returned (ContextTokenType_eqb (token_type c) TAG)
  end.

Definition XmlContext_is_attribute_key (c : XmlContext) : Outcome bool :=
  Returned (ContextTokenType_eqb (token_type c) ATTRIBUTE_KEY).

Definition XmlContext_is_attribute_value (c : XmlContext) : Outcome bool :=
  match is_attribute_value c with
  | Some _ => Raised TypeError
  | None => Returned (ContextTokenType_eqb (token_type c) ATTRIBUTE_VALUE)
  end.

(** [XmlContext.update_node_definition]: both statements of the [try]
    are under the one [except IndexError]. *)
Definition update_node_definition (xsd_tree : XsdTree) (c : XmlContext)
    : Outcome XmlContext :=
  match index (node_stack c) (-1) with
  | Returned last_node_in_path =>
      match find_node_by_name xsd_tree last_node_in_path with
      | Returned found => Returned (set_node found c)
      | Raised IndexError => Returned (set_node (Some (root xsd_tree)) c)
      | Raised e => Raised e
      end
  | Raised IndexError => Returned (set_node (Some (root xsd_tree)) c)
  | Raised e => Raised e
  end.

(** *** The handlers' monad: the shared context, and raising *)

Definition Handler (A : Type) : Type := XmlContext -> XmlContext * Outcome A.

Definition ret {A : Type} (a : A) : Handler A := fun c => (c, Returned a).

Definition bind {A B : Type} (m : Handler A) (k : A -> Handler B) : Handler B :=
  fun c =>
    match m c with
    | (c', Returned a) => k a c'
    | (c', Raised e) => (c', Raised e)
    end.

Definition raise {A : Type} (e : Exception) : Handler A := fun c => (c, Raised e).

Definition context : Handler XmlContext := fun c => (c, Returned c).

Definition assign (f : XmlContext -> XmlContext) : Handler unit :=
  fun c => (f c, Returned tt).

Notation "x <- m ;; k" := (bind m (fun x => k))
  (at level 61, m at next level, right associativity).
Notation "m ;; k" := (bind m (fun _ => k))
  (at level 61, right associativity).

(** *** [class ContextBuilderHandler] *)

(** [get_current_position], from what the locator shows. *)
Definition get_current_position (loc_line loc_column : Z) : Position :=
  {| line := loc_line - 1; character := loc_column |}.

(** The [for] loop of [_build_context_from_element_line] over
    [attributes.items()], entered with the running offset [accum]. *)
Fixpoint attributes_loop (target_offset accum : Z)
    (items : list (string * string)) : Handler unit :=
  match items with
  | [] => ret tt
  | (attr_name, attr_value) :: rest =>
      let attr_start := accum + 1 in
      let attr_end := attr_start + len attr_name in
      let is_on_attr := (attr_start <=? target_offset) && (target_offset <=? attr_end) in
      if is_on_attr then
        assign (set_is_attribute true) ;;
        assign (set_token_name (Some attr_name)) ;;
        raise ContextFoundException
      else
        let attr_value_start := attr_end + 2 in
        let attr_value_end := attr_value_start + len attr_value in
        let is_on_attr_value :=
          (attr_value_start <=? target_offset) && (target_offset <=? attr_value_end) in
        if is_on_attr_value then
          assign (set_is_attribute_value true) ;;
          assign (set_token_name (Some attr_value)) ;;
          raise ContextFoundException
        else attributes_loop target_offset attr_value_end rest
  end.

Definition _build_context_from_element_line (start_position : Z) (tag : string)
    (attributes : list (string * string)) : Handler unit :=
  c <- context ;;
  let target_offset := character (target_position c) in
  let tag_offset := start_position + len tag in
  let is_on_tag := (start_position <? target_offset) && (target_offset <=? tag_offset) in
  if is_on_tag then
    assign (set_is_tag true) ;;
    assign (set_token_name (Some tag)) ;;
    raise ContextFoundException
  else
    let accum := tag_offset + 1 in
    attributes_loop target_offset accum attributes.

Definition startElement (tag : string) (attributes : list (string * string))
    (loc_line loc_column : Z) : Handler unit :=
  assign (fun c => set_node_stack (node_stack c ++ [tag]) c) ;;
  let current_position := get_current_position loc_line loc_column in
  c <- context ;;
  if line current_position =? line (target_position c) then
    _build_context_from_element_line (character current_position) tag attributes
  else ret tt.

(** [node_stack.pop(-1)] raises [IndexError] on an empty list. *)
Definition endElement (tag : string) : Handler unit :=
  c <- context ;;
  match node_stack c with
  | [] => raise IndexError
  | _ => assign (set_node_stack (removelast (node_stack c)))
  end.

Definition characters (content : string) : Handler unit := ret tt.

(** *** [class ContextParseErrorHandler] *)

Definition get_position (exc_line exc_column : Z) : Position :=
  {| line := exc_line - 1; character := exc_column |}.

Definition _try_get_tag_context_at_line_position (target_offset : Z) : Handler unit :=
  c <- context ;;
  match Re.search_start_tag (document_line c) with
  | Some tag_match =>
      if (Re.start tag_match <=? target_offset) && (target_offset <=? Re.stop tag_match)
      then
        assign (set_is_tag true) ;;
        assign (set_token_name (Some (Re.text tag_match))) ;;
        raise ContextFoundException
      else ret tt
  | None => ret tt
  end.

(** The [for] loop over the matches of the attribute pattern. *)
Fixpoint attribute_matches_loop (target_offset : Z)
    (attribute_matches : list (Re.Group * Re.Group)) : Handler unit :=
  match attribute_matches with
  | [] => ret tt
  | (key, value) :: rest =>
      if (Re.start key <=? target_offset) && (target_offset <=? Re.stop key) then
        assign (set_is_attribute true) ;;
        assign (set_token_name (Some (Re.text key))) ;;
        raise ContextFoundException
      else if (Re.start value <=? target_offset) && (target_offset <=? Re.stop value) then
        assign (set_is_attribute_value true) ;;
        assign (set_token_name (Some (Re.text value))) ;;
        raise ContextFoundException
      else attribute_matches_loop target_offset rest
  end.

Definition _try_get_attribute_context_at_line_position (target_offset : Z)
    : Handler unit :=
  c <- context ;;
  attribute_matches_loop target_offset (Re.finditer_attr (document_line c)).

Definition _try_process_context_from_unclosed_token (start_offset : Z) : Handler unit :=
  c <- context ;;
  let target_offset := character (target_position c) in
  _try_get_tag_context_at_line_position target_offset ;;
  _try_get_attribute_context_at_line_position target_offset.

Definition fatalError (message : string) (exc_line exc_column : Z) : Handler unit :=
  let position := get_position exc_line exc_column in
  if String.eqb message "unclosed token" then
    _try_process_context_from_unclosed_token (character position)
  else ret tt.

(** *** The reader driving the two handlers *)

Definition dispatch (ev : SaxEvent) : Handler unit :=
  match ev with
  | StartElement tag attributes l c => startElement tag attributes l c
  | EndElement tag => endElement tag
  | Characters content => characters content
  | FatalError message l c => fatalError message l c
  | ReaderRaises exception_name => raise (OtherError exception_name)
  end.

(** [reader.parse(source)]: the events go to the handlers one after the
    other; an exception raised by a handler, or by the reader itself, ends
    the pass and leaves [reader.parse] with it. *)
Fixpoint reader_parse (events : list SaxEvent) : Handler unit :=
  match events with
  | [] => ret tt
  | ev :: rest => dispatch ev ;; reader_parse rest
  end.

(** *** [class XmlContextParser] *)

Variable sax_reader : SaxReader.

Record XmlContextParser : Type := { _document : option Document }.

(** [_build_xml_reader]: the expat reader, with namespace processing and
    validation off. *)
Definition _build_xml_reader : SaxReader := sax_reader.

Definition XmlContextParser_init : XmlContextParser := {| _document := None |}.

Definition is_empty_document (document : Document) : bool :=
  let xml_content := strip (source document) in
  (len xml_content =? 0) || (len xml_content <? 2).

(** [parse]: the parser object after the call, and what the call did.
    Only [ContextFoundException] is caught; an [IndexError] of a handler
    and an exception of the reader leave [parse]. *)
Definition parse (self : XmlContextParser) (document : Document) (position : Position)
    : XmlContextParser * Outcome XmlContext :=
  let self := {| _document := Some document |} in
  if is_empty_document document then
    (self, Returned (XmlContext_init "" Position_default true))
  else
    match index (lines document) (line position) with
    | Raised e => (self, Raised e)
    | Returned context_line =>
        let context := XmlContext_init context_line position false in
        let reader := _build_xml_reader in
        match reader_parse (reader (source document)) context with
        | (context, Returned _) => (self, Returned context)
        | (context, Raised ContextFoundException) => (self, Returned context)
        | (_, Raised e) => (self, Raised e)
        end
    end.

(** *** [class XmlContextService] *)

Record XmlContextService : Type := { xsd_tree : XsdTree }.

(** [get_xml_context]: the service object after the call, and what the
    call did. *)
Definition get_xml_context (self : XmlContextService) (document : Document)
    (position : Position) : XmlContextService * Outcome XmlContext :=
  let parser := XmlContextParser_init in
  match parse parser document position with
  | (_, Returned context) => (self, update_node_definition (xsd_tree self) context)
  | (_, Raised e) => (self, Raised e)
  end.

End Context.

Arguments root {XsdNode} _.
Arguments find_node_by_name {XsdNode} _ _.
Arguments Build_XsdTree {XsdNode} _ _.
Arguments document_line {XsdNode} _.
Arguments target_position {XsdNode} _.
Arguments is_empty {XsdNode} _.
Arguments token_name {XsdNode} _.
Arguments token_type {XsdNode} _.
Arguments node {XsdNode} _.
Arguments node_stack {XsdNode} _.
Arguments is_tag {XsdNode} _.
Arguments is_attribute {XsdNode} _.
Arguments is_attribute_value {XsdNode} _.
Arguments XmlContext_init {XsdNode} _ _ _.
Arguments XmlContext_is_tag {XsdNode} _.
Arguments XmlContext_is_attribute_key {XsdNode} _.
Arguments XmlContext_is_attribute_value {XsdNode} _.
Arguments update_node_definition {XsdNode} _ _.
Arguments xsd_tree {XsdNode} _.
Arguments Build_XmlContextService {XsdNode} _.
Arguments parse {XsdNode} _ _ _ _.
Arguments get_xml_context {XsdNode} _ _ _ _.
Arguments Handler XsdNode A : clear implicits.
Arguments ret {XsdNode A} _ _.
Arguments bind {XsdNode A B} _ _ _.
Arguments raise {XsdNode A} _ _.
Arguments context {XsdNode} _.
Arguments assign {XsdNode} _ _.
Arguments set_token_name {XsdNode} _ _.
Arguments set_node {XsdNode} _ _.
Arguments set_node_stack {XsdNode} _ _.
Arguments set_is_tag {XsdNode} _ _.
Arguments set_is_attribute {XsdNode} _ _.
Arguments set_is_attribute_value {XsdNode} _ _.
Arguments attributes_loop {XsdNode} _ _ _ _.
Arguments _build_context_from_element_line {XsdNode} _ _ _ _.
Arguments startElement {XsdNode} _ _ _ _ _.
Arguments endElement {XsdNode} _ _.
Arguments characters {XsdNode} _ _.
Arguments _try_get_tag_context_at_line_position {XsdNode} _ _.
Arguments attribute_matches_loop {XsdNode} _ _ _.
Arguments _try_get_attribute_context_at_line_position {XsdNode} _ _.
Arguments _try_process_context_from_unclosed_token {XsdNode} _ _.
Arguments fatalError {XsdNode} _ _ _ _.
Arguments dispatch {XsdNode} _ _.
Arguments reader_parse {XsdNode} _ _.

(** ** The objects of a call, in a store

    The definitions above pass a context by value.  The ones of this
    module keep the Python objects of a call in a store and pass
    references, so that sharing and mutation in place show: the
    [Position] a caller hands in, which the context refers to and does
    not copy; the one [Position()] that the default of [__init__] was
    evaluated to when the class was defined, shared by every context
    built without a position; the list behind [node_stack], which
    [append] and [pop] change in place; the parser and the reader, built
    anew by each call.  A reference is the index of the object in the
    store; a new object is put at the end. *)

Module Objects.

Definition ref : Type := nat.

(** A list with the element at [i] replaced by its image under [f]. *)
Fixpoint update {A : Type} (i : nat) (f : A -> A) (l : list A) : list A :=
  match l, i with
  | [], _ => []
  | x :: rest, O => f x :: rest
  | x :: rest, S i' => x :: update i' f rest
  end.

(** The reader object: its two features, and the contexts that the
    content handler and the error handler set on it hold. *)
Record ReaderObject : Type := {
  feature_namespaces : bool;
  feature_validation : bool;
  content_handler : option ref;
  error_handler : option ref
}.

Section Heap.

Context {XsdNode : Type}.
Variable sax_reader : SaxReader.

(** An [XmlContext] object: [target_position] and [node_stack] are
    references. *)
Record ContextObject : Type := {
  o_document_line : string;
  o_target_position : ref;
  o_is_empty : bool;
  o_token_name : option string;
  o_token_type : ContextTokenType;
  o_node : option XsdNode;
  o_node_stack : ref;
  o_is_tag : option bool;
  o_is_attribute : option bool;
  o_is_attribute_value : option bool
}.

Record Heap : Type := {
  positions : list Position;
  lists : list (list string);
  contexts : list ContextObject;
  parsers : list XmlContextParser;
  readers : list ReaderObject;
  (* the object [Position()] of the default of [XmlContext.__init__] *)
  default_position : ref
}.

Definition no_context : ContextObject :=
  {| o_document_line := ""; o_target_position := O; o_is_empty := false;
     o_token_name := None; o_token_type := UNKNOWN; o_node := None;
     o_node_stack := O; o_is_tag := None; o_is_attribute := None;
     o_is_attribute_value := None |}.

Definition object (h : Heap) (ctx : ref) : ContextObject := nth ctx (contexts h) no_context.

Definition position_at (h : Heap) (r : ref) : Position := nth r (positions h) Position_default.

Definition list_at (h : Heap) (r : ref) : list string := nth r (lists h) [].

(** The context as the attributes of an object and the objects it refers
    to give it. *)
Definition deref (o : ContextObject) (p : Position) (l : list string) : XmlContext XsdNode :=
  {| document_line := o_document_line o;
     target_position := p;
     is_empty := o_is_empty o;
     token_name := o_token_name o;
     token_type := o_token_type o;
     node := o_node o;
     node_stack := l;
     is_tag := o_is_tag o;
     is_attribute := o_is_attribute o;
     is_attribute_value := o_is_attribute_value o |}.

Definition view (h : Heap) (ctx : ref) : XmlContext XsdNode :=
  deref (object h ctx)
    (position_at h (o_target_position (object h ctx)))
    (list_at h (o_node_stack (object h ctx))).

(** *** Statements on a store *)

Definition M (A : Type) : Type := Heap -> Heap * Outcome A.

Definition ret {A : Type} (a : A) : M A := fun h => (h, Returned a).

Definition bind {A B : Type} (m : M A) (k : A -> M B) : M B :=
  fun h =>
    match m h with
    | (h', Returned a) => k a h'
    | (h', Raised e) => (h', Raised e)
    end.

Definition raise {A : Type} (e : Exception) : M A := fun h => (h, Raised e).

Notation "x <- m ;; k" := (bind m (fun x => k))
  (at level 61, m at next level, right associativity).
Notation "m ;; k" := (bind m (fun _ => k))
  (at level 61, right associativity).

(** [try: m except ContextFoundException: pass]. *)
Definition except_found (m : M unit) : M unit :=
  fun h =>
    match m h with
    | (h', Raised ContextFoundException) => (h', Returned tt)
    | other => other
    end.

(** Reading the attributes of the context at [ctx], through its
    references. *)
Definition context_of (ctx : ref) : M (XmlContext XsdNode) :=
  fun h => (h, Returned (view h ctx)).

(** [self._context.x = v] for an attribute [x] that is no reference. *)
Definition assign_attribute (ctx : ref) (f : ContextObject -> ContextObject) : M unit :=
  fun h =>
    ({| positions := positions h; lists := lists h;
        contexts := update ctx f (contexts h);
        parsers := parsers h; readers := readers h;
        default_position := default_position h |}, Returned tt).

(** A change in place of the list that [node_stack] of the context at
    [ctx] refers to. *)
Definition change_stack (ctx : ref) (f : list string -> list string) : M unit :=
  fun h =>
    ({| positions := positions h;
        lists := update (o_node_stack (object h ctx)) f (lists h);
        contexts := contexts h;
        parsers := parsers h; readers := readers h;
        default_position := default_position h |}, Returned tt).

Definition position_of (r : ref) : M Position := fun h => (h, Returned (position_at h r)).

Definition the_default_position : M ref := fun h => (h, Returned (default_position h)).

(** New objects. *)
Definition new_list : M ref :=
  fun h =>
    ({| positions := positions h; lists := lists h ++ [[]];
        contexts := contexts h; parsers := parsers h; readers := readers h;
        default_position := default_position h |}, Returned (List.length (lists h))).

Definition new_context (o : ContextObject) : M ref :=
  fun h =>
    ({| positions := positions h; lists := lists h;
        contexts := contexts h ++ [o]; parsers := parsers h; readers := readers h;
        default_position := default_position h |}, Returned (List.length (contexts h))).

Definition new_parser (p : XmlContextParser) : M ref :=
  fun h =>
    ({| positions := positions h; lists := lists h;
        contexts := contexts h; parsers := parsers h ++ [p]; readers := readers h;
        default_position := default_position h |}, Returned (List.length (parsers h))).

Definition new_reader (r : ReaderObject) : M ref :=
  fun h =>
    ({| positions := positions h; lists := lists h;
        contexts := contexts h; parsers := parsers h; readers := readers h ++ [r];
        default_position := default_position h |}, Returned (List.length (readers h))).

Definition assign_parser (self : ref) (f : XmlContextParser -> XmlContextParser) : M unit :=
  fun h =>
    ({| positions := positions h; lists := lists h;
        contexts := contexts h; parsers := update self f (parsers h); readers := readers h;
        default_position := default_position h |}, Returned tt).

Definition assign_reader (reader : ref) (f : ReaderObject -> ReaderObject) : M unit :=
  fun h =>
    ({| positions := positions h; lists := lists h;
        contexts := contexts h; parsers := parsers h;
        readers := update reader f (readers h);
        default_position := default_position h |}, Returned tt).

Definition reader_of (reader : ref) : M ReaderObject :=
  fun h =>
    (h, Returned (nth reader (readers h)
                    {| feature_namespaces := true; feature_validation := true;
                       content_handler := None; error_handler := None |})).

(** The attribute assignments on an object. *)
Definition o_set_token_name (v : option string) (o : ContextObject) : ContextObject :=
  {| o_document_line := o_document_line o; o_target_position := o_target_position o;
     o_is_empty := o_is_empty o; o_token_name := v; o_token_type := o_token_type o;
     o_node := o_node o; o_node_stack := o_node_stack o; o_is_tag := o_is_tag o;
     o_is_attribute := o_is_attribute o; o_is_attribute_value := o_is_attribute_value o |}.

Definition o_set_node (v : option XsdNode) (o : ContextObject) : ContextObject :=
  {| o_document_line := o_document_line o; o_target_position := o_target_position o;
     o_is_empty := o_is_empty o; o_token_name := o_token_name o;
     o_token_type := o_token_type o;
     o_node := v; o_node_stack := o_node_stack o; o_is_tag := o_is_tag o;
     o_is_attribute := o_is_attribute o; o_is_attribute_value := o_is_attribute_value o |}.

Definition o_set_is_tag (v : bool) (o : ContextObject) : ContextObject :=
  {| o_document_line := o_document_line o; o_target_position := o_target_position o;
     o_is_empty := o_is_empty o; o_token_name := o_token_name o;
     o_token_type := o_token_type o;
     o_node := o_node o; o_node_stack := o_node_stack o; o_is_tag := Some v;
     o_is_attribute := o_is_attribute o; o_is_attribute_value := o_is_attribute_value o |}.

Definition o_set_is_attribute (v : bool) (o : ContextObject) : ContextObject :=
  {| o_document_line := o_document_line o; o_target_position := o_target_position o;
     o_is_empty := o_is_empty o; o_token_name := o_token_name o;
     o_token_type := o_token_type o;
     o_node := o_node o; o_node_stack := o_node_stack o; o_is_tag := o_is_tag o;
     o_is_attribute := Some v; o_is_attribute_value := o_is_attribute_value o |}.

Definition o_set_is_attribute_value (v : bool) (o : ContextObject) : ContextObject :=
  {| o_document_line := o_document_line o; o_target_position := o_target_position o;
     o_is_empty := o_is_empty o; o_token_name := o_token_name o;
     o_token_type := o_token_type o;
     o_node := o_node o; o_node_stack := o_node_stack o; o_is_tag := o_is_tag o;
     o_is_attribute := o_is_attribute o; o_is_attribute_value := Some v |}.

(** *** [class XmlContext] *)

(** [XmlContext.__init__]: [self.node_stack = []] makes a new list for
    each object; [position] is kept as the reference it is. *)
Definition XmlContext_init (document_line : string) (position : ref) (is_empty : bool)
    : M ref :=
  stack <- new_list ;;
  new_context
    {| o_document_line := document_line; o_target_position := position;
       o_is_empty := is_empty; o_token_name := None; o_token_type := UNKNOWN;
       o_node := None; o_node_stack := stack; o_is_tag := None;
       o_is_attribute := None; o_is_attribute_value := None |}.

Definition update_node_definition (ctx : ref) (xsd_tree : XsdTree XsdNode) : M unit :=
  c <- context_of ctx ;;
  match index (node_stack c) (-1) with
  | Returned last_node_in_path =>
      match find_node_by_name xsd_tree last_node_in_path with
      | Returned found => assign_attribute ctx (o_set_node found)
      | Raised IndexError => assign_attribute ctx (o_set_node (Some (root xsd_tree)))
      | Raised e => raise e
      end
  | Raised IndexError => assign_attribute ctx (o_set_node (Some (root xsd_tree)))
  | Raised e => raise e
  end.

(** *** [class ContextBuilderHandler]; [ctx] is [self._context] *)

Fixpoint attributes_loop (ctx : ref) (target_offset accum : Z)
    (items : list (string * string)) : M unit :=
  match items with
  | [] => ret tt
  | (attr_name, attr_value) :: rest =>
      let attr_start := accum + 1 in
      let attr_end := attr_start + len attr_name in
      let is_on_attr := (attr_start <=? target_offset) && (target_offset <=? attr_end) in
      if is_on_attr then
        assign_attribute ctx (o_set_is_attribute true) ;;
        assign_attribute ctx (o_set_token_name (Some attr_name)) ;;
        raise ContextFoundException
      else
        let attr_value_start := attr_end + 2 in
        let attr_value_end := attr_value_start + len attr_value in
        let is_on_attr_value :=
          (attr_value_start <=? target_offset) && (target_offset <=? attr_value_end) in
        if is_on_attr_value then
          assign_attribute ctx (o_set_is_attribute_value true) ;;
          assign_attribute ctx (o_set_token_name (Some attr_value)) ;;
          raise ContextFoundException
        else attributes_loop ctx target_offset attr_value_end rest
  end.

Definition _build_context_from_element_line (ctx : ref) (start_position : Z) (tag : string)
    (attributes : list (string * string)) : M unit :=
  c <- context_of ctx ;;
  let target_offset := character (target_position c) in
  let tag_offset := start_position + len tag in
  let is_on_tag := (start_position <? target_offset) && (target_offset <=? tag_offset) in
  if is_on_tag then
    assign_attribute ctx (o_set_is_tag true) ;;
    assign_attribute ctx (o_set_token_name (Some tag)) ;;
    raise ContextFoundException
  else
    let accum := tag_offset + 1 in
    attributes_loop ctx target_offset accum attributes.

(** [node_stack.append(tag)] changes the list in place. *)
Definition startElement (ctx : ref) (tag : string) (attributes : list (string * string))
    (loc_line loc_column : Z) : M unit :=
  change_stack ctx (fun stack => (stack ++ [tag])%list) ;;
  let current_position := get_current_position loc_line loc_column in
  c <- context_of ctx ;;
  if line current_position =? line (target_position c) then
    _build_context_from_element_line ctx (character current_position) tag attributes
  else ret tt.

(** [node_stack.pop(-1)] changes the list in place, and raises
    [IndexError] on an empty one. *)
Definition endElement (ctx : ref) (tag : string) : M unit :=
  c <- context_of ctx ;;
  match node_stack c with
  | [] => raise IndexError
  | _ => change_stack ctx (@removelast string)
  end.

Definition characters (ctx : ref) (content : string) : M unit := ret tt.

(** *** [class ContextParseErrorHandler]; [ctx] is [self._context] *)

Definition _try_get_tag_context_at_line_position (ctx : ref) (target_offset : Z) : M unit :=
  c <- context_of ctx ;;
  match Re.search_start_tag (document_line c) with
  | Some tag_match =>
      if (Re.start tag_match <=? target_offset) && (target_offset <=? Re.stop tag_match)
      then
        assign_attribute ctx (o_set_is_tag true) ;;
        assign_attribute ctx (o_set_token_name (Some (Re.text tag_match))) ;;
        raise ContextFoundException
      else ret tt
  | None => ret tt
  end.

Fixpoint attribute_matches_loop (ctx : ref) (target_offset : Z)
    (attribute_matches : list (Re.Group * Re.Group)) : M unit :=
  match attribute_matches with
  | [] => ret tt
  | (key, value) :: rest =>
      if (Re.start key <=? target_offset) && (target_offset <=? Re.stop key) then
        assign_attribute ctx (o_set_is_attribute true) ;;
        assign_attribute ctx (o_set_token_name (Some (Re.text key))) ;;
        raise ContextFoundException
      else if (Re.start value <=? target_offset) && (target_offset <=? Re.stop value) then
        assign_attribute ctx (o_set_is_attribute_value true) ;;
        assign_attribute ctx (o_set_token_name (Some (Re.text value))) ;;
        raise ContextFoundException
      else attribute_matches_loop ctx target_offset rest
  end.

Definition _try_get_attribute_context_at_line_position (ctx : ref) (target_offset : Z)
    : M unit :=
  c <- context_of ctx ;;
  attribute_matches_loop ctx target_offset (Re.finditer_attr (document_line c)).

Definition _try_process_context_from_unclosed_token (ctx : ref) (start_offset : Z)
    : M unit :=
  c <- context_of ctx ;;
  let target_offset := character (target_position c) in
  _try_get_tag_context_at_line_position ctx target_offset ;;
  _try_get_attribute_context_at_line_position ctx target_offset.

Definition fatalError (ctx : ref) (message : string) (exc_line exc_column : Z) : M unit :=
  let position := get_position exc_line exc_column in
  if String.eqb message "unclosed token" then
    _try_process_context_from_unclosed_token ctx (character position)
  else ret tt.

(** *** The reader driving the handlers set on it *)

(** A handler that was not set is the default one, which does nothing. *)
Definition dispatch (reader : ReaderObject) (ev : SaxEvent) : M unit :=
  match ev with
  | StartElement tag attributes l c =>
      match content_handler reader with
      | Some ctx => startElement ctx tag attributes l c
      | None => ret tt
      end
  | EndElement tag =>
      match content_handler reader with
      | Some ctx => endElement ctx tag
      | None => ret tt
      end
  | Characters content =>
      match content_handler reader with
      | Some ctx => characters ctx content
      | None => ret tt
      end
  | FatalError message l c =>
      match error_handler reader with
      | Some ctx => fatalError ctx message l c
      | None => ret tt
      end
  | ReaderRaises exception_name => raise (OtherError exception_name)
  end.

Fixpoint deliver (reader : ReaderObject) (events : list SaxEvent) : M unit :=
  match events with
  | [] => ret tt
  | ev :: rest => dispatch reader ev ;; deliver reader rest
  end.

(** [reader.parse(source)]. *)
Definition reader_parse (reader : ref) (source : string) : M unit :=
  r <- reader_of reader ;;
  deliver r (sax_reader source).

(** *** [class XmlContextParser] *)

(** [_build_xml_reader]: [make_parser()] gives a new reader; the two
    features are set to [False]. *)
Definition _build_xml_reader : M ref :=
  reader <- new_reader {| feature_namespaces := true; feature_validation := true;
                          content_handler := None; error_handler := None |} ;;
  assign_reader reader
    (fun r => {| feature_namespaces := false; feature_validation := feature_validation r;
                 content_handler := content_handler r;
                 error_handler := error_handler r |}) ;;
  assign_reader reader
    (fun r => {| feature_namespaces := feature_namespaces r; feature_validation := false;
                 content_handler := content_handler r;
                 error_handler := error_handler r |}) ;;
  ret reader.

Definition setContentHandler (reader : ref) (ctx : ref) : M unit :=
  assign_reader reader
    (fun r => {| feature_namespaces := feature_namespaces r;
                 feature_validation := feature_validation r;
                 content_handler := Some ctx; error_handler := error_handler r |}).

Definition setErrorHandler (reader : ref) (ctx : ref) : M unit :=
  assign_reader reader
    (fun r => {| feature_namespaces := feature_namespaces r;
                 feature_validation := feature_validation r;
                 content_handler := content_handler r; error_handler := Some ctx |}).

(** [parse]: [self] and [position] are references. *)
Definition parse (self : ref) (document : Document) (position : ref) : M ref :=
  assign_parser self (fun _ => {| _document := Some document |}) ;;
  if is_empty_document document then
    default <- the_default_position ;;
    XmlContext_init "" default true
  else
    p <- position_of position ;;
    match index (lines document) (line p) with
    | Raised e => raise e
    | Returned context_line =>
        context <- XmlContext_init context_line position false ;;
        reader <- _build_xml_reader ;;
        setContentHandler reader context ;;
        setErrorHandler reader context ;;
        except_found (reader_parse reader (source document)) ;;
        ret context
    end.

(** *** [class XmlContextService] *)

Definition get_xml_context (self : XmlContextService XsdNode) (document : Document)
    (position : ref) : M ref :=
  parser <- new_parser XmlContextParser_init ;;
  context <- parse parser document position ;;
  update_node_definition context (xsd_tree self) ;;
  ret context.

End Heap.

End Objects.

(** *** Relating a store to a context passed by value *)

Section Relating.

Context {XsdNode : Type}.

(** The context at [ctx] is there, and so is its list. *)
Definition wf (ctx : Objects.ref) (h : @Objects.Heap XsdNode) : Prop :=
  (ctx < List.length (Objects.contexts h))%nat /\
  (Objects.o_node_stack (Objects.object h ctx) < List.length (Objects.lists h))%nat.

(** From [h] to [h'] nothing was written but attributes of the context at
    [ctx] that are no references, and the list it refers to. *)
Definition frame (ctx : Objects.ref) (h h' : @Objects.Heap XsdNode) : Prop :=
  Objects.positions h' = Objects.positions h /\
  Objects.default_position h' = Objects.default_position h /\
  Objects.parsers h' = Objects.parsers h /\
  Objects.readers h' = Objects.readers h /\
  List.length (Objects.contexts h') = List.length (Objects.contexts h) /\
  List.length (Objects.lists h') = List.length (Objects.lists h) /\
  (forall i, i <> ctx -> Objects.object h' i = Objects.object h i) /\
  (forall j, j <> Objects.o_node_stack (Objects.object h ctx) ->
             Objects.list_at h' j = Objects.list_at h j) /\
  Objects.o_node_stack (Objects.object h' ctx) = Objects.o_node_stack (Objects.object h ctx) /\
  Objects.o_target_position (Objects.object h' ctx)
  = Objects.o_target_position (Objects.object h ctx).

(** A statement on the store does to the context at [ctx] what a handler
    does to a context passed by value, from a store in which the context
    at [ctx] is [c]. *)
Definition sim_at {A : Type} (ctx : Objects.ref) (c : XmlContext XsdNode)
    (ms : Objects.M A) (mp : Handler XsdNode A) : Prop :=
  forall h : @Objects.Heap XsdNode, wf ctx h -> Objects.view h ctx = c ->
    snd (ms h) = snd (mp c) /\
    Objects.view (fst (ms h)) ctx = fst (mp c) /\
    frame ctx h (fst (ms h)).

Definition sim {A : Type} (ctx : Objects.ref) (ms : Objects.M A) (mp : Handler XsdNode A)
    : Prop :=
  forall c, sim_at ctx c ms mp.

(** The elements of [l] are in [l'] as they are in [l], at the same
    indices. *)
Definition prefix_of {A : Type} (d : A) (l l' : list A) : Prop :=
  (List.length l <= List.length l')%nat /\
  forall i, (i < List.length l)%nat -> nth i l' d = nth i l d.

Definition no_reader : Objects.ReaderObject :=
  {| Objects.feature_namespaces := true; Objects.feature_validation := true;
     Objects.content_handler := None; Objects.error_handler := None |}.

(** From [h] to [h'] no object of [h] was written: the positions are the
    same, and the lists, contexts, parsers and readers of [h] are in [h']
    as they were; what is new comes after them. *)
Definition extends (h h' : @Objects.Heap XsdNode) : Prop :=
  Objects.positions h' = Objects.positions h /\
  Objects.default_position h' = Objects.default_position h /\
  prefix_of [] (Objects.lists h) (Objects.lists h') /\
  prefix_of Objects.no_context (Objects.contexts h) (Objects.contexts h') /\
  prefix_of XmlContextParser_init (Objects.parsers h) (Objects.parsers h') /\
  prefix_of no_reader (Objects.readers h) (Objects.readers h').

End Relating.

(** ** Documents, trees and predicates used in the statements *)

Definition quot : string := String (ascii_of_nat 34) EmptyString.
Definition newline : string := String (ascii_of_nat 10) EmptyString.

(** The document with a [root] element, an [a] element and one attribute;
    neither element is closed. *)
Definition doc_root_a : Document :=
  {| source := "<root><a attr=" ++ quot ++ "val" ++ quot ++ ">" |}.

Definition events_root_a (end_line end_column : Z) : list SaxEvent :=
  [ StartElement "root" [] 1 0;
    StartElement "a" [("attr", "val")] 1 6;
    FatalError "no element found" end_line end_column ].

(** The truncated one-line document. *)
Definition doc_ro : Document := {| source := "<ro" |}.

(** Three nested elements on one line. *)
Definition doc_abc : Document := {| source := "<a><b><c></c></b></a>" |}.

Definition events_abc : list SaxEvent :=
  [ StartElement "a" [] 1 0; StartElement "b" [] 1 3; StartElement "c" [] 1 6;
    EndElement "c"; EndElement "b"; EndElement "a" ].

(** One element and a final line feed: the text has one line. *)
Definition doc_a_newline : Document := {| source := "<a>" ++ newline |}.

(** A document that is one [<]. *)
Definition doc_lt : Document := {| source := "<" |}.

(** A document of a space and a line feed. *)
Definition doc_blank : Document := {| source := " " ++ newline |}.


Definition at_character (ch : Z) : Position := {| line := 0; character := ch |}.

(** One element whose start tag and end tag are on two lines. *)
Definition doc_two_lines : Document := {| source := "<a>" ++ newline ++ "</a>" |}.

(** A start tag cut off inside the value of its attribute. *)
Definition doc_key : Document := {| source := "<a key=" ++ quot ++ "v" |}.

(** A reader that also reports character data: [Ref.reader] with an
    empty run of characters after each event. *)
Definition chatty_reader : SaxReader :=
  fun source => flat_map (fun ev => [ev; Characters ""]) (Ref.reader source).

(** A document that declares an encoding. *)
Definition doc_declared_encoding : Document :=
  {| source := "<?xml version=" ++ quot ++ "1.0" ++ quot ++ " encoding=" ++ quot ++ "x"
               ++ quot ++ "?><b/>" |}.

(** A reader that raises [name] as soon as it is started, before any
    event, as the expat reader raises [LookupError] on a document that
    declares an encoding it does not know. *)
Definition failing_reader (name : string) : SaxReader := fun _ => [ReaderRaises name].

(** A document is empty or whitespace-only. *)
Fixpoint whitespace_only (s : string) : bool :=
  match s with
  | EmptyString => true
  | String c rest => isspace c && whitespace_only rest
  end.

(** A schema index over handles that are names: it knows [tool] and
    [inputs], and returns nothing for any other name. *)
Definition small_tree : XsdTree string :=
  {| root := "tool";
     find_node_by_name := fun name =>
       if String.eqb name "tool" || String.eqb name "inputs"
       then Returned (Some name) else Returned None |}.


Definition small_service : XmlContextService string := {| xsd_tree := small_tree |}.

(** A store before any call: the default position object, at reference 0,
    and one position object of a caller, at reference 1. *)
Definition store_of (p : Position) : @Objects.Heap string :=
  {| Objects.positions := [Position_default; p]; Objects.lists := [];
     Objects.contexts := []; Objects.parsers := []; Objects.readers := [];
     Objects.default_position := 0%nat |}.

Section Logic.

Context {XsdNode : Type}.

Let Ctx : Type := XmlContext XsdNode.

(** What a handler does from a context that satisfies [P]: [N] on a
    normal return, [E] on a raise. *)
Definition triple {A : Type} (P : Ctx -> Prop) (m : Handler XsdNode A)
    (N : A -> Ctx -> Prop) (E : Exception -> Ctx -> Prop) : Prop :=
  forall c, P c ->
    match m c with
    | (c', Returned a) => N a c'
    | (c', Raised e) => E e c'
    end.

(** The attributes that no handler assigns keep the values of [c0]. *)
Definition Untouched (c0 c : Ctx) : Prop :=
  document_line c = document_line c0 /\
  target_position c = target_position c0 /\
  is_empty c = is_empty c0 /\
  token_type c = token_type c0 /\
  node c = node c0.

(** No token found so far. *)
Definition Pending (c : Ctx) : Prop :=
  token_name c = None /\ is_tag c = None /\
  is_attribute c = None /\ is_attribute_value c = None.

Definition flag_ok (f : option bool) : Prop := f = None \/ f = Some true.

(** A token was found: it has a name, and one of the three instance
    attributes is bound to [True]. *)
Definition Resolved (c : Ctx) : Prop :=
  (exists name, token_name c = Some name) /\
  flag_ok (is_tag c) /\ flag_ok (is_attribute c) /\ flag_ok (is_attribute_value c) /\
  (is_tag c = Some true \/ is_attribute c = Some true \/ is_attribute_value c = Some true).

Definition Inv (c0 c : Ctx) : Prop := Untouched c0 c /\ Pending c.

Definition Exc (c0 : Ctx) (e : Exception) (c : Ctx) : Prop :=
  Untouched c0 c /\
  match e with
  | ContextFoundException => Resolved c
  | _ => Pending c
  end.

(** A handler is [sound] when it keeps [Inv] on a normal return and
    establishes [Exc] on a raise. *)
Definition sound (c0 : Ctx) (m : Handler XsdNode unit) : Prop :=
  triple (Inv c0) m (fun _ => Inv c0) (Exc c0).

(** A stream in which no end element arrives while no element is open;
    [depth] is the number of open elements. *)
Fixpoint nested (depth : nat) (events : list SaxEvent) : bool :=
  match events with
  | [] => true
  | StartElement _ _ _ _ :: rest => nested (S depth) rest
  | EndElement _ :: rest =>
      match depth with
      | O => false
      | S d => nested d rest
      end
  | _ :: rest => nested depth rest
  end.

End Logic.

(** ** Streams, spans and renderings used in further statements *)

(** The reader raises nothing itself: the pass is not ended by it. *)
Fixpoint reader_returns (events : list SaxEvent) : bool :=
  match events with
  | [] => true
  | ReaderRaises _ :: _ => false
  | _ :: rest => reader_returns rest
  end.

(** The names of the elements open after [events], from [stack] on. *)
Fixpoint open_after (events : list SaxEvent) (stack : list string) : list string :=
  match events with
  | [] => stack
  | StartElement tag _ _ _ :: rest => open_after rest (stack ++ [tag])
  | EndElement _ :: rest => open_after rest (removelast stack)
  | _ :: rest => open_after rest stack
  end.

(** The events a handler acts on: character data, and faults other than
    [unclosed token], are the ones it lets pass. *)
Definition acted_on (ev : SaxEvent) : bool :=
  match ev with
  | Characters _ => false
  | FatalError message _ _ => String.eqb message "unclosed token"
  | _ => true
  end.

(** No element starts on the line [target_line] (counted from 0) and no
    fault is [unclosed token]. *)
Fixpoint quiet (target_line : Z) (events : list SaxEvent) : bool :=
  match events with
  | [] => true
  | StartElement _ _ l _ :: rest => negb (l - 1 =? target_line) && quiet target_line rest
  | FatalError message _ _ :: rest =>
      negb (String.eqb message "unclosed token") && quiet target_line rest
  | _ :: rest => quiet target_line rest
  end.

(** What the offset [accum] advances by over the attributes [items]: for
    each one the lengths of its name and value and three more. *)
Fixpoint attributes_width (items : list (string * string)) : Z :=
  match items with
  | [] => 0
  | (attr_name, attr_value) :: rest =>
      len attr_name + len attr_value + 3 + attributes_width rest
  end.

(** A start tag written on one line: a space before each attribute, the
    value in double quotes. *)
Definition render_attribute (item : string * string) : string :=
  " " ++ fst item ++ "=" ++ quot ++ snd item ++ quot.

Fixpoint render_attributes (items : list (string * string)) : string :=
  match items with
  | [] => EmptyString
  | item :: rest => render_attribute item ++ render_attributes rest
  end.

Definition render_start_tag (tag : string) (items : list (string * string)) : string :=
  "<" ++ tag ++ render_attributes items ++ ">".

(** The text of a line up to the name of the attribute that comes after
    the attributes [pre] in a start tag: [before], the text of the line
    before the tag, then the tag as written up to that name. *)
Definition text_before_name (before tag : string) (pre : list (string * string)) : string :=
  before ++ "<" ++ tag ++ render_attributes pre ++ " ".

(** The text of [s] from offset [i], [n] characters long. *)
Definition slice (i : Z) (n : Z) (s : string) : string :=
  String.substring (Z.to_nat i) (Z.to_nat n) s.

(** The number of characters of [s] that are not whitespace. *)
Fixpoint count_nonspace (s : string) : nat :=
  match s with
  | EmptyString => O
  | String c rest => if isspace c then count_nonspace rest else S (count_nonspace rest)
  end.

Fixpoint all_chars (p : ascii -> bool) (s : string) : bool :=
  match s with
  | EmptyString => true
  | String c rest => p c && all_chars p rest
  end.

(** Where a token name can come from: an element that starts on the
    line [target_line], by its tag, an attribute name or an attribute
    value; or, after an [unclosed token] fault, a group of one of the two
    patterns on the text [line_text]. *)
Definition named_by_element (target_line : Z) (events : list SaxEvent) (name : string)
    : Prop :=
  exists tag attributes l col,
    In (StartElement tag attributes l col) events /\ l - 1 = target_line /\
    (name = tag \/ In name (map fst attributes) \/ In name (map snd attributes)).

Definition named_by_pattern (line_text : string) (events : list SaxEvent) (name : string)
    : Prop :=
  (exists l col, In (FatalError "unclosed token" l col) events) /\
  ((exists g, Re.search_start_tag line_text = Some g /\ name = Re.text g) \/
   (exists key value, In (key, value) (Re.finditer_attr line_text) /\
                      (name = Re.text key \/ name = Re.text value))).

(** ** Reasoning rules for handlers *)

Section Rules.

Context {XsdNode : Type}.

Let Ctx : Type := XmlContext XsdNode.

Lemma triple_ret {A : Type} (P : Ctx -> Prop) (a : A) N E :
  (forall c, P c -> N a c) -> triple P (ret a) N E.
Proof. intros H c Hc. exact (H c Hc). Qed.

Lemma triple_raise {A : Type} (P : Ctx -> Prop) (e : Exception)
    (N : A -> Ctx -> Prop) E :
  (forall c, P c -> E e c) -> triple P (raise e) N E.
Proof. intros H c Hc. exact (H c Hc). Qed.

Lemma triple_context (P : Ctx -> Prop) N E :
  (forall c, P c -> N c c) -> triple P context N E.
Proof. intros H c Hc. exact (H c Hc). Qed.

Lemma triple_assign (P : Ctx -> Prop) (f : Ctx -> Ctx) N E :
  (forall c, P c -> N tt (f c)) -> triple P (assign f) N E.
Proof. intros H c Hc. exact (H c Hc). Qed.

Lemma triple_bind {A B : Type} (P : Ctx -> Prop) (m : Handler XsdNode A)
    (k : A -> Handler XsdNode B) (M : A -> Ctx -> Prop) N E :
  triple P m M E -> (forall a, triple (M a) (k a) N E) -> triple P (bind m k) N E.
Proof.
  intros Hm Hk c Hc. unfold bind.
  specialize (Hm c Hc).
  destruct (m c) as [c' [a | e]].
  - exact (Hk a c' Hm).
  - exact Hm.
Qed.

Lemma sound_ret (c0 : Ctx) : sound c0 (ret tt).
Proof. apply triple_ret. auto. Qed.

(** Reading the context and going on with a sound handler. *)
Lemma sound_read (c0 : Ctx) (k : Ctx -> Handler XsdNode unit) :
  (forall c, sound c0 (k c)) -> sound c0 (bind context k).
Proof.
  intros Hk. apply triple_bind with (M := fun _ => Inv c0).
  - apply triple_context. auto.
  - exact Hk.
Qed.

Lemma sound_seq (c0 : Ctx) (m k : Handler XsdNode unit) :
  sound c0 m -> sound c0 k -> sound c0 (bind m (fun _ => k)).
Proof.
  intros Hm Hk. apply triple_bind with (M := fun _ => Inv c0); [exact Hm | intros _; exact Hk].
Qed.

(** The three ways a handler reports a token: bind one of the instance
    attributes to [True], assign the name, raise. *)
Lemma sound_found_tag (c0 : Ctx) name :
  sound c0 (bind (assign (set_is_tag true))
              (fun _ => bind (assign (set_token_name (Some name)))
                 (fun _ => raise ContextFoundException))).
Proof.
  intros c [HU [Hn [Ht [Ha Hv]]]]. cbn. split; [exact HU |].
  repeat split; unfold flag_ok; cbn; eauto.
Qed.

Lemma sound_found_attribute (c0 : Ctx) name :
  sound c0 (bind (assign (set_is_attribute true))
              (fun _ => bind (assign (set_token_name (Some name)))
                 (fun _ => raise ContextFoundException))).
Proof.
  intros c [HU [Hn [Ht [Ha Hv]]]]. cbn. split; [exact HU |].
  repeat split; unfold flag_ok; cbn; eauto.
Qed.

Lemma sound_found_attribute_value (c0 : Ctx) name :
  sound c0 (bind (assign (set_is_attribute_value true))
              (fun _ => bind (assign (set_token_name (Some name)))
                 (fun _ => raise ContextFoundException))).
Proof.
  intros c [HU [Hn [Ht [Ha Hv]]]]. cbn. split; [exact HU |].
  repeat split; unfold flag_ok; cbn; eauto.
Qed.

Lemma sound_attributes_loop (c0 : Ctx) target_offset items :
  forall accum, sound c0 (attributes_loop target_offset accum items).
Proof.
  induction items as [| [attr_name attr_value] rest IH]; intros accum; cbn.
  - apply sound_ret.
  - destruct (_ && _).
    + apply sound_found_attribute.
    + destruct (_ && _).
      * apply sound_found_attribute_value.
      * apply IH.
Qed.

Lemma sound_build_context_from_element_line (c0 : Ctx) start_position tag attributes :
  sound c0 (_build_context_from_element_line start_position tag attributes).
Proof.
  unfold _build_context_from_element_line.
  apply sound_read; intros c.
  destruct (_ && _).
  - apply sound_found_tag.
  - apply sound_attributes_loop.
Qed.

Lemma sound_startElement (c0 : Ctx) tag attributes l col :
  sound c0 (startElement tag attributes l col).
Proof.
  unfold startElement. apply sound_seq.
  - apply triple_assign. intros c [HU HP]. split; [exact HU | exact HP].
  - apply sound_read; intros c.
    destruct (_ =? _).
    + apply sound_build_context_from_element_line.
    + apply sound_ret.
Qed.

Lemma sound_endElement (c0 : Ctx) tag : sound c0 (endElement tag).
Proof.
  unfold endElement. apply sound_read; intros c.
  destruct (node_stack c).
  - apply triple_raise. intros c' [HU HP]. split; assumption.
  - apply triple_assign. intros c' [HU HP]. split; [exact HU | exact HP].
Qed.

Lemma sound_try_get_tag (c0 : Ctx) target_offset :
  sound c0 (_try_get_tag_context_at_line_position target_offset).
Proof.
  unfold _try_get_tag_context_at_line_position.
  apply sound_read; intros c.
  destruct (Re.search_start_tag _) as [tag_match |]; [| apply sound_ret].
  destruct (_ && _); [apply sound_found_tag | apply sound_ret].
Qed.

Lemma sound_attribute_matches_loop (c0 : Ctx) target_offset matches :
  sound c0 (attribute_matches_loop target_offset matches).
Proof.
  induction matches as [| [key value] rest IH]; cbn.
  - apply sound_ret.
  - destruct (_ && _); [apply sound_found_attribute |].
    destruct (_ && _); [apply sound_found_attribute_value | exact IH].
Qed.

Lemma sound_fatalError (c0 : Ctx) message l col : sound c0 (fatalError message l col).
Proof.
  unfold fatalError. destruct (String.eqb _ _); [| apply sound_ret].
  unfold _try_process_context_from_unclosed_token.
  apply sound_read; intros c. apply sound_seq.
  - apply sound_try_get_tag.
  - unfold _try_get_attribute_context_at_line_position.
    apply sound_read; intros c'. apply sound_attribute_matches_loop.
Qed.

Lemma sound_dispatch (c0 : Ctx) ev : sound c0 (dispatch ev).
Proof.
  destruct ev; cbn.
  - apply sound_startElement.
  - apply sound_endElement.
  - apply sound_ret.
  - apply sound_fatalError.
  - apply triple_raise. intros c [HU HP]. split; assumption.
Qed.

Lemma sound_reader_parse (c0 : Ctx) events : sound c0 (reader_parse events).
Proof.
  induction events as [| ev rest IH]; cbn.
  - apply sound_ret.
  - apply sound_seq; [apply sound_dispatch | exact IH].
Qed.

End Rules.

(** ** The parser and the service *)

Section Properties.

Context {XsdNode : Type}.
Variable sax_reader : SaxReader.

Let Ctx : Type := XmlContext XsdNode.

Lemma parse_empty (self : XmlContextParser) document position :
  is_empty_document document = true ->
  snd (parse (XsdNode := XsdNode) sax_reader self document position)
  = Returned (XmlContext_init "" Position_default true).
Proof. intros H. unfold parse. rewrite H. reflexivity. Qed.

(** [parse] with the line, and the events the reader delivers, known. *)
Lemma parse_events (self : XmlContextParser) document position context_line events :
  is_empty_document document = false ->
  index (lines document) (line position) = Returned context_line ->
  sax_reader (source document) = events ->
  snd (parse (XsdNode := XsdNode) sax_reader self document position)
  = match reader_parse events (XmlContext_init context_line position false) with
    | (c, Returned _) => Returned c
    | (c, Raised ContextFoundException) => Returned c
    | (_, Raised e) => Raised e
    end.
Proof.
  intros He Hl Hr. unfold parse, _build_xml_reader. rewrite He, Hl, Hr.
  destruct (reader_parse events _) as [c [[] | []]]; reflexivity.
Qed.

Lemma parse_out_of_range (self : XmlContextParser) document position e :
  is_empty_document document = false ->
  index (lines document) (line position) = Raised e ->
  snd (parse (XsdNode := XsdNode) sax_reader self document position) = Raised e.
Proof. intros He Hl. unfold parse. rewrite He, Hl. reflexivity. Qed.

(** What a context returned by [parse] looks like. *)
Lemma parse_returned (self : XmlContextParser) document position (c : Ctx) :
  snd (parse sax_reader self document position) = Returned c ->
  (is_empty_document document = true /\ c = XmlContext_init "" Position_default true)
  \/ (is_empty_document document = false /\
      exists context_line,
        index (lines document) (line position) = Returned context_line /\
        Untouched (XmlContext_init context_line position false) c /\
        (Pending c \/ Resolved c)).
Proof.
  unfold parse. case_eq (is_empty_document document); intros He.
  - cbn. intros H. left. split; [reflexivity | congruence].
  - destruct (index (lines document) (line position)) as [context_line | e] eqn:Hl;
      [| cbn; discriminate].
    set (c0 := XmlContext_init context_line position false).
    pose proof (sound_reader_parse c0 (sax_reader (source document)) c0) as Hs.
    assert (Hinit : Inv c0 c0) by (repeat split).
    specialize (Hs Hinit).
    destruct (reader_parse _ c0) as [c' [[] | e]].
    + cbn. intros H. injection H as <-. right. split; [reflexivity |].
      exists context_line. destruct Hs as [HU HP]. auto.
    + destruct e; cbn; try discriminate.
      intros H. injection H as <-. right. split; [reflexivity |].
      exists context_line. destruct Hs as [HU HR]. auto.
Qed.

Lemma update_node_definition_returned (tree : XsdTree XsdNode) (c c' : Ctx) :
  update_node_definition tree c = Returned c' -> exists n, c' = set_node n c.
Proof.
  unfold update_node_definition.
  destruct (index (node_stack c) (-1)) as [name | e].
  - destruct (find_node_by_name tree name) as [found | e].
    + intros H. injection H as <-. eauto.
    + destruct e; try discriminate. intros H. injection H as <-. eauto.
  - destruct e; try discriminate. intros H. injection H as <-. eauto.
Qed.

(** A context returned by the service is one returned by a fresh parser,
    with its [node] assigned. *)
Lemma get_xml_context_returned (self : XmlContextService XsdNode) document position
    (c' : Ctx) :
  snd (get_xml_context sax_reader self document position) = Returned c' ->
  exists c n,
    snd (parse sax_reader XmlContextParser_init document position) = Returned c /\
    c' = set_node n c.
Proof.
  unfold get_xml_context.
  destruct (parse sax_reader XmlContextParser_init document position) as [p [c | e]]; cbn.
  - intros H. apply update_node_definition_returned in H as [n ->]. eauto.
  - discriminate.
Qed.

(** X19: on an empty document the service returns the default context
    with the root handle as its [node], for every position, also one whose
    line index is no line of the document, and whatever the reader. *)
Lemma get_xml_context_empty (self : XmlContextService XsdNode) document position :
  is_empty_document document = true ->
  snd (get_xml_context sax_reader self document position)
  = Returned (set_node (Some (root (xsd_tree self)))
                (XmlContext_init "" Position_default true)).
Proof.
  intros He. unfold get_xml_context.
  pose proof (parse_empty XmlContextParser_init document position He) as Hp.
  destruct (parse sax_reader XmlContextParser_init document position) as [p r].
  cbn in Hp. subst r. reflexivity.
Qed.

(** Appending one name and reading the last element. *)
Lemma index_last (below : list string) (name : string) :
  index (below ++ [name]) (-1) = Returned name.
Proof.
  unfold index. rewrite length_app, Nat2Z.inj_add. cbn [List.length].
  change (-1 <? 0) with true. cbv iota.
  replace (-1 + (Z.of_nat (List.length below) + Z.of_nat 1))
    with (Z.of_nat (List.length below)) by lia.
  destruct (Z.ltb_spec (Z.of_nat (List.length below)) 0) as [Hneg | _]; [lia |].
  destruct (Z.leb_spec (Z.of_nat (List.length below) + Z.of_nat 1)
              (Z.of_nat (List.length below))) as [Hle | _]; [lia |].
  cbn [orb]. rewrite Nat2Z.id, nth_error_app2 by lia.
  rewrite Nat.sub_diag. reflexivity.
Qed.

Lemma index_past_end {A : Type} (l : list A) (i : Z) :
  Z.of_nat (List.length l) <= i -> index l i = Raised IndexError.
Proof.
  intros H. unfold index.
  destruct (Z.ltb_spec i 0) as [Hneg | _]; [lia |].
  destruct (Z.ltb_spec i 0) as [Hneg | _]; [lia |].
  destruct (Z.leb_spec (Z.of_nat (List.length l)) i) as [_ | Hgt]; [reflexivity | lia].
Qed.

Lemma lstrip_whitespace_only (s : string) :
  whitespace_only s = true -> lstrip s = EmptyString.
Proof.
  induction s as [| c rest IH]; cbn; [reflexivity |].
  destruct (isspace c); cbn; [exact IH | discriminate].
Qed.

Lemma is_empty_document_spec (document : Document) :
  is_empty_document document = true <-> len (strip (source document)) < 2.
Proof.
  unfold is_empty_document. rewrite orb_true_iff, Z.eqb_eq, Z.ltb_lt. lia.
Qed.

End Properties.

(** ** Properties of a resolution call *)

Section Claims.

Context {XsdNode : Type}.
Variable sax_reader : SaxReader.

Let Ctx : Type := XmlContext XsdNode.

(** C1: the call does not always return.  On a document that is not
    empty, a position whose line index is at or past the number of lines
    makes [get_xml_context] raise [IndexError] to its caller: the line is
    read from [document.lines] before the reader is started, and nothing
    catches the fault. *)
Theorem get_xml_context_raises_past_last_line
    (self : XmlContextService XsdNode) document position :
  is_empty_document document = false ->
  Z.of_nat (List.length (lines document)) <= line position ->
  snd (get_xml_context sax_reader self document position) = Raised IndexError.
Proof.
  intros He Hline. unfold get_xml_context.
  pose proof (parse_out_of_range (XsdNode := XsdNode) sax_reader XmlContextParser_init
                document position IndexError He (index_past_end _ _ Hline)) as Hp.
  destruct (parse sax_reader XmlContextParser_init document position) as [p r].
  cbn in Hp. subst r. reflexivity.
Qed.

(** C3: every context that [get_xml_context] returns has [token_type]
    [UNKNOWN].  Each of the instance attributes [is_tag], [is_attribute]
    and [is_attribute_value] is either not bound or bound to [True], and
    none of the three query methods answers [True]: [is_tag()] and
    [is_attribute_value()] answer [False] or, once hidden by the attribute
    of their name, raise [TypeError]; [is_attribute_key()] answers
    [False]. *)
Theorem token_type_always_unknown
    (self : XmlContextService XsdNode) document position (c : Ctx) :
  snd (get_xml_context sax_reader self document position) = Returned c ->
  token_type c = UNKNOWN /\
  flag_ok (is_tag c) /\ flag_ok (is_attribute c) /\ flag_ok (is_attribute_value c) /\
  (XmlContext_is_tag c = Returned false \/ XmlContext_is_tag c = Raised TypeError) /\
  XmlContext_is_attribute_key c = Returned false /\
  (XmlContext_is_attribute_value c = Returned false
   \/ XmlContext_is_attribute_value c = Raised TypeError).
Proof.
  intros H. apply get_xml_context_returned in H as (c1 & n & Hp & ->).
  apply parse_returned in Hp as [[_ ->] | (_ & l & _ & HU & Hstate)].
  - cbn. unfold flag_ok. repeat split; auto.
  - destruct HU as (_ & _ & _ & Htype & _). cbn in Htype.
    assert (Hflags : flag_ok (is_tag c1) /\ flag_ok (is_attribute c1)
                     /\ flag_ok (is_attribute_value c1)).
    { destruct Hstate as [(_ & Ht & Ha & Hv) | (_ & Ht & Ha & Hv & _)];
        unfold flag_ok; auto. }
    destruct Hflags as (Ht & Ha & Hv).
    unfold XmlContext_is_tag, XmlContext_is_attribute_key, XmlContext_is_attribute_value.
    cbn. rewrite Htype. cbn.
    repeat split; auto.
    + destruct Ht as [-> | ->]; auto.
    + destruct Hv as [-> | ->]; auto.
Qed.

(** C7, as amended: a context returned by [parse] has [is_empty] true
    exactly when the document, stripped of surrounding whitespace, has
    fewer than two characters.  A document that is empty or
    whitespace-only is such a document.  When [is_empty] is true the
    context is the default one ([XmlContext(is_empty=True)]) and the
    reader plays no part: [parse] returns the same context with any other
    reader. *)
Theorem is_empty_iff_stripped_length_below_two
    (self : XmlContextParser) document position (c : Ctx) :
  snd (parse sax_reader self document position) = Returned c ->
  (is_empty c = true <-> len (strip (source document)) < 2) /\
  (whitespace_only (source document) = true -> is_empty c = true) /\
  (is_empty c = true ->
     c = XmlContext_init "" Position_default true /\
     forall other_reader : SaxReader,
       snd (parse other_reader self document position) = Returned c).
Proof.
  intros H. rewrite <- is_empty_document_spec.
  apply parse_returned in H as [[He ->] | (He & l & _ & HU & _)].
  - cbn. repeat split; auto.
    intros other_reader. apply parse_empty. exact He.
  - destruct HU as (_ & _ & Hempty & _). cbn in Hempty.
    rewrite Hempty, He. repeat split; try discriminate.
    intros Hws. exfalso.
    unfold is_empty_document, strip in He.
    rewrite (lstrip_whitespace_only _ Hws) in He. discriminate.
Qed.


(** C10: every context that [get_xml_context] returns has [token_type]
    [UNKNOWN] or a [token_name]; if [is_empty] is true its [token_type] is
    [UNKNOWN] and it has no [token_name]; and if one of [is_tag],
    [is_attribute], [is_attribute_value] is bound to [True] it has a
    [token_name]. *)
Theorem returned_context_invariants
    (self : XmlContextService XsdNode) document position (c : Ctx) :
  snd (get_xml_context sax_reader self document position) = Returned c ->
  (token_type c = UNKNOWN \/ exists name, token_name c = Some name) /\
  (is_empty c = true -> token_type c = UNKNOWN /\ token_name c = None) /\
  (is_tag c = Some true \/ is_attribute c = Some true \/ is_attribute_value c = Some true ->
   exists name, token_name c = Some name).
Proof.
  intros H. apply get_xml_context_returned in H as (c1 & n & Hp & ->).
  apply parse_returned in Hp as [[_ ->] | (_ & l & _ & HU & Hstate)].
  - cbn. repeat split; auto.
    intros [Hf | [Hf | Hf]]; discriminate.
  - destruct HU as (_ & _ & Hempty & Htype & _). cbn in Hempty, Htype. cbn.
    split; [left; exact Htype |]. split.
    + rewrite Hempty. discriminate.
    + destruct Hstate as [(_ & Ht & Ha & Hv) | (Hname & _)]; [| intros _; exact Hname].
      rewrite Ht, Ha, Hv. intros [Hf | [Hf | Hf]]; discriminate.
Qed.

End Claims.

(** ** When the pass over the events ends normally *)

Section Depth.

Context {XsdNode : Type}.

Let Ctx : Type := XmlContext XsdNode.

(** [d] elements are open. *)
Let open_is (d : nat) (c : Ctx) : Prop := List.length (node_stack c) = d.

(** The only exception is the early-termination one. *)
Let only_found (e : Exception) (_ : Ctx) : Prop := e = ContextFoundException.

Lemma depth_found (d : nat) (f : Ctx -> Ctx) (name : string) :
  (forall c, node_stack (f c) = node_stack c) ->
  triple (open_is d)
    (bind (assign f) (fun _ => bind (assign (set_token_name (Some name)))
                                 (fun _ => raise ContextFoundException)))
    (fun _ : unit => open_is d) only_found.
Proof. intros _ c _. reflexivity. Qed.

Lemma depth_attributes_loop (d : nat) target_offset items :
  forall accum,
    triple (open_is d) (attributes_loop target_offset accum items)
      (fun _ => open_is d) only_found.
Proof.
  induction items as [| [attr_name attr_value] rest IH]; intros accum; cbn.
  - apply triple_ret. auto.
  - destruct (_ && _); [apply depth_found; reflexivity |].
    destruct (_ && _); [apply depth_found; reflexivity | apply IH].
Qed.

Lemma depth_startElement (d : nat) tag attributes l col :
  triple (open_is d) (startElement tag attributes l col)
    (fun _ => open_is (S d)) only_found.
Proof.
  unfold startElement.
  apply triple_bind with (M := fun _ => open_is (S d)).
  - apply triple_assign. intros c Hc. unfold open_is in *. cbn.
    rewrite length_app, Hc. cbn. lia.
  - intros _. apply triple_bind with (M := fun _ => open_is (S d)).
    + apply triple_context. auto.
    + intros c. destruct (_ =? _); [| apply triple_ret; auto].
      unfold _build_context_from_element_line.
      apply triple_bind with (M := fun _ => open_is (S d)).
      * apply triple_context. auto.
      * intros c'. destruct (_ && _);
          [apply depth_found; reflexivity | apply depth_attributes_loop].
Qed.

Lemma depth_endElement (d : nat) tag :
  triple (open_is (S d)) (endElement tag) (fun _ => open_is d) only_found.
Proof.
  intros c Hc. unfold open_is in Hc. unfold endElement, bind, context.
  destruct (node_stack c) as [| name below] eqn:Hstack; [discriminate |].
  unfold assign, open_is. cbn [node_stack set_node_stack].
  assert (Hne : name :: below <> []) by discriminate.
  pose proof (app_removelast_last name Hne) as Hsplit.
  apply (f_equal (@List.length string)) in Hsplit.
  rewrite length_app in Hsplit. cbn [List.length] in Hsplit, Hc. lia.
Qed.

Lemma depth_attribute_matches_loop (d : nat) target_offset matches :
  triple (open_is d) (attribute_matches_loop target_offset matches)
    (fun _ => open_is d) only_found.
Proof.
  induction matches as [| [key value] rest IH]; cbn.
  - apply triple_ret. auto.
  - destruct (_ && _); [apply depth_found; reflexivity |].
    destruct (_ && _); [apply depth_found; reflexivity | exact IH].
Qed.

Lemma depth_fatalError (d : nat) message l col :
  triple (open_is d) (fatalError message l col) (fun _ => open_is d) only_found.
Proof.
  unfold fatalError. destruct (String.eqb _ _); [| apply triple_ret; auto].
  unfold _try_process_context_from_unclosed_token.
  apply triple_bind with (M := fun _ => open_is d); [apply triple_context; auto |].
  intros c. apply triple_bind with (M := fun _ => open_is d).
  - unfold _try_get_tag_context_at_line_position.
    apply triple_bind with (M := fun _ => open_is d); [apply triple_context; auto |].
    intros c'. destruct (Re.search_start_tag _); [| apply triple_ret; auto].
    destruct (_ && _); [apply depth_found; reflexivity | apply triple_ret; auto].
  - intros _. unfold _try_get_attribute_context_at_line_position.
    apply triple_bind with (M := fun _ => open_is d); [apply triple_context; auto |].
    intros c'. apply depth_attribute_matches_loop.
Qed.

(** On a stream that never closes an element that is not open, and in
    which the reader raises nothing itself, the pass returns or ends with
    the early-termination exception. *)
Lemma reader_parse_nested events :
  forall d, nested d events = true -> reader_returns events = true ->
    triple (open_is d) (reader_parse (XsdNode := XsdNode) events)
      (fun _ _ => True) only_found.
Proof.
  induction events as [| ev rest IH]; intros d Hn Hq; cbn.
  - apply triple_ret. auto.
  - destruct ev as [tag attributes l col | tag | content | message l col | name];
      cbn in Hn, Hq.
    + apply triple_bind with (M := fun _ => open_is (S d)).
      * apply depth_startElement.
      * intros _. apply IH; assumption.
    + destruct d as [| d']; [discriminate |].
      apply triple_bind with (M := fun _ => open_is d').
      * apply depth_endElement.
      * intros _. apply IH; assumption.
    + apply triple_bind with (M := fun _ => open_is d).
      * apply triple_ret. auto.
      * intros _. apply IH; assumption.
    + apply triple_bind with (M := fun _ => open_is d).
      * apply depth_fatalError.
      * intros _. apply IH; assumption.
    + discriminate.
Qed.

(** [parse] returns a context when the line index is one of the
    document's, the reader's stream is nested and the reader raises nothing
    itself. *)
Lemma parse_returns_in_range (sax_reader : SaxReader) (self : XmlContextParser)
    document position context_line :
  index (lines document) (line position) = Returned context_line ->
  nested 0 (sax_reader (source document)) = true ->
  reader_returns (sax_reader (source document)) = true ->
  exists c : Ctx, snd (parse sax_reader self document position) = Returned c.
Proof.
  intros Hl Hn Hq. unfold parse.
  destruct (is_empty_document document); [cbn; eauto |].
  rewrite Hl.
  pose proof (reader_parse_nested _ 0%nat Hn Hq
                (XmlContext_init context_line position false) eq_refl) as Hr.
  destruct (reader_parse _ _) as [c [[] | e]]; [cbn; eauto |].
  unfold only_found in Hr. subst e. cbn. eauto.
Qed.

End Depth.

(** ** Resolution on three documents *)

Section Documents.

Context {XsdNode : Type}.
Variable sax_reader : SaxReader.

Let Ctx : Type := XmlContext XsdNode.

Lemma get_xml_context_of_parse (self : XmlContextService XsdNode) document position
    (c1 c : Ctx) :
  snd (parse sax_reader XmlContextParser_init document position) = Returned c1 ->
  snd (get_xml_context sax_reader self document position) = Returned c ->
  exists n, c = set_node n c1.
Proof.
  intros Hp Hg. apply get_xml_context_returned in Hg as (c2 & n & Hp2 & ->).
  rewrite Hp in Hp2. injection Hp2 as <-. eauto.
Qed.

(** One step of the proofs below: the outcome of [parse] on a document
    whose events are known is computed. *)
Ltac run_parse Hreader :=
  erewrite parse_events; [| reflexivity | reflexivity | exact Hreader];
  vm_compute; reflexivity.

(** C2 (defect): on the document with [root] and [a], at a character index
    in the span (0, 4] of the name [root], [parse] returns a context with
    [token_name] [root] and the instance attribute [is_tag] bound to
    [True], but with [token_type] [UNKNOWN], not [TAG]; so has every
    context that [get_xml_context] returns, and on it [is_tag()] raises
    [TypeError]. *)
Theorem root_tag_named_type_unknown (self : XmlContextService XsdNode)
    (end_line end_column ch : Z) :
  sax_reader (source doc_root_a) = events_root_a end_line end_column ->
  0 < ch <= 4 ->
  let position := {| line := 0; character := ch |} in
  (exists c : Ctx,
     snd (parse sax_reader XmlContextParser_init doc_root_a position) = Returned c /\
     token_name c = Some "root" /\ token_type c = UNKNOWN /\ is_tag c = Some true) /\
  (forall c : Ctx,
     snd (get_xml_context sax_reader self doc_root_a position) = Returned c ->
     token_name c = Some "root" /\ token_type c = UNKNOWN /\
     XmlContext_is_tag c = Raised TypeError).
Proof.
  intros Hreader Hch position.
  assert (Hp : exists c : Ctx,
             snd (parse sax_reader XmlContextParser_init doc_root_a position) = Returned c /\
             token_name c = Some "root" /\ token_type c = UNKNOWN /\ is_tag c = Some true).
  { subst position.
    assert (Hcases : ch = 1 \/ ch = 2 \/ ch = 3 \/ ch = 4) by lia.
    destruct Hcases as [-> | [-> | [-> | ->]]];
      (eexists; split; [run_parse Hreader | repeat split]). }
  split; [exact Hp |].
  destruct Hp as (c1 & Hp & Hname & Htype & Htag).
  intros c Hg. destruct (get_xml_context_of_parse _ _ _ _ _ Hp Hg) as [n ->].
  unfold XmlContext_is_tag. cbn. rewrite Hname, Htype, Htag. repeat split.
Qed.

(** Just past the last letter of [root], at index 5, no token is found. *)
Lemma root_tag_not_found_at_5 (end_line end_column : Z) :
  sax_reader (source doc_root_a) = events_root_a end_line end_column ->
  exists c : Ctx,
    snd (parse sax_reader XmlContextParser_init doc_root_a {| line := 0; character := 5 |})
    = Returned c /\
    token_name c = None /\ is_tag c = None /\ node_stack c = ["root"; "a"]%list.
Proof.
  intros Hreader. eexists; split; [run_parse Hreader | repeat split].
Qed.

(** C4 (defect): on the one-line document [<ro], with the cursor at
    index 3 and the reader reporting the fault [unclosed token], [parse]
    returns a context with [token_name] [ro] and the instance attribute
    [is_tag] bound to [True], but with [token_type] [UNKNOWN], not [TAG];
    so has every context that [get_xml_context] returns. *)
Theorem truncated_tag_named_type_unknown (self : XmlContextService XsdNode)
    (fault_line fault_column : Z) :
  sax_reader (source doc_ro) = [FatalError "unclosed token" fault_line fault_column] ->
  let position := {| line := 0; character := 3 |} in
  (exists c : Ctx,
     snd (parse sax_reader XmlContextParser_init doc_ro position) = Returned c /\
     token_name c = Some "ro" /\ token_type c = UNKNOWN /\ is_tag c = Some true) /\
  (forall c : Ctx,
     snd (get_xml_context sax_reader self doc_ro position) = Returned c ->
     token_name c = Some "ro" /\ token_type c = UNKNOWN /\
     XmlContext_is_tag c = Raised TypeError).
Proof.
  intros Hreader position.
  assert (Hp : exists c : Ctx,
             snd (parse sax_reader XmlContextParser_init doc_ro position) = Returned c /\
             token_name c = Some "ro" /\ token_type c = UNKNOWN /\ is_tag c = Some true).
  { subst position. eexists; split; [run_parse Hreader | repeat split]. }
  split; [exact Hp |].
  destruct Hp as (c1 & Hp & Hname & Htype & Htag).
  intros c Hg. destruct (get_xml_context_of_parse _ _ _ _ _ Hp Hg) as [n ->].
  unfold XmlContext_is_tag. cbn. rewrite Hname, Htype, Htag. repeat split.
Qed.

(** C5 (defect): on the document with [root] and [a], at a character index
    in the span [9, 13] of the key [attr], [parse] returns a context with
    [token_name] [attr] and the instance attribute [is_attribute] bound to
    [True], but with [token_type] [UNKNOWN], not [ATTRIBUTE_KEY]; so has
    every context that [get_xml_context] returns, and on it
    [is_attribute_key()] answers [False]. *)
Theorem attribute_key_named_type_unknown (self : XmlContextService XsdNode)
    (end_line end_column ch : Z) :
  sax_reader (source doc_root_a) = events_root_a end_line end_column ->
  9 <= ch <= 13 ->
  let position := {| line := 0; character := ch |} in
  (exists c : Ctx,
     snd (parse sax_reader XmlContextParser_init doc_root_a position) = Returned c /\
     token_name c = Some "attr" /\ token_type c = UNKNOWN /\ is_attribute c = Some true) /\
  (forall c : Ctx,
     snd (get_xml_context sax_reader self doc_root_a position) = Returned c ->
     token_name c = Some "attr" /\ token_type c = UNKNOWN /\
     XmlContext_is_attribute_key c = Returned false).
Proof.
  intros Hreader Hch position.
  assert (Hp : exists c : Ctx,
             snd (parse sax_reader XmlContextParser_init doc_root_a position) = Returned c /\
             token_name c = Some "attr" /\ token_type c = UNKNOWN /\
             is_attribute c = Some true).
  { subst position.
    assert (Hcases : ch = 9 \/ ch = 10 \/ ch = 11 \/ ch = 12 \/ ch = 13) by lia.
    destruct Hcases as [-> | [-> | [-> | [-> | ->]]]];
      (eexists; split; [run_parse Hreader | repeat split]). }
  split; [exact Hp |].
  destruct Hp as (c1 & Hp & Hname & Htype & Hattr).
  intros c Hg. destruct (get_xml_context_of_parse _ _ _ _ _ Hp Hg) as [n ->].
  unfold XmlContext_is_attribute_key. cbn. rewrite Hname, Htype. repeat split.
Qed.

(** C6: on the document with [c] in [b] in [a], with the cursor in the
    span (6, 7] of the name [c], the pass ends at the start of [c] with
    the stack [a; b; c]: that is the [node_stack] of the context [parse]
    returns, and of every context [get_xml_context] returns. *)
Theorem ancestor_stack_at_c (self : XmlContextService XsdNode) (ch : Z) :
  sax_reader (source doc_abc) = events_abc ->
  6 < ch <= 7 ->
  let position := {| line := 0; character := ch |} in
  (exists c : Ctx,
     snd (parse sax_reader XmlContextParser_init doc_abc position) = Returned c /\
     node_stack c = ["a"; "b"; "c"]%list /\ token_name c = Some "c") /\
  (forall c : Ctx,
     snd (get_xml_context sax_reader self doc_abc position) = Returned c ->
     node_stack c = ["a"; "b"; "c"]%list).
Proof.
  intros Hreader Hch position.
  assert (Hp : exists c : Ctx,
             snd (parse sax_reader XmlContextParser_init doc_abc position) = Returned c /\
             node_stack c = ["a"; "b"; "c"]%list /\ token_name c = Some "c").
  { subst position. assert (ch = 7) as -> by lia.
    eexists; split; [run_parse Hreader | repeat split]. }
  split; [exact Hp |].
  destruct Hp as (c1 & Hp & Hstack & _).
  intros c Hg. destruct (get_xml_context_of_parse _ _ _ _ _ Hp Hg) as [n ->].
  exact Hstack.
Qed.

(** Each start element appends its name to the stack and each end element
    removes the last one. *)
Lemma attributes_loop_stack target_offset items :
  forall accum (c : Ctx),
    node_stack (fst (attributes_loop target_offset accum items c)) = node_stack c.
Proof.
  induction items as [| [attr_name attr_value] rest IH]; intros accum c; cbn;
    [reflexivity |].
  destruct (_ && _); [reflexivity |].
  destruct (_ && _); [reflexivity | apply IH].
Qed.

Lemma startElement_pushes tag attributes l col (c : Ctx) :
  node_stack (fst (startElement tag attributes l col c)) = (node_stack c ++ [tag])%list.
Proof.
  unfold startElement, bind, assign, context. cbn.
  destruct (_ =? _); [| reflexivity].
  unfold _build_context_from_element_line, bind, context. cbn.
  destruct (_ && _); [reflexivity |].
  rewrite attributes_loop_stack. reflexivity.
Qed.

Lemma endElement_pops tag (c : Ctx) :
  node_stack c <> [] ->
  node_stack (fst (endElement tag c)) = removelast (node_stack c).
Proof.
  intros Hne. unfold endElement, bind, context, assign.
  destruct (node_stack c) eqn:Hstack; [contradiction | reflexivity].
Qed.

End Documents.

(** ** The statements at concrete inputs

    The reader is [Ref.reader], the schema index [small_tree] or
    [raising_tree]. *)

Lemma get_xml_context_raises_past_last_line_witness :
  is_empty_document doc_a_newline = false /\
  Z.of_nat (List.length (lines doc_a_newline)) <= line {| line := 1; character := 0 |} /\
  snd (get_xml_context Ref.reader small_service doc_a_newline
         {| line := 1; character := 0 |}) = Raised IndexError.
Proof.
  assert (He : is_empty_document doc_a_newline = false) by reflexivity.
  assert (Hl : Z.of_nat (List.length (lines doc_a_newline))
               <= line {| line := 1; character := 0 |}) by (vm_compute; discriminate).
  split; [exact He |]. split; [exact Hl |].
  exact (get_xml_context_raises_past_last_line Ref.reader small_service
           doc_a_newline {| line := 1; character := 0 |} He Hl).
Defined.

Lemma root_tag_named_type_unknown_witness :
  Ref.reader (source doc_root_a) = events_root_a 1 20 /\
  0 < 2 <= 4 /\
  exists c : XmlContext string,
    snd (parse Ref.reader XmlContextParser_init doc_root_a (at_character 2)) = Returned c /\
    token_name c = Some "root" /\ token_type c = UNKNOWN /\ is_tag c = Some true.
Proof.
  assert (Hr : Ref.reader (source doc_root_a) = events_root_a 1 20) by (vm_compute; reflexivity).
  assert (Hch : 0 < 2 <= 4) by lia.
  split; [exact Hr |]. split; [exact Hch |].
  exact (proj1 (root_tag_named_type_unknown Ref.reader small_service 1 20 2 Hr Hch)).
Defined.

Lemma token_type_always_unknown_witness :
  exists c : XmlContext string,
    snd (get_xml_context Ref.reader small_service doc_root_a (at_character 2)) = Returned c /\
    token_name c = Some "root" /\ token_type c = UNKNOWN /\ is_tag c = Some true /\
    XmlContext_is_tag c = Raised TypeError.
Proof.
  eexists. split; [vm_compute; reflexivity |].
  split; [reflexivity |].
  pose proof (token_type_always_unknown Ref.reader small_service doc_root_a
                (at_character 2) _ eq_refl) as (Htype & _).
  split; [exact Htype |]. split; reflexivity.
Defined.

Lemma truncated_tag_named_type_unknown_witness :
  Ref.reader (source doc_ro) = [FatalError "unclosed token" 1 0] /\
  exists c : XmlContext string,
    snd (parse Ref.reader XmlContextParser_init doc_ro (at_character 3)) = Returned c /\
    token_name c = Some "ro" /\ token_type c = UNKNOWN /\ is_tag c = Some true.
Proof.
  assert (Hr : Ref.reader (source doc_ro) = [FatalError "unclosed token" 1 0])
    by (vm_compute; reflexivity).
  split; [exact Hr |].
  exact (proj1 (truncated_tag_named_type_unknown Ref.reader small_service 1 0 Hr)).
Defined.

Lemma attribute_key_named_type_unknown_witness :
  Ref.reader (source doc_root_a) = events_root_a 1 20 /\
  9 <= 11 <= 13 /\
  exists c : XmlContext string,
    snd (parse Ref.reader XmlContextParser_init doc_root_a (at_character 11)) = Returned c /\
    token_name c = Some "attr" /\ token_type c = UNKNOWN /\ is_attribute c = Some true.
Proof.
  assert (Hr : Ref.reader (source doc_root_a) = events_root_a 1 20) by (vm_compute; reflexivity).
  assert (Hch : 9 <= 11 <= 13) by lia.
  split; [exact Hr |]. split; [exact Hch |].
  exact (proj1 (attribute_key_named_type_unknown Ref.reader small_service 1 20 11 Hr Hch)).
Defined.

Lemma ancestor_stack_at_c_witness :
  Ref.reader (source doc_abc) = events_abc /\
  6 < 7 <= 7 /\
  exists c : XmlContext string,
    snd (parse Ref.reader XmlContextParser_init doc_abc (at_character 7)) = Returned c /\
    node_stack c = ["a"; "b"; "c"]%list /\ token_name c = Some "c".
Proof.
  assert (Hr : Ref.reader (source doc_abc) = events_abc) by (vm_compute; reflexivity).
  assert (Hch : 6 < 7 <= 7) by lia.
  split; [exact Hr |]. split; [exact Hch |].
  exact (proj1 (ancestor_stack_at_c Ref.reader small_service 7 Hr Hch)).
Defined.

(** C7, as stated, fails on the document [<]: it is neither empty nor
    whitespace-only, and the context returned for it has [is_empty]
    true. *)
Lemma is_empty_on_single_character :
  exists c : XmlContext string,
    snd (parse Ref.reader XmlContextParser_init doc_lt Position_default) = Returned c /\
    is_empty c = true /\
    whitespace_only (source doc_lt) = false /\ source doc_lt <> EmptyString.
Proof.
  eexists. split; [vm_compute; reflexivity |].
  split; [reflexivity |]. split; [reflexivity | discriminate].
Defined.

Lemma is_empty_iff_stripped_length_below_two_witness :
  snd (parse (XsdNode := string) Ref.reader XmlContextParser_init doc_blank Position_default)
  = Returned (XmlContext_init "" Position_default true) /\
  len (strip (source doc_blank)) < 2 /\
  forall other_reader : SaxReader,
    snd (parse (XsdNode := string) other_reader XmlContextParser_init doc_blank
           Position_default)
    = Returned (XmlContext_init "" Position_default true).
Proof.
  assert (Hp : snd (parse (XsdNode := string) Ref.reader XmlContextParser_init doc_blank
                      Position_default)
               = Returned (XmlContext_init "" Position_default true))
    by (vm_compute; reflexivity).
  destruct (is_empty_iff_stripped_length_below_two Ref.reader XmlContextParser_init
              doc_blank Position_default _ Hp) as (Hiff & _ & Hdefault).
  split; [exact Hp |].
  split; [exact (proj1 Hiff eq_refl) |].
  exact (proj2 (Hdefault eq_refl)).
Defined.



Lemma returned_context_invariants_witness :
  (exists c : XmlContext string,
     snd (get_xml_context Ref.reader small_service doc_blank Position_default) = Returned c /\
     is_empty c = true /\ token_type c = UNKNOWN /\ token_name c = None) /\
  (exists c : XmlContext string,
     snd (get_xml_context Ref.reader small_service doc_root_a (at_character 11)) = Returned c /\
     is_attribute c = Some true /\ exists name, token_name c = Some name).
Proof.
  split.
  - eexists. split; [vm_compute; reflexivity |]. split; [reflexivity |].
    exact (proj1 (proj2 (returned_context_invariants Ref.reader small_service doc_blank
                           Position_default _ eq_refl)) eq_refl).
  - eexists. split; [vm_compute; reflexivity |]. split; [reflexivity |].
    exact (proj2 (proj2 (returned_context_invariants Ref.reader small_service doc_root_a
                           (at_character 11) _ eq_refl)) (or_intror (or_introl eq_refl))).
Defined.

(** ** The pass over the events *)

Section Pass.

Context {XsdNode : Type}.

Let Ctx : Type := XmlContext XsdNode.

(** The exceptions that can end the pass: the two a handler raises, and
    what the reader raises itself, with a name that satisfies [Q]. *)
Let pass_exception (Q : string -> Prop) (e : Exception) (_ : Ctx) : Prop :=
  e = ContextFoundException \/ e = IndexError
  \/ exists name, e = OtherError name /\ Q name.

Let anything (c : Ctx) : Prop := True.

Lemma triple_raised {A : Type} (P : Ctx -> Prop) (m : Handler XsdNode A) N
    (E E' : Exception -> Ctx -> Prop) :
  (forall e c, E e c -> E' e c) -> triple P m N E -> triple P m N E'.
Proof.
  intros HE Hm c Hc. specialize (Hm c Hc).
  destruct (m c) as [c' [a | e]]; [exact Hm | apply HE, Hm].
Qed.

Lemma raises_found (Q : string -> Prop) (f : Ctx -> Ctx) (name : string) :
  triple anything
    (bind (assign f) (fun _ => bind (assign (set_token_name (Some name)))
                                 (fun _ => raise ContextFoundException)))
    (fun _ : unit => anything) (pass_exception Q).
Proof. intros c _. left. reflexivity. Qed.

Lemma raises_attributes_loop (Q : string -> Prop) target_offset items :
  forall accum,
    triple anything (attributes_loop target_offset accum items)
      (fun _ => anything) (pass_exception Q).
Proof.
  induction items as [| [attr_name attr_value] rest IH]; intros accum; cbn.
  - apply triple_ret. auto.
  - destruct (_ && _); [apply raises_found |].
    destruct (_ && _); [apply raises_found | apply IH].
Qed.

Lemma raises_attribute_matches_loop (Q : string -> Prop) target_offset matches :
  triple anything (attribute_matches_loop target_offset matches)
    (fun _ => anything) (pass_exception Q).
Proof.
  induction matches as [| [key value] rest IH]; cbn.
  - apply triple_ret. auto.
  - destruct (_ && _); [apply raises_found |].
    destruct (_ && _); [apply raises_found | exact IH].
Qed.

Lemma raises_dispatch (ev : SaxEvent) :
  triple anything (dispatch ev) (fun _ => anything)
    (pass_exception (fun name => ev = ReaderRaises name)).
Proof.
  destruct ev as [tag attributes l col | tag | content | message l col | name]; cbn.
  - unfold startElement.
    apply triple_bind with (M := fun _ => anything); [apply triple_assign; auto |].
    intros _. apply triple_bind with (M := fun _ => anything); [apply triple_context; auto |].
    intros c. destruct (_ =? _); [| apply triple_ret; auto].
    unfold _build_context_from_element_line.
    apply triple_bind with (M := fun _ => anything); [apply triple_context; auto |].
    intros c'. destruct (_ && _); [apply raises_found | apply raises_attributes_loop].
  - unfold endElement.
    apply triple_bind with (M := fun _ => anything); [apply triple_context; auto |].
    intros c. destruct (node_stack c).
    + apply triple_raise. intros c' _. right. left. reflexivity.
    + apply triple_assign. auto.
  - apply triple_ret. auto.
  - unfold fatalError. destruct (String.eqb _ _); [| apply triple_ret; auto].
    unfold _try_process_context_from_unclosed_token.
    apply triple_bind with (M := fun _ => anything); [apply triple_context; auto |].
    intros c. apply triple_bind with (M := fun _ => anything).
    + unfold _try_get_tag_context_at_line_position.
      apply triple_bind with (M := fun _ => anything); [apply triple_context; auto |].
      intros c'. destruct (Re.search_start_tag _); [| apply triple_ret; auto].
      destruct (_ && _); [apply raises_found | apply triple_ret; auto].
    + intros _. unfold _try_get_attribute_context_at_line_position.
      apply triple_bind with (M := fun _ => anything); [apply triple_context; auto |].
      intros c'. apply raises_attribute_matches_loop.
  - apply triple_raise. intros c _. right. right. exists name. split; reflexivity.
Qed.

Lemma raises_reader_parse (events : list SaxEvent) :
  triple anything (reader_parse events) (fun _ => anything)
    (pass_exception (fun name => In (ReaderRaises name) events)).
Proof.
  induction events as [| ev rest IH]; cbn [reader_parse].
  - apply triple_ret. auto.
  - apply triple_bind with (M := fun _ => anything).
    + eapply triple_raised; [| apply raises_dispatch].
      intros e c [H | [H | (name & H & ->)]]; [left | right; left | right; right];
        try exact H.
      exists name. split; [exact H | left; reflexivity].
    + intros _. eapply triple_raised; [| exact IH].
      intros e c [H | [H | (name & H & Hin)]]; [left | right; left | right; right];
        try exact H.
      exists name. split; [exact H | right; exact Hin].
Qed.

(** An exception that leaves [parse] is [IndexError], or one the reader
    raised itself. *)
Lemma parse_raised (sax_reader : SaxReader)
    (self : XmlContextParser) document position (e : Exception) :
  snd (parse (XsdNode := XsdNode) sax_reader self document position) = Raised e ->
  e = IndexError
  \/ exists name, e = OtherError name /\ In (ReaderRaises name) (sax_reader (source document)).
Proof.
  unfold parse, _build_xml_reader.
  destruct (is_empty_document document); [cbn; discriminate |].
  destruct (index (lines document) (line position)) as [context_line | e1] eqn:Hl.
  - pose proof (raises_reader_parse (sax_reader (source document))
                  (XmlContext_init context_line position false) I) as Hr.
    destruct (reader_parse _ _) as [c [[] | e2]]; [cbn; discriminate |].
    destruct Hr as [-> | [-> | (name & -> & Hin)]]; cbn; try discriminate.
    + intros H. injection H as <-. left. reflexivity.
    + intros H. injection H as <-. right. eauto.
  - cbn. intros H. injection H as <-. left.
    unfold index in Hl.
    destruct (_ || _); [congruence |].
    destruct (nth_error _ _); congruence.
Qed.

(** X1: [parse] returns a context, or raises [IndexError], or raises what
    the reader raised itself; the early-termination exception never leaves
    it.  With a reader that raises nothing itself the only exception is
    [IndexError]. *)
Theorem parse_outcomes (sax_reader : SaxReader)
    (self : XmlContextParser) document position :
  ((exists c : Ctx, snd (parse sax_reader self document position) = Returned c)
   \/ snd (parse (XsdNode := XsdNode) sax_reader self document position) = Raised IndexError
   \/ exists name,
        snd (parse (XsdNode := XsdNode) sax_reader self document position)
        = Raised (OtherError name)
        /\ In (ReaderRaises name) (sax_reader (source document)))
  /\ snd (parse (XsdNode := XsdNode) sax_reader self document position)
     <> Raised ContextFoundException.
Proof.
  destruct (snd (parse (XsdNode := XsdNode) sax_reader self document position))
    as [c | e] eqn:Hp.
  - split; [left; eauto | discriminate].
  - apply parse_raised in Hp as [-> | (name & -> & Hin)].
    + split; [right; left; reflexivity | discriminate].
    + split; [right; right; eauto | discriminate].
Qed.

(** The pass over [pre ++ post] is the pass over [pre] followed, if that
    one returns, by the pass over [post]. *)
Lemma reader_parse_app (pre post : list SaxEvent) (c : Ctx) :
  reader_parse (pre ++ post) c =
  match reader_parse pre c with
  | (c', Returned _) => reader_parse post c'
  | (c', Raised e) => (c', Raised e)
  end.
Proof.
  revert c. induction pre as [| ev pre IH]; intros c; cbn; [reflexivity |].
  unfold bind. destruct (dispatch ev c) as [c1 [[] | e]]; [apply IH | reflexivity].
Qed.

(** X2: early termination.  When the pass over the first events of the
    stream ends with the early-termination exception, [parse] returns the
    context as it is then; the events after them play no part. *)
Theorem parse_stops_at_found (sax_reader : SaxReader) (self : XmlContextParser)
    document position context_line (pre post : list SaxEvent) (found : Ctx) :
  is_empty_document document = false ->
  index (lines document) (line position) = Returned context_line ->
  sax_reader (source document) = (pre ++ post)%list ->
  reader_parse pre (XmlContext_init context_line position false)
  = (found, Raised ContextFoundException) ->
  snd (parse sax_reader self document position) = Returned found.
Proof.
  intros He Hl Hr Hpre.
  rewrite (parse_events sax_reader self document position context_line _ He Hl Hr).
  rewrite reader_parse_app, Hpre. reflexivity.
Qed.

(** The pass over a stream and the pass over the stream without the
    events that are let pass end in the same context with the same
    outcome. *)
Lemma reader_parse_filter_acted_on (events : list SaxEvent) (c : Ctx) :
  reader_parse (filter acted_on events) c = reader_parse events c.
Proof.
  revert c. induction events as [| ev rest IH]; intros c; [reflexivity |].
  destruct ev as [tag attributes l col | tag | content | message l col | name]; cbn.
  - unfold bind. destruct (startElement _ _ _ _ c) as [c1 [[] | e]]; [apply IH | reflexivity].
  - unfold bind. destruct (endElement _ c) as [c1 [[] | e]]; [apply IH | reflexivity].
  - apply IH.
  - unfold fatalError. destruct (String.eqb message "unclosed token") eqn:Hm; cbn.
    + unfold fatalError. rewrite Hm. cbn [character get_position]. unfold bind.
      destruct (_try_process_context_from_unclosed_token col c) as [c1 [[] | e]];
        [apply IH | reflexivity].
    + apply IH.
  - reflexivity.
Qed.

(** X3: character data, and faults whose message is not
    [unclosed token], change nothing: two readers whose streams for the
    document differ only in such events make [parse] do the same. *)
Theorem parse_ignores_passed_events (reader1 reader2 : SaxReader)
    (self : XmlContextParser) document position :
  filter acted_on (reader1 (source document)) = filter acted_on (reader2 (source document)) ->
  snd (parse (XsdNode := XsdNode) reader1 self document position)
  = snd (parse reader2 self document position).
Proof.
  intros Hsame. unfold parse, _build_xml_reader.
  destruct (is_empty_document document); [reflexivity |].
  destruct (index (lines document) (line position)) as [context_line | e]; [| reflexivity].
  rewrite <- (reader_parse_filter_acted_on (reader1 (source document))).
  rewrite <- (reader_parse_filter_acted_on (reader2 (source document))).
  rewrite Hsame. reflexivity.
Qed.

(** What one event does to the stack, whether its handler returns or
    raises. *)
Lemma attribute_matches_loop_stack target_offset matches (c : Ctx) :
  node_stack (fst (attribute_matches_loop target_offset matches c)) = node_stack c.
Proof.
  induction matches as [| [key value] rest IH]; cbn; [reflexivity |].
  destruct (_ && _); [reflexivity |].
  destruct (_ && _); [reflexivity | exact IH].
Qed.

Lemma fatalError_stack message l col (c : Ctx) :
  node_stack (fst (fatalError message l col c)) = node_stack c.
Proof.
  unfold fatalError. destruct (String.eqb _ _); [| reflexivity].
  unfold _try_process_context_from_unclosed_token, bind, context.
  unfold _try_get_tag_context_at_line_position, bind, context.
  destruct (Re.search_start_tag (document_line c)) as [g |].
  - destruct (_ && _); [reflexivity |]. cbn.
    unfold _try_get_attribute_context_at_line_position, bind, context.
    apply attribute_matches_loop_stack.
  - cbn. unfold _try_get_attribute_context_at_line_position, bind, context.
    apply attribute_matches_loop_stack.
Qed.

Lemma dispatch_stack (ev : SaxEvent) (c : Ctx) :
  node_stack (fst (dispatch ev c)) = open_after [ev] (node_stack c).
Proof.
  destruct ev as [tag attributes l col | tag | content | message l col | name];
    cbn [dispatch open_after].
  - apply startElement_pushes.
  - unfold endElement, bind, context, assign.
    destruct (node_stack c) eqn:Hstack; cbn; rewrite ?Hstack; reflexivity.
  - reflexivity.
  - apply fatalError_stack.
  - reflexivity.
Qed.

Lemma open_after_app (pre post : list SaxEvent) (stack : list string) :
  open_after (pre ++ post) stack = open_after post (open_after pre stack).
Proof.
  revert stack. induction pre as [| ev pre IH]; intros stack; [reflexivity |].
  destruct ev; cbn; apply IH.
Qed.

(** When the pass ends, by a return or by a raise, [node_stack] holds
    the names of the elements open after the events handled so far, a
    start of the stream; when it ends by a return these are all the
    events. *)
Lemma node_stack_is_open_elements (events : list SaxEvent) (c : Ctx) :
  exists pre post,
    events = (pre ++ post)%list /\
    node_stack (fst (reader_parse events c)) = open_after pre (node_stack c) /\
    (forall u, snd (reader_parse events c) = Returned u -> post = []).
Proof.
  revert c. induction events as [| ev rest IH]; intros c.
  - exists [], []. repeat split.
  - cbn [reader_parse]. unfold bind.
    pose proof (dispatch_stack ev c) as Hev.
    destruct (dispatch ev c) as [c1 [[] | e]]; cbn [fst] in Hev.
    + destruct (IH c1) as (pre & post & -> & Hstack & Hret).
      exists (ev :: pre), post. split; [reflexivity |]. split; [| exact Hret].
      rewrite Hstack, Hev.
      change (ev :: pre) with ([ev] ++ pre)%list. rewrite open_after_app. reflexivity.
    + exists [ev], rest. split; [reflexivity |]. split; [exact Hev | discriminate].
Qed.

(** X4: the [node_stack] of a context that [parse] returns holds the names
    of the elements open after a start of the reader's stream, outermost
    first; when the context has no [token_name], after the whole stream. *)
Theorem returned_node_stack_is_open_elements (sax_reader : SaxReader)
    (self : XmlContextParser) document position (c : Ctx) :
  snd (parse sax_reader self document position) = Returned c ->
  exists pre post,
    sax_reader (source document) = (pre ++ post)%list /\
    node_stack c = open_after pre [] /\
    (is_empty c = false -> token_name c = None -> post = []).
Proof.
  unfold parse, _build_xml_reader.
  destruct (is_empty_document document).
  - cbn. intros H. injection H as <-.
    exists [], (sax_reader (source document)). repeat split. discriminate.
  - destruct (index (lines document) (line position)) as [context_line | e];
      [| cbn; discriminate].
    set (c0 := XmlContext_init context_line position false : Ctx).
    destruct (node_stack_is_open_elements (sax_reader (source document)) c0)
      as (pre & post & Hsplit & Hstack & Hret).
    assert (Hinit : Inv c0 c0) by (repeat split).
    pose proof (sound_reader_parse c0 (sax_reader (source document)) c0 Hinit) as Hs.
    destruct (reader_parse (sax_reader (source document)) c0) as [c1 [[] | e]];
      cbn [fst snd] in *.
    + intros H. injection H as <-. exists pre, post.
      split; [exact Hsplit |]. split; [exact Hstack |].
      intros _ _. exact (Hret tt eq_refl).
    + destruct e; try discriminate.
      intros H. injection H as <-. exists pre, post.
      split; [exact Hsplit |]. split; [exact Hstack |].
      intros _ Hname. destruct Hs as (_ & (name & Hsome) & _). congruence.
Qed.

Lemma set_node_stack_same (c : Ctx) : set_node_stack (node_stack c) c = c.
Proof. destruct c; reflexivity. Qed.

(** The pass over a quiet, nested stream in which the reader raises
    nothing itself returns, and has changed the stack only. *)
Lemma reader_parse_quiet (events : list SaxEvent) :
  forall c : Ctx,
    quiet (line (target_position c)) events = true ->
    nested (List.length (node_stack c)) events = true ->
    reader_returns events = true ->
    reader_parse events c
    = (set_node_stack (open_after events (node_stack c)) c, Returned tt).
Proof.
  induction events as [| ev rest IH]; intros c Hq Hn Hr.
  - cbn. rewrite set_node_stack_same. reflexivity.
  - destruct ev as [tag attributes l col | tag | content | message l col | exc];
      [| | | | discriminate Hr];
      cbn [quiet nested reader_returns] in Hq, Hn, Hr;
      cbn [reader_parse dispatch open_after]; unfold bind.
    + apply andb_true_iff in Hq as [Hline Hq].
      apply negb_true_iff in Hline.
      unfold startElement, bind, assign, context.
      cbn [get_current_position line character target_position set_node_stack].
      rewrite Hline. unfold ret.
      rewrite (IH (set_node_stack (node_stack c ++ [tag]) c)).
      * reflexivity.
      * exact Hq.
      * cbn. rewrite length_app. cbn. rewrite Nat.add_1_r. exact Hn.
      * exact Hr.
    + unfold endElement, bind, context.
      destruct (node_stack c) as [| name below] eqn:Hstack; [discriminate |].
      unfold assign.
      rewrite (IH (set_node_stack (removelast (name :: below)) c)).
      * reflexivity.
      * exact Hq.
      * cbn [node_stack set_node_stack].
        assert (Hne : name :: below <> []) by discriminate.
        pose proof (app_removelast_last name Hne) as Hsplit.
        apply (f_equal (@List.length string)) in Hsplit.
        rewrite length_app in Hsplit. cbn [List.length] in Hsplit, Hn.
        replace (List.length (removelast (name :: below))) with (List.length below) by lia.
        exact Hn.
      * exact Hr.
    + unfold characters, ret. apply IH; assumption.
    + apply andb_true_iff in Hq as [Hm Hq].
      apply negb_true_iff in Hm.
      unfold fatalError. rewrite Hm. unfold ret. apply IH; assumption.
Qed.

(** X5: on a document that is not empty, when no element starts on the
    cursor's line, no fault is [unclosed token], the stream is nested and
    the reader raises nothing itself, [parse] returns the initial context
    with only its [node_stack] assigned: no token is found, whatever the
    cursor's character. *)
Theorem parse_finds_nothing_off_line (sax_reader : SaxReader) (self : XmlContextParser)
    document position context_line :
  is_empty_document document = false ->
  index (lines document) (line position) = Returned context_line ->
  quiet (line position) (sax_reader (source document)) = true ->
  nested 0 (sax_reader (source document)) = true ->
  reader_returns (sax_reader (source document)) = true ->
  snd (parse (XsdNode := XsdNode) sax_reader self document position)
  = Returned (set_node_stack (open_after (sax_reader (source document)) [])
                (XmlContext_init context_line position false)).
Proof.
  intros He Hl Hq Hn Hr.
  rewrite (parse_events sax_reader self document position context_line _ He Hl eq_refl).
  rewrite reader_parse_quiet; [reflexivity | exact Hq | exact Hn | exact Hr].
Qed.

End Pass.

(** ** When a call returns, and what it raises *)

Section Outcomes.

Context {XsdNode : Type}.
Variable sax_reader : SaxReader.

Let Ctx : Type := XmlContext XsdNode.

(** A list index returns for the indices from [-len] up to [len - 1]. *)
Lemma index_returns_iff {A : Type} (l : list A) (i : Z) :
  (exists x, index l i = Returned x)
  <-> - Z.of_nat (List.length l) <= i < Z.of_nat (List.length l).
Proof.
  unfold index. split.
  - intros [x Hx].
    destruct (Z.ltb_spec i 0) as [Hneg | Hpos].
    + destruct (Z.ltb_spec (i + Z.of_nat (List.length l)) 0) as [H1 | H1];
        [cbn in Hx; discriminate |].
      destruct (Z.leb_spec (Z.of_nat (List.length l)) (i + Z.of_nat (List.length l)));
        [cbn in Hx; discriminate | lia].
    + destruct (Z.ltb_spec i 0) as [H1 | H1]; [lia |].
      destruct (Z.leb_spec (Z.of_nat (List.length l)) i); [cbn in Hx; discriminate | lia].
  - intros Hrange.
    set (j := if i <? 0 then i + Z.of_nat (List.length l) else i).
    assert (Hj : 0 <= j < Z.of_nat (List.length l)).
    { subst j. destruct (Z.ltb_spec i 0); lia. }
    destruct (Z.ltb_spec j 0) as [H1 | _]; [lia |].
    destruct (Z.leb_spec (Z.of_nat (List.length l)) j) as [H2 | _]; [lia |].
    cbn [orb].
    destruct (nth_error l (Z.to_nat j)) as [x |] eqn:Hnth; [eauto |].
    apply nth_error_None in Hnth. lia.
Qed.

Lemma index_raises_index_error {A : Type} (l : list A) (i : Z) (e : Exception) :
  index l i = Raised e -> e = IndexError.
Proof.
  unfold index. destruct (_ || _); [congruence |].
  destruct (nth_error _ _); congruence.
Qed.

(** X6: for a reader whose stream is nested and that raises nothing
    itself, [parse] returns a context exactly when the document is empty or
    the line index is one of [-len(lines)] .. [len(lines) - 1]; a negative
    index counts from the last line. *)
Theorem parse_returns_iff_line_in_range (self : XmlContextParser) document position :
  nested 0 (sax_reader (source document)) = true ->
  reader_returns (sax_reader (source document)) = true ->
  ((exists c : Ctx, snd (parse sax_reader self document position) = Returned c)
   <-> is_empty_document document = true
       \/ - Z.of_nat (List.length (lines document)) <= line position
          < Z.of_nat (List.length (lines document))).
Proof.
  intros Hn Hq. split.
  - intros [c Hc].
    destruct (is_empty_document document) eqn:He; [left; reflexivity | right].
    apply index_returns_iff.
    destruct (index (lines document) (line position)) as [l | e] eqn:Hl; [eauto |].
    rewrite (parse_out_of_range sax_reader self document position e He Hl) in Hc.
    discriminate.
  - intros [He | Hrange].
    + rewrite (parse_empty sax_reader self document position He). eauto.
    + apply index_returns_iff in Hrange as [l Hl].
      exact (parse_returns_in_range sax_reader self document position l Hl Hn Hq).
Qed.

(** X7: on a document that is not empty, a context returned by
    [get_xml_context] records the request: [document_line] is the text of
    the cursor's line, [target_position] is the position asked for, and
    [is_empty] is false. *)
Theorem returned_context_records_request (self : XmlContextService XsdNode)
    document position (c : Ctx) :
  is_empty_document document = false ->
  snd (get_xml_context sax_reader self document position) = Returned c ->
  index (lines document) (line position) = Returned (document_line c) /\
  target_position c = position /\ is_empty c = false.
Proof.
  intros He H. apply get_xml_context_returned in H as (c1 & n & Hp & ->).
  apply parse_returned in Hp as [[He' _] | (_ & l & Hl & HU & _)]; [congruence |].
  destruct HU as (Hline & Hpos & Hempty & _). cbn in *.
  rewrite Hline. auto.
Qed.

(** X8: what [get_xml_context] returns differs from what [parse] returns
    in [node] only, and the only exceptions that leave it are [IndexError],
    those the lookup in the schema index raises and those the reader
    raises itself. *)
Theorem get_xml_context_outcome (self : XmlContextService XsdNode) document position :
  match snd (get_xml_context sax_reader self document position) with
  | Returned c =>
      exists c1 n,
        snd (parse sax_reader XmlContextParser_init document position) = Returned c1 /\
        c = set_node n c1
  | Raised e =>
      e = IndexError
      \/ (exists name, find_node_by_name (xsd_tree self) name = Raised e)
      \/ (exists name, e = OtherError name
                       /\ In (ReaderRaises name) (sax_reader (source document)))
  end.
Proof.
  destruct (snd (get_xml_context sax_reader self document position)) as [c | e] eqn:Hg.
  - exact (get_xml_context_returned sax_reader self document position c Hg).
  - unfold get_xml_context in Hg.
    pose proof (parse_raised (XsdNode := XsdNode) sax_reader
                  XmlContextParser_init document position) as Hp.
    destruct (parse sax_reader XmlContextParser_init document position) as [p [c1 | e1]];
      cbn in Hp, Hg.
    + unfold update_node_definition in Hg.
      destruct (index (node_stack c1) (-1)) as [name | e2] eqn:Hi.
      * destruct (find_node_by_name (xsd_tree self) name) as [found | e3] eqn:Hf;
          [discriminate |].
        destruct e3; try discriminate; injection Hg as <-; right; left; eauto.
      * apply index_raises_index_error in Hi. subst e2. discriminate.
    + injection Hg as <-. destruct (Hp e1 eq_refl) as [H | H]; [left | right; right];
        exact H.
Qed.

(** X20: [parse] catches the early-termination exception only.  When the
    reader raises an exception itself, after events that the handlers let
    pass, that exception leaves [parse], and with it [get_xml_context]: no
    context is returned. *)
Theorem reader_exception_leaves_get_xml_context (self : XmlContextService XsdNode)
    document position context_line (pre post : list SaxEvent) (name : string) :
  is_empty_document document = false ->
  index (lines document) (line position) = Returned context_line ->
  sax_reader (source document) = (pre ++ ReaderRaises name :: post)%list ->
  snd (reader_parse pre (XmlContext_init (XsdNode := XsdNode) context_line position false))
  = Returned tt ->
  snd (parse (XsdNode := XsdNode) sax_reader XmlContextParser_init document position)
  = Raised (OtherError name) /\
  snd (get_xml_context sax_reader self document position) = Raised (OtherError name).
Proof.
  intros He Hl Hr Hpre.
  assert (Hp : snd (parse (XsdNode := XsdNode) sax_reader XmlContextParser_init
                      document position) = Raised (OtherError name)).
  { rewrite (parse_events sax_reader XmlContextParser_init document position context_line
               _ He Hl Hr).
    rewrite reader_parse_app.
    destruct (reader_parse pre (XmlContext_init context_line position false))
      as [c1 r1]. cbn [snd] in Hpre. subst r1. reflexivity. }
  split; [exact Hp |].
  unfold get_xml_context.
  destruct (parse sax_reader XmlContextParser_init document position) as [p [c | e]];
    cbn [snd] in Hp; [discriminate Hp | cbn; exact Hp].
Qed.

End Outcomes.

(** ** The spans of one element *)

Section Spans.

Context {XsdNode : Type}.

Let Ctx : Type := XmlContext XsdNode.

Lemma len_nonneg (s : string) : 0 <= len s.
Proof. unfold len. lia. Qed.

Lemma attributes_width_nonneg (items : list (string * string)) :
  0 <= attributes_width items.
Proof.
  induction items as [| [k v] rest IH]; cbn; [lia |].
  pose proof (len_nonneg k) as Hnn1. pose proof (len_nonneg v) as Hnn2. lia.
Qed.

Lemma attributes_width_app (pre post : list (string * string)) :
  attributes_width (pre ++ post) = attributes_width pre + attributes_width post.
Proof.
  induction pre as [| [k v] rest IH]; cbn; [reflexivity | rewrite IH; lia].
Qed.

(** A cursor at or before the running offset is in no span. *)
Lemma attributes_loop_before target_offset items :
  forall accum (c : Ctx),
    target_offset <= accum ->
    attributes_loop target_offset accum items c = (c, Returned tt).
Proof.
  induction items as [| [k v] rest IH]; intros accum c Hle; cbn; [reflexivity |].
  pose proof (len_nonneg k) as Hnn3. pose proof (len_nonneg v) as Hnn4.
  destruct (Z.leb_spec (accum + 1) target_offset) as [H1 | _]; [lia |].
  cbn [andb].
  destruct (Z.leb_spec (accum + 1 + len k + 2) target_offset) as [H2 | _]; [lia |].
  cbn [andb]. apply IH. lia.
Qed.

(** A cursor past the spans of the attributes [pre] goes on to the ones
    after them. *)
Lemma attributes_loop_skip target_offset pre :
  forall accum rest (c : Ctx),
    accum + attributes_width pre < target_offset ->
    attributes_loop target_offset accum (pre ++ rest) c
    = attributes_loop target_offset (accum + attributes_width pre) rest c.
Proof.
  induction pre as [| [k v] pre IH]; intros accum rest c Hlt; cbn.
  - rewrite Z.add_0_r. reflexivity.
  - cbn in Hlt.
    pose proof (len_nonneg k) as Hnn5. pose proof (len_nonneg v) as Hnn6.
    pose proof (attributes_width_nonneg pre) as Hnn7.
    destruct (Z.leb_spec target_offset (accum + 1 + len k)) as [H1 | _]; [lia |].
    rewrite andb_false_r.
    destruct (Z.leb_spec target_offset (accum + 1 + len k + 2 + len v)) as [H2 | _]; [lia |].
    rewrite andb_false_r.
    rewrite IH by lia. f_equal. lia.
Qed.

(** X9: in [_build_context_from_element_line], the span of the name of an
    attribute begins at the element's start plus the length of the tag
    plus 2, plus the lengths of the names and values of the attributes
    before it and 3 for each of them, and is as long as the name, both
    ends included.  A cursor in it makes the handler bind [is_attribute]
    to [True], assign the name to [token_name] and raise the
    early-termination exception. *)
Theorem build_context_attribute_name_span (start_position : Z) (tag : string)
    (pre post : list (string * string)) (attr_name attr_value : string) (c : Ctx) :
  let key_start := start_position + len tag + 2 + attributes_width pre in
  key_start <= character (target_position c) <= key_start + len attr_name ->
  _build_context_from_element_line start_position tag
    (pre ++ (attr_name, attr_value) :: post) c
  = (set_token_name (Some attr_name) (set_is_attribute true c),
     Raised ContextFoundException).
Proof.
  intros key_start Hspan. subst key_start.
  pose proof (len_nonneg tag) as Hnn8. pose proof (attributes_width_nonneg pre) as Hnn9.
  unfold _build_context_from_element_line, bind, context.
  destruct (Z.leb_spec (character (target_position c)) (start_position + len tag))
    as [H1 | _]; [lia |].
  rewrite andb_false_r.
  rewrite attributes_loop_skip by lia. cbn.
  destruct (Z.leb_spec (start_position + len tag + 1 + attributes_width pre + 1)
              (character (target_position c))) as [_ | H2]; [| lia].
  destruct (Z.leb_spec (character (target_position c))
              (start_position + len tag + 1 + attributes_width pre + 1 + len attr_name))
    as [_ | H3]; [| lia].
  reflexivity.
Qed.

(** X10: the span of the value of that attribute begins 2 past the end of
    the span of its name and is as long as the value, both ends included.
    A cursor in it makes the handler bind [is_attribute_value] to [True],
    assign the value to [token_name] and raise the early-termination
    exception. *)
Theorem build_context_attribute_value_span (start_position : Z) (tag : string)
    (pre post : list (string * string)) (attr_name attr_value : string) (c : Ctx) :
  let value_start :=
    start_position + len tag + 2 + attributes_width pre + len attr_name + 2 in
  value_start <= character (target_position c) <= value_start + len attr_value ->
  _build_context_from_element_line start_position tag
    (pre ++ (attr_name, attr_value) :: post) c
  = (set_token_name (Some attr_value) (set_is_attribute_value true c),
     Raised ContextFoundException).
Proof.
  intros value_start Hspan. subst value_start.
  pose proof (len_nonneg tag) as Hnn10. pose proof (attributes_width_nonneg pre) as Hnn11.
  pose proof (len_nonneg attr_name) as Hnn12.
  unfold _build_context_from_element_line, bind, context.
  destruct (Z.leb_spec (character (target_position c)) (start_position + len tag))
    as [H1 | _]; [lia |].
  rewrite andb_false_r.
  rewrite attributes_loop_skip by lia. cbn.
  destruct (Z.leb_spec (character (target_position c))
              (start_position + len tag + 1 + attributes_width pre + 1 + len attr_name))
    as [H2 | _]; [lia |].
  rewrite andb_false_r.
  destruct (Z.leb_spec
              (start_position + len tag + 1 + attributes_width pre + 1 + len attr_name + 2)
              (character (target_position c))) as [_ | H3]; [| lia].
  destruct (Z.leb_spec (character (target_position c))
              (start_position + len tag + 1 + attributes_width pre + 1 + len attr_name + 2
               + len attr_value)) as [_ | H4]; [| lia].
  reflexivity.
Qed.

(** X11: a cursor at or before the element's start is in none of its
    spans: the handler returns and leaves the context as it was. *)
Theorem build_context_cursor_not_after_start (start_position : Z) (tag : string)
    (attributes : list (string * string)) (c : Ctx) :
  character (target_position c) <= start_position ->
  _build_context_from_element_line start_position tag attributes c = (c, Returned tt).
Proof.
  intros Hle. pose proof (len_nonneg tag) as Hnn13.
  unfold _build_context_from_element_line, bind, context.
  destruct (Z.ltb_spec start_position (character (target_position c))) as [H1 | _]; [lia |].
  cbn [andb]. apply attributes_loop_before. lia.
Qed.

(** X12: the position one past the end of the span of a name, between it
    and the span of the value, belongs to neither: with the cursor there
    on the last attribute the handler returns and leaves the context as
    it was. *)
Theorem build_context_gap_after_name (start_position : Z) (tag : string)
    (pre : list (string * string)) (attr_name attr_value : string) (c : Ctx) :
  character (target_position c)
  = start_position + len tag + 2 + attributes_width pre + len attr_name + 1 ->
  _build_context_from_element_line start_position tag
    (pre ++ [(attr_name, attr_value)]) c
  = (c, Returned tt).
Proof.
  intros Hat.
  pose proof (len_nonneg tag) as Hnn14. pose proof (attributes_width_nonneg pre) as Hnn15.
  pose proof (len_nonneg attr_name) as Hnn16. pose proof (len_nonneg attr_value) as Hnn17.
  unfold _build_context_from_element_line, bind, context.
  destruct (Z.leb_spec (character (target_position c)) (start_position + len tag))
    as [H1 | _]; [lia |].
  rewrite andb_false_r.
  rewrite attributes_loop_skip by lia. cbn.
  destruct (Z.leb_spec (character (target_position c))
              (start_position + len tag + 1 + attributes_width pre + 1 + len attr_name))
    as [H2 | _]; [lia |].
  rewrite andb_false_r.
  destruct (Z.leb_spec
              (start_position + len tag + 1 + attributes_width pre + 1 + len attr_name + 2)
              (character (target_position c))) as [H3 | _]; [lia |].
  reflexivity.
Qed.

Lemma string_app_assoc (a b c : string) : ((a ++ b) ++ c = a ++ (b ++ c))%string.
Proof. induction a as [| x a IH]; cbn; [reflexivity | rewrite IH; reflexivity]. Qed.

Lemma len_app (a b : string) : len (a ++ b) = len a + len b.
Proof.
  unfold len. induction a as [| x a IH]; cbn [append String.length]; [lia |].
  rewrite !Nat2Z.inj_succ, IH. lia.
Qed.

Lemma render_attributes_app (pre post : list (string * string)) :
  render_attributes (pre ++ post)
  = (render_attributes pre ++ render_attributes post)%string.
Proof.
  induction pre as [| x pre IH]; cbn [render_attributes List.app]; [reflexivity |].
  rewrite IH, string_app_assoc. reflexivity.
Qed.

Lemma len_render_attributes (items : list (string * string)) :
  len (render_attributes items)
  = attributes_width items + Z.of_nat (List.length items).
Proof.
  induction items as [| [k v] rest IH]; [reflexivity |].
  cbn [render_attributes attributes_width List.length].
  unfold render_attribute. cbn [fst snd].
  rewrite !len_app, IH, Nat2Z.inj_succ.
  change (len " ") with 1. change (len "=") with 1. change (len quot) with 1. lia.
Qed.

(** Where the name of an attribute stands in a start tag written on one
    line. *)
Lemma rendered_attribute_split (before after tag : string)
    (pre post : list (string * string)) (attr_name attr_value : string) :
  (before ++ render_start_tag tag (pre ++ (attr_name, attr_value) :: post) ++ after
   = text_before_name before tag pre ++ attr_name ++ "=" ++ quot ++ attr_value ++ quot
     ++ render_attributes post ++ ">" ++ after)%string /\
  len (text_before_name before tag pre)
  = len before + len tag + 2 + attributes_width pre + Z.of_nat (List.length pre).
Proof.
  unfold text_before_name. split.
  - unfold render_start_tag.
    rewrite render_attributes_app. cbn [render_attributes].
    unfold render_attribute. cbn [fst snd].
    repeat rewrite string_app_assoc. reflexivity.
  - rewrite !len_app, len_render_attributes.
    change (len "<") with 1. change (len " ") with 1. lia.
Qed.

(** The handler with the cursor in the span of a name, and with the
    cursor one past it. *)
Lemma build_context_in_name_span (start_position : Z) (tag : string)
    (pre post : list (string * string)) (attr_name attr_value : string) (c : Ctx) :
  start_position + len tag + 2 + attributes_width pre <= character (target_position c)
  <= start_position + len tag + 2 + attributes_width pre + len attr_name ->
  _build_context_from_element_line start_position tag
    (pre ++ (attr_name, attr_value) :: post) c
  = (set_token_name (Some attr_name) (set_is_attribute true c),
     Raised ContextFoundException).
Proof.
  intros Hspan.
  pose proof (len_nonneg tag) as Htag. pose proof (attributes_width_nonneg pre) as Hpre.
  unfold _build_context_from_element_line, bind, context.
  destruct (Z.leb_spec (character (target_position c)) (start_position + len tag))
    as [H1 | _]; [lia |].
  rewrite andb_false_r.
  rewrite attributes_loop_skip by lia. cbn.
  destruct (Z.leb_spec (start_position + len tag + 1 + attributes_width pre + 1)
              (character (target_position c))) as [_ | H2]; [| lia].
  destruct (Z.leb_spec (character (target_position c))
              (start_position + len tag + 1 + attributes_width pre + 1 + len attr_name))
    as [_ | H3]; [| lia].
  reflexivity.
Qed.

Lemma build_context_past_name_span (start_position : Z) (tag : string)
    (pre post : list (string * string)) (attr_name attr_value : string) (c : Ctx) :
  character (target_position c)
  = start_position + len tag + 2 + attributes_width pre + len attr_name + 1 ->
  _build_context_from_element_line start_position tag
    (pre ++ (attr_name, attr_value) :: post) c
  = (c, Returned tt).
Proof.
  intros Hat.
  pose proof (len_nonneg tag) as Htag. pose proof (attributes_width_nonneg pre) as Hpre.
  pose proof (len_nonneg attr_name) as Hname. pose proof (len_nonneg attr_value) as Hvalue.
  unfold _build_context_from_element_line, bind, context.
  destruct (Z.leb_spec (character (target_position c)) (start_position + len tag))
    as [H1 | _]; [lia |].
  rewrite andb_false_r.
  rewrite attributes_loop_skip by lia. cbn.
  destruct (Z.leb_spec (character (target_position c))
              (start_position + len tag + 1 + attributes_width pre + 1 + len attr_name))
    as [H2 | _]; [lia |].
  rewrite andb_false_r.
  destruct (Z.leb_spec
              (start_position + len tag + 1 + attributes_width pre + 1 + len attr_name + 2)
              (character (target_position c))) as [H3 | _]; [lia |].
  cbn [andb]. apply attributes_loop_before. lia.
Qed.

(** X13: [_build_context_from_element_line] against a start tag written
    on one line, with one space before each attribute and the values in
    double quotes; [before] is the text of the line before the tag, so
    that the element starts at [len before].  The name of the attribute
    that comes after the attributes [pre] stands in the line right after
    [text_before_name before tag pre].  With the cursor [j] characters
    into that name (from 0, on its first character, to its length, just
    past its last) the handler finds the name only while [j] plus the
    number of attributes before it is at most the length of the name: the
    span it computes begins one character early for each attribute before.
    So for the second attribute, with the cursor just past the last
    character of its name, the handler returns and finds nothing. *)
Theorem build_context_on_rendered_name (before after tag : string)
    (pre post : list (string * string)) (attr_name attr_value : string) :
  let left := text_before_name before tag pre in
  let attributes := (pre ++ (attr_name, attr_value) :: post)%list in
  (before ++ render_start_tag tag attributes ++ after
   = left ++ attr_name ++ "=" ++ quot ++ attr_value ++ quot
     ++ render_attributes post ++ ">" ++ after)%string /\
  (forall (c : Ctx) (j : Z),
     0 <= j -> Z.of_nat (List.length pre) + j <= len attr_name ->
     character (target_position c) = len left + j ->
     _build_context_from_element_line (len before) tag attributes c
     = (set_token_name (Some attr_name) (set_is_attribute true c),
        Raised ContextFoundException)) /\
  (forall c : Ctx,
     List.length pre = 1%nat ->
     character (target_position c) = len left + len attr_name ->
     _build_context_from_element_line (len before) tag attributes c = (c, Returned tt)).
Proof.
  intros left attributes. subst left attributes.
  destruct (rendered_attribute_split before after tag pre post attr_name attr_value)
    as [Htext Hlen].
  split; [exact Htext |]. split.
  - intros c j Hj Hfit Hat. apply build_context_in_name_span. lia.
  - intros c Hone Hat. apply build_context_past_name_span. lia.
Qed.

End Spans.

(** ** Where a token name comes from *)

Section Provenance.

Context {XsdNode : Type}.

Let Ctx : Type := XmlContext XsdNode.

Variable line_text : string.
Variable target : Position.

(** Nothing found yet, in a context for the line [line_text] and the
    position [target]. *)
Let searching (c : Ctx) : Prop :=
  Pending c /\ document_line c = line_text /\ target_position c = target.

(** The early-termination exception comes with a name that satisfies
    [Q]. *)
Let found_with (Q : string -> Prop) (e : Exception) (c : Ctx) : Prop :=
  e = ContextFoundException -> exists name, token_name c = Some name /\ Q name.

Lemma triple_exceptional {A : Type} (P : Ctx -> Prop) (m : Handler XsdNode A) N
    (E E' : Exception -> Ctx -> Prop) :
  (forall e c, E e c -> E' e c) -> triple P m N E -> triple P m N E'.
Proof.
  intros HE Hm c Hc. specialize (Hm c Hc).
  destruct (m c) as [c' [a | e]]; [exact Hm | apply HE, Hm].
Qed.

Lemma named_found (f : Ctx -> Ctx) (name : string) (Q : string -> Prop) :
  Q name ->
  triple searching
    (bind (assign f) (fun _ => bind (assign (set_token_name (Some name)))
                                 (fun _ => raise ContextFoundException)))
    (fun _ : unit => searching) (found_with Q).
Proof. intros HQ c _ _. exists name. split; [reflexivity | exact HQ]. Qed.

Lemma named_attributes_loop target_offset items (Q : string -> Prop) :
  (forall name, In name (map fst items) \/ In name (map snd items) -> Q name) ->
  forall accum,
    triple searching (attributes_loop target_offset accum items)
      (fun _ => searching) (found_with Q).
Proof.
  induction items as [| [attr_name attr_value] rest IH]; intros HQ accum; cbn.
  - apply triple_ret. auto.
  - destruct (_ && _); [apply named_found, HQ; left; left; reflexivity |].
    destruct (_ && _); [apply named_found, HQ; right; left; reflexivity |].
    apply IH. intros name [Hin | Hin]; apply HQ; [left | right]; right; exact Hin.
Qed.

Lemma named_attribute_matches_loop target_offset matches (Q : string -> Prop) :
  (forall key value, In (key, value) matches -> Q (Re.text key) /\ Q (Re.text value)) ->
  triple searching (attribute_matches_loop target_offset matches)
    (fun _ => searching) (found_with Q).
Proof.
  induction matches as [| [key value] rest IH]; intros HQ; cbn.
  - apply triple_ret. auto.
  - destruct (_ && _); [apply named_found, (HQ key value); left; reflexivity |].
    destruct (_ && _); [apply named_found, (HQ key value); left; reflexivity |].
    apply IH. intros k v Hin. apply HQ. right. exact Hin.
Qed.

Lemma named_dispatch (ev : SaxEvent) :
  triple searching (dispatch ev) (fun _ => searching)
    (found_with (fun name => named_by_element (line target) [ev] name
                             \/ named_by_pattern line_text [ev] name)).
Proof.
  destruct ev as [tag attributes l col | tag | content | message l col | exc];
    cbn [dispatch]; [| | | | apply triple_raise; intros c _ He; discriminate].
  - intros c Hc. unfold startElement, bind, assign, context.
    set (c1 := set_node_stack (node_stack c ++ [tag]) c).
    assert (Hc1 : searching c1).
    { destruct Hc as (HP & Hl & Ht). repeat split; try apply HP; assumption. }
    cbn [get_current_position line character].
    destruct (Z.eqb_spec (l - 1) (line (target_position c1))) as [Hline | _];
      [| exact Hc1].
    assert (Ht : target_position c1 = target) by apply Hc1.
    rewrite Ht in Hline.
    assert (Hnamed : forall name,
               name = tag \/ In name (map fst attributes) \/ In name (map snd attributes) ->
               named_by_element (line target) [StartElement tag attributes l col] name
               \/ named_by_pattern line_text [StartElement tag attributes l col] name).
    { intros name Hname. left. exists tag, attributes, l, col.
      split; [left; reflexivity |]. split; [exact Hline | exact Hname]. }
    unfold _build_context_from_element_line, bind, context.
    destruct (_ && _).
    + intros _. exists tag. split; [reflexivity |]. apply Hnamed. left. reflexivity.
    + pose proof (named_attributes_loop (character (target_position c1)) attributes
                    (fun name => In name (map fst attributes) \/ In name (map snd attributes))
                    (fun _ H => H) (col + len tag + 1) c1 Hc1) as Hloop.
      destruct (attributes_loop _ _ _ c1) as [c' [[] | e]]; [exact Hloop |].
      intros He. destruct (Hloop He) as (name & Hsome & Hin).
      exists name. split; [exact Hsome |]. apply Hnamed. right. exact Hin.
  - unfold endElement.
    apply triple_bind with (M := fun _ => searching); [apply triple_context; auto |].
    intros c0. destruct (node_stack c0).
    + apply triple_raise. intros c _ He. discriminate.
    + apply triple_assign. intros c (HP & Hl & Ht). repeat split; try apply HP; assumption.
  - apply triple_ret. auto.
  - unfold fatalError.
    destruct (String.eqb_spec message "unclosed token") as [-> | _];
      [| apply triple_ret; auto].
    apply triple_exceptional with
      (E := found_with (fun name =>
              (exists g, Re.search_start_tag line_text = Some g /\ name = Re.text g) \/
              (exists key value, In (key, value) (Re.finditer_attr line_text) /\
                                 (name = Re.text key \/ name = Re.text value)))).
    { intros e c Hf He. destruct (Hf He) as (name & Hsome & Hpat).
      exists name. split; [exact Hsome |]. right. split; [| exact Hpat].
      exists l, col. left. reflexivity. }
    unfold _try_process_context_from_unclosed_token.
    apply triple_bind with (M := fun _ => searching); [apply triple_context; auto |].
    intros c0. apply triple_bind with (M := fun _ => searching).
    + unfold _try_get_tag_context_at_line_position.
      apply triple_bind with (M := fun a c => searching c /\ a = c);
        [apply triple_context; auto |].
      intros c1 c [Hc <-]. unfold searching in Hc.
      destruct Hc as (HP & Hl & Ht). rewrite Hl.
      destruct (Re.search_start_tag line_text) as [g |] eqn:Hg;
        [| cbn; repeat split; try apply HP; assumption].
      destruct (_ && _); [| cbn; repeat split; try apply HP; assumption].
      cbn. intros _. exists (Re.text g). split; [reflexivity |]. left. eauto.
    + intros _. unfold _try_get_attribute_context_at_line_position.
      apply triple_bind with (M := fun a c => searching c /\ a = c);
        [apply triple_context; auto |].
      intros c1 c [Hc <-]. pose proof Hc as (HP & Hl & Ht). rewrite Hl.
      apply (named_attribute_matches_loop _ (Re.finditer_attr line_text)); [| exact Hc].
      intros key value Hin. split; right; exists key, value; auto.
Qed.

Lemma named_incl (events events' : list SaxEvent) (text : string) (t : Z)
    (name : string) :
  (forall ev, In ev events -> In ev events') ->
  named_by_element t events name \/ named_by_pattern text events name ->
  named_by_element t events' name \/ named_by_pattern text events' name.
Proof.
  intros Hincl [(tag & attributes & l & col & Hin & Hrest) | [(l & col & Hin) Hpat]].
  - left. exists tag, attributes, l, col. split; [apply Hincl, Hin | exact Hrest].
  - right. split; [exists l, col; apply Hincl, Hin | exact Hpat].
Qed.

Lemma named_reader_parse (events : list SaxEvent) :
  triple searching (reader_parse events) (fun _ => searching)
    (found_with (fun name => named_by_element (line target) events name
                             \/ named_by_pattern line_text events name)).
Proof.
  induction events as [| ev rest IH]; cbn [reader_parse].
  - apply triple_ret. auto.
  - apply triple_bind with (M := fun _ => searching).
    + eapply triple_exceptional; [| apply named_dispatch].
      intros e c Hf He. destruct (Hf He) as (name & Hsome & Hnamed).
      exists name. split; [exact Hsome |].
      apply (named_incl [ev]); [| exact Hnamed].
      intros ev' [<- | []]. left. reflexivity.
    + intros _. eapply triple_exceptional; [| exact IH].
      intros e c Hf He. destruct (Hf He) as (name & Hsome & Hnamed).
      exists name. split; [exact Hsome |].
      apply (named_incl rest); [| exact Hnamed].
      intros ev' Hin. right. exact Hin.
Qed.

End Provenance.

Section Names.

Context {XsdNode : Type}.
Variable sax_reader : SaxReader.

Let Ctx : Type := XmlContext XsdNode.

(** X14: the [token_name] of a context that [parse] returns is never made
    up.  It is the tag, an attribute name or an attribute value of an
    element that the reader reports as starting on the cursor's line; or,
    when the reader reports an [unclosed token] fault, the text of a group
    of one of the two patterns matched on [document_line]. *)
Theorem token_name_comes_from_document (self : XmlContextParser) document position
    (c : Ctx) (name : string) :
  snd (parse sax_reader self document position) = Returned c ->
  token_name c = Some name ->
  named_by_element (line position) (sax_reader (source document)) name
  \/ named_by_pattern (document_line c) (sax_reader (source document)) name.
Proof.
  unfold parse, _build_xml_reader.
  destruct (is_empty_document document).
  { cbn. intros H. injection H as <-. discriminate. }
  destruct (index (lines document) (line position)) as [context_line | e];
    [| cbn; discriminate].
  set (c0 := XmlContext_init context_line position false : Ctx).
  assert (Hinit : Inv c0 c0) by (repeat split).
  pose proof (sound_reader_parse c0 (sax_reader (source document)) c0 Hinit) as Hs.
  pose proof (named_reader_parse context_line position (sax_reader (source document)) c0)
    as Hn.
  cbv zeta in Hn. specialize (Hn (conj (proj2 Hinit) (conj eq_refl eq_refl))).
  destruct (reader_parse (sax_reader (source document)) c0) as [c1 [[] | e]].
  - cbn. intros H. injection H as <-. destruct Hn as ((Hnone & _) & _). congruence.
  - destruct e; cbn; try discriminate.
    intros H Hname. injection H as <-.
    destruct Hs as ((Hline & _) & _). cbn in Hline. rewrite Hline.
    destruct (Hn eq_refl) as (name' & Hsome & Hnamed).
    rewrite Hname in Hsome. injection Hsome as <-. exact Hnamed.
Qed.

End Names.

(** ** Stripping, and the recovery of a tag *)

Section Text.

Context {XsdNode : Type}.

Let Ctx : Type := XmlContext XsdNode.

Lemma rev_onto_app (s acc : string) : rev_onto s acc = (reverse s ++ acc)%string.
Proof.
  unfold reverse. revert acc.
  induction s as [| c s IH]; intros acc; cbn [rev_onto]; [reflexivity |].
  rewrite (IH (String c acc)), (IH (String c EmptyString)), string_app_assoc.
  reflexivity.
Qed.

Lemma string_app_nil_r (s : string) : (s ++ "")%string = s.
Proof. induction s as [| c s IH]; cbn; [reflexivity | rewrite IH; reflexivity]. Qed.

Lemma reverse_cons (c : ascii) (s : string) :
  reverse (String c s) = (reverse s ++ String c EmptyString)%string.
Proof. unfold reverse at 1. cbn [rev_onto]. apply rev_onto_app. Qed.

Lemma reverse_app (a b : string) : reverse (a ++ b) = (reverse b ++ reverse a)%string.
Proof.
  induction a as [| c a IH]; cbn [append].
  - change (reverse "") with EmptyString. rewrite string_app_nil_r. reflexivity.
  - rewrite !reverse_cons, IH, string_app_assoc. reflexivity.
Qed.

Lemma reverse_involutive (s : string) : reverse (reverse s) = s.
Proof.
  induction s as [| c s IH]; [reflexivity |].
  rewrite reverse_cons, reverse_app, IH. reflexivity.
Qed.

Lemma count_nonspace_app (a b : string) :
  count_nonspace (a ++ b) = (count_nonspace a + count_nonspace b)%nat.
Proof.
  induction a as [| c a IH]; cbn; [reflexivity |].
  destruct (isspace c); rewrite IH; reflexivity.
Qed.

Lemma count_nonspace_reverse (s : string) : count_nonspace (reverse s) = count_nonspace s.
Proof.
  induction s as [| c s IH]; [reflexivity |].
  rewrite reverse_cons, count_nonspace_app, IH. cbn.
  destruct (isspace c); lia.
Qed.

Lemma count_nonspace_lstrip (s : string) : count_nonspace (lstrip s) = count_nonspace s.
Proof.
  induction s as [| c s IH]; cbn; [reflexivity |].
  destruct (isspace c) eqn:Hc; [exact IH |]. cbn. rewrite Hc. reflexivity.
Qed.

Lemma count_nonspace_strip (s : string) : count_nonspace (strip s) = count_nonspace s.
Proof.
  unfold strip, rstrip.
  rewrite count_nonspace_reverse, count_nonspace_lstrip, count_nonspace_reverse.
  apply count_nonspace_lstrip.
Qed.

Lemma count_nonspace_le_length (s : string) : (count_nonspace s <= String.length s)%nat.
Proof.
  induction s as [| c s IH]; cbn; [lia |]. destruct (isspace c); lia.
Qed.

(** What [lstrip] leaves is empty or begins with a character that is not
    whitespace, and what it removes is whitespace. *)
Lemma lstrip_head (s : string) :
  lstrip s = EmptyString \/ exists a r, lstrip s = String a r /\ isspace a = false.
Proof.
  induction s as [| c s IH]; cbn; [left; reflexivity |].
  destruct (isspace c) eqn:Hc; [exact IH | right; eauto].
Qed.

Lemma lstrip_split (s : string) :
  exists p, s = (p ++ lstrip s)%string /\ count_nonspace p = O.
Proof.
  induction s as [| c s IH]; cbn.
  - exists EmptyString. split; reflexivity.
  - destruct (isspace c) eqn:Hc.
    + destruct IH as (p & Hs & Hp). exists (String c p). cbn. rewrite Hc.
      split; [f_equal; exact Hs | exact Hp].
    + exists EmptyString. split; reflexivity.
Qed.

(** The first character of a string with no character that is not
    whitespace is whitespace. *)
Lemma count_nonspace_zero_head (a : ascii) (r : string) :
  count_nonspace (String a r) = O -> isspace a = true.
Proof. cbn. destruct (isspace a); [reflexivity | discriminate]. Qed.

Lemma strip_short_of_count (s : string) :
  (count_nonspace s <= 1)%nat -> (String.length (strip s) < 2)%nat.
Proof.
  intros Hcount.
  pose proof (count_nonspace_strip s) as Hw.
  destruct (strip s) as [| a [| b w2]] eqn:Ew; cbn [String.length]; [lia | lia | exfalso].
  (* [lstrip s] is [strip s] followed by whitespace *)
  destruct (lstrip_split (reverse (lstrip s))) as (p & Hrev & Hp).
  assert (Ht : lstrip s = (strip s ++ reverse p)%string).
  { rewrite <- (reverse_involutive (lstrip s)) at 1. rewrite Hrev, reverse_app.
    reflexivity. }
  rewrite Ew in Ht.
  (* so [a] is not whitespace *)
  assert (Ha : isspace a = false).
  { destruct (lstrip_head s) as [Hnil | (a' & r & Hcons & Ha')].
    - rewrite Hnil in Ht. discriminate.
    - rewrite Hcons in Ht. cbn in Ht. injection Ht as -> _. exact Ha'. }
  (* and the rest is whitespace *)
  assert (Hrest : count_nonspace (String b w2) = O).
  { change (count_nonspace (String a (String b w2)))
      with (if isspace a then count_nonspace (String b w2)
            else S (count_nonspace (String b w2))) in Hw.
    rewrite Ha in Hw. lia. }
  (* the reverse of [strip s] is what [lstrip] left, and begins with whitespace *)
  assert (Hu : reverse (String a (String b w2)) = lstrip (reverse (lstrip s))).
  { rewrite <- Ew. unfold strip, rstrip. apply reverse_involutive. }
  rewrite reverse_cons in Hu.
  destruct (reverse (String b w2)) as [| b' r'] eqn:Er.
  - apply (f_equal reverse) in Er. rewrite reverse_involutive in Er. discriminate.
  - assert (Hb' : isspace b' = true).
    { apply (count_nonspace_zero_head b' r').
      rewrite <- Er, count_nonspace_reverse. exact Hrest. }
    cbn [append] in Hu.
    destruct (lstrip_head (reverse (lstrip s))) as [Hnil | (a' & r & Hcons & Ha')].
    + rewrite Hnil in Hu. discriminate.
    + rewrite Hcons in Hu. injection Hu as -> _. congruence.
Qed.

(** X15: [is_empty_document] answers [True] exactly for the documents
    with at most one character that is not whitespace, wherever that
    character is. *)
Theorem is_empty_document_iff_one_nonspace (document : Document) :
  is_empty_document document = true <-> (count_nonspace (source document) <= 1)%nat.
Proof.
  rewrite is_empty_document_spec. unfold len. split.
  - intros Hlen.
    rewrite <- count_nonspace_strip.
    pose proof (count_nonspace_le_length (strip (source document))). lia.
  - intros Hcount. apply strip_short_of_count in Hcount. lia.
Qed.

Lemma substring_0_0 (s : string) : String.substring 0 0 s = EmptyString.
Proof. destruct s; reflexivity. Qed.

Lemma span_is_prefix (p : ascii -> bool) (s : string) :
  String.substring 0 (String.length (Re.span p s)) s = Re.span p s.
Proof.
  induction s as [| c s IH]; cbn; [reflexivity |].
  destruct (p c); cbn; [rewrite IH; reflexivity | reflexivity].
Qed.

Lemma span_all_chars (p : ascii -> bool) (s : string) :
  all_chars p (Re.span p s) = true.
Proof.
  induction s as [| c s IH]; cbn; [reflexivity |].
  destruct (p c) eqn:Hc; cbn; [rewrite Hc; exact IH | reflexivity].
Qed.

(** The group of the tag pattern: a run of lowercase letters, not empty,
    that stands in the line right after a [<]. *)
Lemma search_start_tag_from_sound (s : string) :
  forall (i : Z) (g : Re.Group),
    Re.search_start_tag_from i s = Some g ->
    exists k : nat,
      Re.start g = i + Z.of_nat k + 1 /\
      String.substring k 1 s = "<" /\
      String.substring (S k) (String.length (Re.text g)) s = Re.text g /\
      Re.text g <> EmptyString /\
      all_chars is_lower_az (Re.text g) = true.
Proof.
  induction s as [| c s IH]; intros i g Hg; cbn in Hg; [discriminate |].
  assert (Hrec : Re.search_start_tag_from (i + 1) s = Some g ->
                 exists k : nat,
                   Re.start g = i + Z.of_nat k + 1 /\
                   String.substring k 1 (String c s) = "<" /\
                   String.substring (S k) (String.length (Re.text g)) (String c s)
                   = Re.text g /\
                   Re.text g <> EmptyString /\
                   all_chars is_lower_az (Re.text g) = true).
  { intros H. destruct (IH _ _ H) as (k & Hstart & Hlt & Htext & Hne & Hall).
    exists (S k). repeat split; try assumption. lia. }
  destruct (Nat.eqb_spec (nat_of_ascii c) 60) as [Hc | _]; [| exact (Hrec Hg)].
  destruct (Re.span is_lower_az s) as [| a name] eqn:Hspan; [exact (Hrec Hg) |].
  injection Hg as <-. cbn [Re.start Re.text].
  exists O. split; [lia |]. split.
  - cbn. rewrite substring_0_0.
    rewrite <- (ascii_nat_embedding c), Hc. reflexivity.
  - split; [| split; [discriminate |]].
    + change (String.substring 1 (String.length (String a name)) (String c s))
        with (String.substring 0 (String.length (String a name)) s).
      rewrite <- Hspan. apply span_is_prefix.
    + rewrite <- Hspan. apply span_all_chars.
Qed.

(** X16: when [_try_get_tag_context_at_line_position] raises, it is the
    early-termination exception: [is_tag] is bound to [True] and
    [token_name] is a run of lowercase letters, not empty, that stands in
    [document_line] right after a [<]; the cursor is at one of the
    positions from the first letter to just past the last. *)
Theorem recovered_tag_is_in_line (target_offset : Z) (c c' : Ctx) (e : Exception) :
  _try_get_tag_context_at_line_position target_offset c = (c', Raised e) ->
  e = ContextFoundException /\ is_tag c' = Some true /\
  exists (name : string) (i : Z),
    token_name c' = Some name /\
    name <> EmptyString /\ all_chars is_lower_az name = true /\
    1 <= i /\ i <= target_offset <= i + len name /\
    slice (i - 1) 1 (document_line c) = "<" /\
    slice i (len name) (document_line c) = name.
Proof.
  unfold _try_get_tag_context_at_line_position, bind, context.
  destruct (Re.search_start_tag (document_line c)) as [g |] eqn:Hg;
    [| cbn; discriminate].
  destruct (Z.leb_spec (Re.start g) target_offset) as [Hlo | _]; [| cbn; discriminate].
  destruct (Z.leb_spec target_offset (Re.stop g)) as [Hhi | _]; [| cbn; discriminate].
  cbn. intros H. injection H as <- <-.
  split; [reflexivity |]. split; [reflexivity |].
  apply search_start_tag_from_sound in Hg as (k & Hstart & Hlt & Htext & Hne & Hall).
  exists (Re.text g), (Re.start g). unfold Re.stop in Hhi.
  split; [reflexivity |]. split; [exact Hne |]. split; [exact Hall |].
  split; [lia |]. split; [lia |].
  unfold slice, len. rewrite Hstart, Nat2Z.id.
  replace (Z.to_nat (0 + Z.of_nat k + 1 - 1)) with k by lia.
  replace (Z.to_nat (0 + Z.of_nat k + 1)) with (S k) by lia.
  split; [exact Hlt | exact Htext].
Qed.

Lemma span_drop (p : ascii -> bool) (s : string) :
  s = (Re.span p s ++ Re.drop (String.length (Re.span p s)) s)%string.
Proof.
  induction s as [| c s IH]; cbn; [reflexivity |].
  destruct (p c); cbn; [f_equal; exact IH | reflexivity].
Qed.

Lemma ascii_of_code (c : ascii) (n : nat) : nat_of_ascii c = n -> c = ascii_of_nat n.
Proof. intros <-. symmetry. apply ascii_nat_embedding. Qed.

(** One match of the attribute pattern: the text it stands for and where
    its two groups are. *)
Lemma match_attr_at_sound (i : Z) (s : string) (key value : Re.Group) (n : nat) :
  Re.match_attr_at i s = Some (key, value, n) ->
  (exists rest,
     s = (" " ++ Re.text key ++ "=" ++ quot ++ Re.text value ++ rest)%string) /\
  Re.start key = i + 1 /\
  Re.start value = i + 1 + len (Re.text key) + 2 /\
  all_chars is_lower_az (Re.text key) = true.
Proof.
  unfold Re.match_attr_at.
  destruct s as [| sp rest]; [discriminate |].
  destruct (Nat.eqb_spec (nat_of_ascii sp) 32) as [Hsp | _]; [| discriminate].
  pose proof (span_drop is_lower_az rest) as Hkey.
  destruct (Re.drop (String.length (Re.span is_lower_az rest)) rest)
    as [| e [| q rest2]] eqn:Hdrop; try discriminate.
  destruct (Nat.eqb_spec (nat_of_ascii e) 61) as [He | _]; [| discriminate].
  destruct (Nat.eqb_spec (nat_of_ascii q) 34) as [Hq | _]; [| discriminate].
  cbn [andb]. intros H. injection H as <- <- _. cbn [Re.text Re.start].
  split; [| split; [reflexivity | split; [reflexivity | apply span_all_chars]]].
  pose proof (span_drop (fun c => is_word c || (nat_of_ascii c =? 46)%nat) rest2) as Hvalue.
  eexists.
  rewrite (ascii_of_code sp 32 Hsp). cbn [append]. f_equal.
  rewrite Hkey at 1. f_equal.
  rewrite (ascii_of_code e 61 He), (ascii_of_code q 34 Hq).
  cbn [append]. unfold quot. cbn [append]. do 2 f_equal.
  exact Hvalue.
Qed.

Lemma finditer_attr_from_sound (s : string) :
  forall (i : Z) (skip : nat) (key value : Re.Group),
    In (key, value) (Re.finditer_attr_from i skip s) ->
    exists left rest : string,
      s = (left ++ " " ++ Re.text key ++ "=" ++ quot ++ Re.text value ++ rest)%string /\
      Re.start key = i + len left + 1 /\
      Re.start value = Re.start key + len (Re.text key) + 2 /\
      all_chars is_lower_az (Re.text key) = true.
Proof.
  induction s as [| c s IH]; intros i skip key value Hin; [contradiction |].
  assert (Htail : forall skip',
             In (key, value) (Re.finditer_attr_from (i + 1) skip' s) ->
             exists left rest : string,
               String c s
               = (left ++ " " ++ Re.text key ++ "=" ++ quot ++ Re.text value ++ rest)%string /\
               Re.start key = i + len left + 1 /\
               Re.start value = Re.start key + len (Re.text key) + 2 /\
               all_chars is_lower_az (Re.text key) = true).
  { intros skip' H. destruct (IH _ _ _ _ H) as (left & rest & Hs & Hk & Hv & Hall).
    exists (String c left), rest.
    split; [| split; [| split; assumption]].
    - change (String c s
              = String c (left ++ " " ++ Re.text key ++ "=" ++ quot
                          ++ Re.text value ++ rest)%string).
      f_equal. exact Hs.
    - rewrite Hk. unfold len. cbn [String.length]. lia. }
  cbn [Re.finditer_attr_from] in Hin.
  destruct skip as [| k]; [| exact (Htail k Hin)].
  destruct (Re.match_attr_at i (String c s)) as [[[key' value'] n] |] eqn:Hm;
    [| exact (Htail O Hin)].
  destruct Hin as [Heq | Hin]; [| exact (Htail _ Hin)].
  injection Heq as -> ->.
  apply match_attr_at_sound in Hm as ((rest & Hs) & Hk & Hv & Hall).
  exists EmptyString, rest. cbn [append]. split; [exact Hs |].
  change (len "") with 0. repeat split; try assumption; lia.
Qed.

Lemma attribute_matches_loop_raises target_offset matches (c c' : Ctx) (e : Exception) :
  attribute_matches_loop target_offset matches c = (c', Raised e) ->
  e = ContextFoundException /\
  exists key value,
    In (key, value) matches /\
    ((token_name c' = Some (Re.text key) /\ is_attribute c' = Some true /\
      Re.start key <= target_offset <= Re.stop key)
     \/ (token_name c' = Some (Re.text value) /\ is_attribute_value c' = Some true /\
         Re.start value <= target_offset <= Re.stop value)).
Proof.
  induction matches as [| [key value] rest IH]; cbn; [discriminate |].
  destruct (Z.leb_spec (Re.start key) target_offset) as [H1 | _];
    [destruct (Z.leb_spec target_offset (Re.stop key)) as [H2 | _] |]; cbn [andb].
  - intros H. injection H as <- <-. split; [reflexivity |].
    exists key, value. split; [left; reflexivity |]. left. cbn. auto.
  - destruct (Z.leb_spec (Re.start value) target_offset) as [H3 | _];
      [destruct (Z.leb_spec target_offset (Re.stop value)) as [H4 | _] |]; cbn [andb].
    + intros H. injection H as <- <-. split; [reflexivity |].
      exists key, value. split; [left; reflexivity |]. right. cbn. auto.
    + intros H. destruct (IH H) as (He & k & v & Hin & Hcase).
      split; [exact He |]. exists k, v. split; [right; exact Hin | exact Hcase].
    + intros H. destruct (IH H) as (He & k & v & Hin & Hcase).
      split; [exact He |]. exists k, v. split; [right; exact Hin | exact Hcase].
  - destruct (Z.leb_spec (Re.start value) target_offset) as [H3 | _];
      [destruct (Z.leb_spec target_offset (Re.stop value)) as [H4 | _] |]; cbn [andb].
    + intros H. injection H as <- <-. split; [reflexivity |].
      exists key, value. split; [left; reflexivity |]. right. cbn. auto.
    + intros H. destruct (IH H) as (He & k & v & Hin & Hcase).
      split; [exact He |]. exists k, v. split; [right; exact Hin | exact Hcase].
    + intros H. destruct (IH H) as (He & k & v & Hin & Hcase).
      split; [exact He |]. exists k, v. split; [right; exact Hin | exact Hcase].
Qed.

(** X17: when [_try_get_attribute_context_at_line_position] raises, it is
    the early-termination exception, and [document_line] has, after some
    text [left], a space, a run [key] of lowercase letters, an equals
    sign, a double quote and a run [value]; either [token_name] is [key],
    [is_attribute] is bound to [True] and the cursor is at one of the
    positions from the first character of [key] to just past its last,
    or [token_name] is [value], [is_attribute_value] is bound to [True]
    and the cursor is at one of the positions from the first character of
    [value] to just past its last. *)
Theorem recovered_attribute_is_in_line (target_offset : Z) (c c' : Ctx) (e : Exception) :
  _try_get_attribute_context_at_line_position target_offset c = (c', Raised e) ->
  e = ContextFoundException /\
  exists left key value rest : string,
    document_line c = (left ++ " " ++ key ++ "=" ++ quot ++ value ++ rest)%string /\
    all_chars is_lower_az key = true /\
    ((token_name c' = Some key /\ is_attribute c' = Some true /\
      len left + 1 <= target_offset <= len left + 1 + len key)
     \/ (token_name c' = Some value /\ is_attribute_value c' = Some true /\
         len left + len key + 3 <= target_offset <= len left + len key + 3 + len value)).
Proof.
  unfold _try_get_attribute_context_at_line_position, bind, context.
  intros H. apply attribute_matches_loop_raises in H as (He & key & value & Hin & Hcase).
  split; [exact He |].
  apply finditer_attr_from_sound in Hin as (left & rest & Hline & Hk & Hv & Hall).
  exists left, (Re.text key), (Re.text value), rest.
  split; [exact Hline |]. split; [exact Hall |].
  unfold Re.stop in Hcase.
  destruct Hcase as [(Hname & Hflag & Hspan) | (Hname & Hflag & Hspan)]; [left | right];
    (split; [exact Hname |]; split; [exact Hflag |]; lia).
Qed.

(** X18: [startElement] appends the tag before it looks at the cursor, so
    when it raises the early-termination exception the element the token
    belongs to is the innermost name of [node_stack], and
    [update_node_definition] looks up that element's own name. *)
Theorem resolved_element_is_looked_up (tree : XsdTree XsdNode) (tag : string)
    (attributes : list (string * string)) (l col : Z) (c c' : Ctx) (e : Exception) :
  startElement tag attributes l col c = (c', Raised e) ->
  e = ContextFoundException /\
  node_stack c' = (node_stack c ++ [tag])%list /\
  update_node_definition tree c'
  = match find_node_by_name tree tag with
    | Returned found => Returned (set_node found c')
    | Raised IndexError => Returned (set_node (Some (root tree)) c')
    | Raised e' => Raised e'
    end.
Proof.
  intros H.
  pose proof (startElement_pushes tag attributes l col c) as Hstack.
  pose proof (depth_startElement (List.length (node_stack c)) tag attributes l col c eq_refl)
    as Hexc.
  rewrite H in Hstack, Hexc. cbn [fst] in Hstack.
  split; [exact Hexc |]. split; [exact Hstack |].
  unfold update_node_definition. rewrite Hstack, index_last. reflexivity.
Qed.

End Text.

(** ** The further statements at concrete inputs *)

Lemma parse_stops_at_found_witness :
  exists found : XmlContext string,
    is_empty_document doc_abc = false /\
    index (lines doc_abc) (line (at_character 7)) = Returned (source doc_abc) /\
    Ref.reader (source doc_abc) = (firstn 3 events_abc ++ skipn 3 events_abc)%list /\
    reader_parse (firstn 3 events_abc) (XmlContext_init (source doc_abc) (at_character 7) false)
    = (found, Raised ContextFoundException) /\
    snd (parse Ref.reader XmlContextParser_init doc_abc (at_character 7)) = Returned found.
Proof.
  eexists.
  assert (He : is_empty_document doc_abc = false) by reflexivity.
  assert (Hl : index (lines doc_abc) (line (at_character 7)) = Returned (source doc_abc))
    by reflexivity.
  assert (Hr : Ref.reader (source doc_abc) = (firstn 3 events_abc ++ skipn 3 events_abc)%list)
    by (vm_compute; reflexivity).
  split; [exact He |]. split; [exact Hl |]. split; [exact Hr |].
  split; [vm_compute; reflexivity |].
  refine (parse_stops_at_found Ref.reader XmlContextParser_init doc_abc (at_character 7)
            (source doc_abc) (firstn 3 events_abc) (skipn 3 events_abc) _ He Hl Hr _).
  vm_compute. reflexivity.
Defined.

Lemma parse_ignores_passed_events_witness :
  filter acted_on (Ref.reader (source doc_abc))
  = filter acted_on (chatty_reader (source doc_abc)) /\
  snd (parse (XsdNode := string) Ref.reader XmlContextParser_init doc_abc (at_character 7))
  = snd (parse chatty_reader XmlContextParser_init doc_abc (at_character 7)).
Proof.
  assert (Hf : filter acted_on (Ref.reader (source doc_abc))
               = filter acted_on (chatty_reader (source doc_abc)))
    by (vm_compute; reflexivity).
  split; [exact Hf |].
  exact (parse_ignores_passed_events Ref.reader chatty_reader XmlContextParser_init
           doc_abc (at_character 7) Hf).
Defined.

Lemma returned_node_stack_is_open_elements_witness :
  exists (c : XmlContext string) (pre post : list SaxEvent),
    snd (parse Ref.reader XmlContextParser_init doc_abc (at_character 7)) = Returned c /\
    Ref.reader (source doc_abc) = (pre ++ post)%list /\
    node_stack c = open_after pre [].
Proof.
  eexists.
  assert (Hp : snd (parse (XsdNode := string) Ref.reader XmlContextParser_init doc_abc
                      (at_character 7)) = Returned _) by (vm_compute; reflexivity).
  destruct (returned_node_stack_is_open_elements Ref.reader XmlContextParser_init doc_abc
              (at_character 7) _ Hp) as (pre & post & Hsplit & Hstack & _).
  exists pre, post. split; [exact Hp |]. split; [exact Hsplit | exact Hstack].
Defined.

Lemma parse_finds_nothing_off_line_witness :
  is_empty_document doc_two_lines = false /\
  index (lines doc_two_lines) 1 = Returned "</a>" /\
  quiet 1 (Ref.reader (source doc_two_lines)) = true /\
  nested 0 (Ref.reader (source doc_two_lines)) = true /\
  reader_returns (Ref.reader (source doc_two_lines)) = true /\
  snd (parse (XsdNode := string) Ref.reader XmlContextParser_init doc_two_lines
         {| line := 1; character := 2 |})
  = Returned (set_node_stack (open_after (Ref.reader (source doc_two_lines)) [])
                (XmlContext_init "</a>" {| line := 1; character := 2 |} false)).
Proof.
  assert (He : is_empty_document doc_two_lines = false) by reflexivity.
  assert (Hl : index (lines doc_two_lines) (line {| line := 1; character := 2 |})
               = Returned "</a>") by reflexivity.
  assert (Hq : quiet (line {| line := 1; character := 2 |})
                 (Ref.reader (source doc_two_lines)) = true) by (vm_compute; reflexivity).
  assert (Hn : nested 0 (Ref.reader (source doc_two_lines)) = true)
    by (vm_compute; reflexivity).
  assert (Hr : reader_returns (Ref.reader (source doc_two_lines)) = true)
    by (vm_compute; reflexivity).
  split; [exact He |]. split; [exact Hl |]. split; [exact Hq |]. split; [exact Hn |].
  split; [exact Hr |].
  exact (parse_finds_nothing_off_line Ref.reader XmlContextParser_init doc_two_lines
           {| line := 1; character := 2 |} "</a>" He Hl Hq Hn Hr).
Defined.

Lemma parse_returns_iff_line_in_range_witness :
  nested 0 (Ref.reader (source doc_a_newline)) = true /\
  reader_returns (Ref.reader (source doc_a_newline)) = true /\
  (exists c : XmlContext string,
     snd (parse Ref.reader XmlContextParser_init doc_a_newline (at_character 1)) = Returned c) /\
  ~ (exists c : XmlContext string,
       snd (parse Ref.reader XmlContextParser_init doc_a_newline
              {| line := 1; character := 0 |}) = Returned c).
Proof.
  assert (Hn : nested 0 (Ref.reader (source doc_a_newline)) = true)
    by (vm_compute; reflexivity).
  assert (Hr : reader_returns (Ref.reader (source doc_a_newline)) = true)
    by (vm_compute; reflexivity).
  split; [exact Hn |]. split; [exact Hr |]. split.
  - apply (proj2 (parse_returns_iff_line_in_range Ref.reader XmlContextParser_init
                    doc_a_newline (at_character 1) Hn Hr)).
    right. vm_compute. split; [discriminate | reflexivity].
  - intros Hc.
    apply (proj1 (parse_returns_iff_line_in_range Ref.reader XmlContextParser_init
                    doc_a_newline {| line := 1; character := 0 |} Hn Hr)) in Hc.
    destruct Hc as [He | [_ Hlt]];
      [vm_compute in He; discriminate He | vm_compute in Hlt; discriminate Hlt].
Defined.

Lemma returned_context_records_request_witness :
  exists c : XmlContext string,
    is_empty_document doc_root_a = false /\
    snd (get_xml_context Ref.reader small_service doc_root_a (at_character 2)) = Returned c /\
    index (lines doc_root_a) 0 = Returned (document_line c) /\
    target_position c = at_character 2 /\ is_empty c = false.
Proof.
  eexists.
  assert (He : is_empty_document doc_root_a = false) by reflexivity.
  assert (Hg : snd (get_xml_context Ref.reader small_service doc_root_a (at_character 2))
               = Returned _) by (vm_compute; reflexivity).
  split; [exact He |]. split; [exact Hg |].
  exact (returned_context_records_request Ref.reader small_service doc_root_a
           (at_character 2) _ He Hg).
Defined.

Lemma get_xml_context_empty_witness :
  is_empty_document doc_blank = true /\
  snd (get_xml_context Ref.reader small_service doc_blank {| line := 5; character := 0 |})
  = Returned (set_node (Some "tool") (XmlContext_init "" Position_default true)).
Proof.
  assert (He : is_empty_document doc_blank = true) by reflexivity.
  split; [exact He |].
  exact (get_xml_context_empty Ref.reader small_service doc_blank
           {| line := 5; character := 0 |} He).
Defined.

(** An element [a] at offset 0 with the attributes [x] and [y]. *)
Lemma build_context_attribute_name_span_witness :
  let c : XmlContext string := XmlContext_init "" (at_character 8) false in
  0 + len "a" + 2 + attributes_width [("x", "1")] <= character (target_position c)
  <= 0 + len "a" + 2 + attributes_width [("x", "1")] + len "y" /\
  _build_context_from_element_line 0 "a" [("x", "1"); ("y", "2")] c
  = (set_token_name (Some "y") (set_is_attribute true c), Raised ContextFoundException).
Proof.
  intros c.
  assert (Hspan : 0 + len "a" + 2 + attributes_width [("x", "1")]
                  <= character (target_position c)
                  <= 0 + len "a" + 2 + attributes_width [("x", "1")] + len "y")
    by (vm_compute; split; discriminate).
  split; [exact Hspan |].
  exact (build_context_attribute_name_span 0 "a" [("x", "1")] [] "y" "2" c Hspan).
Defined.

Lemma build_context_attribute_value_span_witness :
  let c : XmlContext string := XmlContext_init "" (at_character 11) false in
  0 + len "a" + 2 + attributes_width [("x", "1")] + len "y" + 2
  <= character (target_position c)
  <= 0 + len "a" + 2 + attributes_width [("x", "1")] + len "y" + 2 + len "2" /\
  _build_context_from_element_line 0 "a" [("x", "1"); ("y", "2")] c
  = (set_token_name (Some "2") (set_is_attribute_value true c),
     Raised ContextFoundException).
Proof.
  intros c.
  assert (Hspan : 0 + len "a" + 2 + attributes_width [("x", "1")] + len "y" + 2
                  <= character (target_position c)
                  <= 0 + len "a" + 2 + attributes_width [("x", "1")] + len "y" + 2 + len "2")
    by (vm_compute; split; discriminate).
  split; [exact Hspan |].
  exact (build_context_attribute_value_span 0 "a" [("x", "1")] [] "y" "2" c Hspan).
Defined.

Lemma build_context_cursor_not_after_start_witness :
  let c : XmlContext string := XmlContext_init "" (at_character 6) false in
  character (target_position c) <= 6 /\
  _build_context_from_element_line 6 "a" [("attr", "val")] c = (c, Returned tt).
Proof.
  intros c.
  assert (Hle : character (target_position c) <= 6) by (vm_compute; discriminate).
  split; [exact Hle |].
  exact (build_context_cursor_not_after_start 6 "a" [("attr", "val")] c Hle).
Defined.

Lemma build_context_gap_after_name_witness :
  let c : XmlContext string := XmlContext_init "" (at_character 10) false in
  character (target_position c)
  = 0 + len "a" + 2 + attributes_width [("x", "1")] + len "y" + 1 /\
  _build_context_from_element_line 0 "a" [("x", "1"); ("y", "2")] c = (c, Returned tt).
Proof.
  intros c.
  assert (Hat : character (target_position c)
                = 0 + len "a" + 2 + attributes_width [("x", "1")] + len "y" + 1)
    by reflexivity.
  split; [exact Hat |].
  exact (build_context_gap_after_name 0 "a" [("x", "1")] "y" "2" c Hat).
Defined.

Lemma build_context_on_rendered_name_witness :
  let c : XmlContext string := XmlContext_init "" (at_character 9) false in
  let d : XmlContext string := XmlContext_init "" (at_character 10) false in
  character (target_position c) = len (text_before_name "" "a" [("x", "1")]) + 0 /\
  character (target_position d) = len (text_before_name "" "a" [("x", "1")]) + len "y" /\
  _build_context_from_element_line 0 "a" [("x", "1"); ("y", "2")] c
  = (set_token_name (Some "y") (set_is_attribute true c), Raised ContextFoundException) /\
  _build_context_from_element_line 0 "a" [("x", "1"); ("y", "2")] d = (d, Returned tt).
Proof.
  intros c d.
  assert (Hc : character (target_position c)
               = len (text_before_name "" "a" [("x", "1")]) + 0) by reflexivity.
  assert (Hd : character (target_position d)
               = len (text_before_name "" "a" [("x", "1")]) + len "y") by reflexivity.
  assert (Hfit : Z.of_nat (List.length [("x", "1")]) + 0 <= len "y")
    by (vm_compute; intros H; discriminate H).
  split; [exact Hc |]. split; [exact Hd |].
  split.
  - exact (proj1 (proj2 (build_context_on_rendered_name "" "" "a" [("x", "1")] []
                           "y" "2")) c 0 (Z.le_refl 0) Hfit Hc).
  - exact (proj2 (proj2 (build_context_on_rendered_name "" "" "a" [("x", "1")] []
                           "y" "2")) d eq_refl Hd).
Defined.

Lemma reader_exception_leaves_get_xml_context_witness :
  snd (parse (XsdNode := string) (failing_reader "LookupError") XmlContextParser_init
         doc_declared_encoding (at_character 1))
  = Raised (OtherError "LookupError") /\
  snd (get_xml_context (failing_reader "LookupError") small_service doc_declared_encoding (at_character 1))
  = Raised (OtherError "LookupError").
Proof.
  exact (reader_exception_leaves_get_xml_context (failing_reader "LookupError")
           small_service doc_declared_encoding (at_character 1) (source doc_declared_encoding) [] [] "LookupError"
           eq_refl eq_refl eq_refl eq_refl).
Defined.

Lemma token_name_comes_from_document_witness :
  exists c : XmlContext string,
    snd (parse Ref.reader XmlContextParser_init doc_root_a (at_character 11)) = Returned c /\
    token_name c = Some "attr" /\
    (named_by_element 0 (Ref.reader (source doc_root_a)) "attr"
     \/ named_by_pattern (document_line c) (Ref.reader (source doc_root_a)) "attr").
Proof.
  eexists.
  assert (Hp : snd (parse (XsdNode := string) Ref.reader XmlContextParser_init doc_root_a
                      (at_character 11)) = Returned _) by (vm_compute; reflexivity).
  split; [exact Hp |]. split; [reflexivity |].
  exact (token_name_comes_from_document Ref.reader XmlContextParser_init doc_root_a
           (at_character 11) _ "attr" Hp eq_refl).
Defined.

Lemma recovered_tag_is_in_line_witness :
  let c : XmlContext string := XmlContext_init "<ro" (at_character 3) false in
  exists c',
    _try_get_tag_context_at_line_position 3 c = (c', Raised ContextFoundException) /\
    token_name c' = Some "ro" /\
    exists (name : string) (i : Z),
      token_name c' = Some name /\ name <> EmptyString /\
      all_chars is_lower_az name = true /\ 1 <= i /\ i <= 3 <= i + len name /\
      slice (i - 1) 1 (document_line c) = "<" /\
      slice i (len name) (document_line c) = name.
Proof.
  intros c. eexists.
  assert (Hr : _try_get_tag_context_at_line_position 3 c
               = (_, Raised ContextFoundException)) by (vm_compute; reflexivity).
  split; [exact Hr |]. split; [reflexivity |].
  exact (proj2 (proj2 (recovered_tag_is_in_line 3 c _ _ Hr))).
Defined.

Lemma recovered_attribute_is_in_line_witness :
  let c : XmlContext string := XmlContext_init (source doc_key) (at_character 4) false in
  exists c',
    _try_get_attribute_context_at_line_position 4 c = (c', Raised ContextFoundException) /\
    token_name c' = Some "key" /\
    exists left key value rest : string,
      document_line c = (left ++ " " ++ key ++ "=" ++ quot ++ value ++ rest)%string /\
      all_chars is_lower_az key = true /\
      ((token_name c' = Some key /\ is_attribute c' = Some true /\
        len left + 1 <= 4 <= len left + 1 + len key)
       \/ (token_name c' = Some value /\ is_attribute_value c' = Some true /\
           len left + len key + 3 <= 4 <= len left + len key + 3 + len value)).
Proof.
  intros c. eexists.
  assert (Hr : _try_get_attribute_context_at_line_position 4 c
               = (_, Raised ContextFoundException)) by (vm_compute; reflexivity).
  split; [exact Hr |]. split; [reflexivity |].
  exact (proj2 (recovered_attribute_is_in_line 4 c _ _ Hr)).
Defined.

Lemma resolved_element_is_looked_up_witness :
  let c : XmlContext string := XmlContext_init "<tool>" (at_character 2) false in
  exists c',
    startElement "tool" [] 1 0 c = (c', Raised ContextFoundException) /\
    node_stack c' = ["tool"]%list /\
    update_node_definition small_tree c' = Returned (set_node (Some "tool") c').
Proof.
  intros c. eexists.
  assert (Hr : startElement "tool" [] 1 0 c = (_, Raised ContextFoundException))
    by (vm_compute; reflexivity).
  split; [exact Hr |].
  exact (proj2 (resolved_element_is_looked_up small_tree "tool" [] 1 0 c _ _ Hr)).
Defined.

(** ** The store against the contexts passed by value *)

Section Sharing.

Context {XsdNode : Type}.

Let Ctx : Type := XmlContext XsdNode.
Let Heap : Type := @Objects.Heap XsdNode.

Lemma update_length {A : Type} (i : nat) (f : A -> A) (l : list A) :
  List.length (Objects.update i f l) = List.length l.
Proof.
  revert i. induction l as [| x l IH]; intros [| i]; cbn; try reflexivity.
  rewrite IH. reflexivity.
Qed.

Lemma nth_update_same {A : Type} (i : nat) (f : A -> A) (l : list A) (d : A) :
  (i < List.length l)%nat -> nth i (Objects.update i f l) d = f (nth i l d).
Proof.
  revert i. induction l as [| x l IH]; intros [| i] Hi; cbn in *; try lia; try reflexivity.
  apply IH. lia.
Qed.

Lemma nth_update_other {A : Type} (i j : nat) (f : A -> A) (l : list A) (d : A) :
  i <> j -> nth j (Objects.update i f l) d = nth j l d.
Proof.
  revert i j. induction l as [| x l IH]; intros [| i] [| j] Hij; cbn;
    try reflexivity; try contradiction.
  apply IH. intros ->. apply Hij. reflexivity.
Qed.

Lemma nth_new {A : Type} (l : list A) (x d : A) : nth (List.length l) (l ++ [x]) d = x.
Proof. rewrite app_nth2 by lia. rewrite Nat.sub_diag. reflexivity. Qed.

Lemma prefix_of_refl {A : Type} (d : A) (l : list A) : prefix_of d l l.
Proof. split; [lia | reflexivity]. Qed.

Lemma prefix_of_trans {A : Type} (d : A) (l1 l2 l3 : list A) :
  prefix_of d l1 l2 -> prefix_of d l2 l3 -> prefix_of d l1 l3.
Proof.
  intros [H1 H1'] [H2 H2']. split; [lia |].
  intros i Hi. rewrite H2' by lia. apply H1'. exact Hi.
Qed.

Lemma prefix_of_app {A : Type} (d : A) (l more : list A) : prefix_of d l (l ++ more).
Proof.
  split; [rewrite length_app; lia |].
  intros i Hi. apply app_nth1. exact Hi.
Qed.

Lemma prefix_of_update {A : Type} (d : A) (l0 l : list A) (i : nat) (f : A -> A) :
  (List.length l0 <= i)%nat -> prefix_of d l0 l -> prefix_of d l0 (Objects.update i f l).
Proof.
  intros Hi [Hlen Hnth]. split; [rewrite update_length; exact Hlen |].
  intros j Hj. rewrite nth_update_other by lia. apply Hnth. exact Hj.
Qed.

Lemma extends_refl (h : Heap) : extends h h.
Proof. repeat split; try lia; reflexivity. Qed.

Lemma extends_trans (h1 h2 h3 : Heap) : extends h1 h2 -> extends h2 h3 -> extends h1 h3.
Proof.
  intros (Hp & Hd & Hl & Hc & Hps & Hr) (Hp' & Hd' & Hl' & Hc' & Hps' & Hr').
  unfold extends.
  split; [congruence |]. split; [congruence |].
  split; [eapply prefix_of_trans; eassumption |].
  split; [eapply prefix_of_trans; eassumption |].
  split; eapply prefix_of_trans; eassumption.
Qed.

Lemma frame_refl (ctx : Objects.ref) (h : Heap) : frame ctx h h.
Proof. unfold frame. repeat split; reflexivity. Qed.

Lemma frame_trans (ctx : Objects.ref) (h1 h2 h3 : Heap) :
  frame ctx h1 h2 -> frame ctx h2 h3 -> frame ctx h1 h3.
Proof.
  intros (Hp & Hd & Hps & Hr & Hlc & Hll & Ho & Hl & Hs & Ht)
         (Hp' & Hd' & Hps' & Hr' & Hlc' & Hll' & Ho' & Hl' & Hs' & Ht').
  unfold frame.
  split; [congruence |]. split; [congruence |]. split; [congruence |].
  split; [congruence |]. split; [congruence |]. split; [congruence |].
  split; [intros i Hi; rewrite Ho' by exact Hi; apply Ho; exact Hi |].
  split; [| split; congruence].
  intros j Hj. rewrite Hl' by (rewrite Hs; exact Hj). apply Hl. exact Hj.
Qed.

Lemma frame_wf (ctx : Objects.ref) (h h' : Heap) : wf ctx h -> frame ctx h h' -> wf ctx h'.
Proof.
  intros [Hc Hl] (_ & _ & _ & _ & Hlc & Hll & _ & _ & Hs & _).
  split; [rewrite Hlc; exact Hc | rewrite Hs, Hll; exact Hl].
Qed.

(** What a frame leaves of an extension, when the context written and its
    list are not of the store extended. *)
Lemma extends_frame (h0 h h' : Heap) (ctx : Objects.ref) :
  extends h0 h -> frame ctx h h' ->
  (List.length (Objects.contexts h0) <= ctx)%nat ->
  (List.length (Objects.lists h0) <= Objects.o_node_stack (Objects.object h ctx))%nat ->
  extends h0 h'.
Proof.
  intros (Hp & Hd & [Hll Hl] & [Hlc Hc] & Hps & Hr)
         (Hp' & Hd' & Hps' & Hr' & Hlc' & Hll' & Ho' & Hl' & _ & _) Hctx Hstack.
  unfold extends.
  split; [congruence |]. split; [congruence |].
  split; [| split; [| split; [rewrite Hps'; exact Hps | rewrite Hr'; exact Hr]]].
  - split; [lia |]. intros j Hj.
    change (Objects.list_at h' j = nth j (Objects.lists h0) []).
    rewrite Hl' by lia. apply Hl. exact Hj.
  - split; [lia |]. intros i Hi.
    change (Objects.object h' i = nth i (Objects.contexts h0) Objects.no_context).
    rewrite Ho' by lia. apply Hc. exact Hi.
Qed.

(** *** Rules *)

Lemma sim_ret {A : Type} (ctx : Objects.ref) (a : A) :
  sim (XsdNode := XsdNode) ctx (Objects.ret a) (ret (XsdNode := XsdNode) a).
Proof. intros c h Hwf Hv. cbn. repeat split; try assumption; apply frame_refl. Qed.

Lemma sim_raise {A : Type} (ctx : Objects.ref) (e : Exception) :
  sim (XsdNode := XsdNode) ctx (Objects.raise (A := A) e) (raise (XsdNode := XsdNode) e).
Proof. intros c h Hwf Hv. cbn. repeat split; try assumption; apply frame_refl. Qed.

Lemma sim_at_bind {A B : Type} (ctx : Objects.ref) (c : Ctx)
    (ms : Objects.M A) (mp : Handler XsdNode A)
    (ks : A -> Objects.M B) (kp : A -> Handler XsdNode B) :
  sim_at ctx c ms mp ->
  (forall a, sim_at ctx (fst (mp c)) (ks a) (kp a)) ->
  sim_at ctx c (Objects.bind ms ks) (bind mp kp).
Proof.
  intros Hm Hk h Hwf Hv. unfold Objects.bind, bind.
  destruct (Hm h Hwf Hv) as (Hr & Hv1 & Hf1).
  destruct (ms h) as [h1 r1]. destruct (mp c) as [c1 r1']. cbn [fst snd] in *.
  subst r1'. destruct r1 as [a | e].
  - destruct (Hk a h1 (frame_wf ctx h h1 Hwf Hf1) Hv1) as (Hr2 & Hv2 & Hf2).
    split; [exact Hr2 |]. split; [exact Hv2 |].
    eapply frame_trans; eassumption.
  - cbn. split; [reflexivity |]. split; [exact Hv1 | exact Hf1].
Qed.

Lemma sim_bind {A B : Type} (ctx : Objects.ref)
    (ms : Objects.M A) (mp : Handler XsdNode A)
    (ks : A -> Objects.M B) (kp : A -> Handler XsdNode B) :
  sim (XsdNode := XsdNode) ctx ms mp -> (forall a, sim ctx (ks a) (kp a)) ->
  sim (XsdNode := XsdNode) ctx (Objects.bind ms ks) (bind mp kp).
Proof. intros Hm Hk c. apply sim_at_bind; [apply Hm | intros a; apply Hk]. Qed.

(** Reading the context: what follows runs from a store in which the
    context at [ctx] is the one that was read. *)
Lemma sim_read {B : Type} (ctx : Objects.ref)
    (ks : Ctx -> Objects.M B) (kp : Ctx -> Handler XsdNode B) :
  (forall c, sim_at ctx c (ks c) (kp c)) ->
  sim (XsdNode := XsdNode) ctx (Objects.bind (Objects.context_of ctx) ks) (bind context kp).
Proof.
  intros Hk c h Hwf Hv. unfold Objects.bind, Objects.context_of, bind, context.
  rewrite Hv. apply Hk; assumption.
Qed.

(** An assignment to an attribute that is no reference. *)
Lemma sim_assign_attribute (ctx : Objects.ref)
    (fo : Objects.ContextObject -> Objects.ContextObject) (fc : Ctx -> Ctx) :
  (forall o p l, Objects.deref (fo o) p l = fc (Objects.deref o p l)) ->
  (forall o, Objects.o_node_stack (fo o) = Objects.o_node_stack o) ->
  (forall o, Objects.o_target_position (fo o) = Objects.o_target_position o) ->
  sim (XsdNode := XsdNode) ctx (Objects.assign_attribute ctx fo) (assign fc).
Proof.
  intros Hfc Hstack Hpos c h [Hctx Hlist] Hv.
  unfold Objects.assign_attribute, assign. cbn [fst snd].
  assert (Hobj : Objects.object
                   {| Objects.positions := Objects.positions h;
                      Objects.lists := Objects.lists h;
                      Objects.contexts := Objects.update ctx fo (Objects.contexts h);
                      Objects.parsers := Objects.parsers h;
                      Objects.readers := Objects.readers h;
                      Objects.default_position := Objects.default_position h |} ctx
                 = fo (Objects.object h ctx)).
  { unfold Objects.object. cbn. apply nth_update_same. exact Hctx. }
  split; [reflexivity |]. split.
  - unfold Objects.view. rewrite Hobj, Hstack, Hpos, Hfc. rewrite <- Hv. reflexivity.
  - unfold frame. cbn [Objects.positions Objects.default_position Objects.parsers
                       Objects.readers Objects.contexts Objects.lists].
    rewrite update_length.
    repeat (split; [reflexivity |]).
    split; [| split; [reflexivity | split; [rewrite Hobj; apply Hstack
                                           | rewrite Hobj; apply Hpos]]].
    intros i Hi. unfold Objects.object. cbn. apply nth_update_other.
    intros ->. apply Hi. reflexivity.
Qed.

(** A change in place of the list of the context. *)
Lemma sim_at_change_stack (ctx : Objects.ref) (c : Ctx) (f : list string -> list string) :
  sim_at ctx c (Objects.change_stack ctx f) (assign (set_node_stack (f (node_stack c)))).
Proof.
  intros h [Hctx Hlist] Hv.
  unfold Objects.change_stack, assign. cbn [fst snd].
  split; [reflexivity |]. split.
  - unfold Objects.view, Objects.object, Objects.list_at, Objects.position_at. cbn.
    rewrite nth_update_same by exact Hlist.
    rewrite <- Hv. reflexivity.
  - unfold frame. cbn [Objects.positions Objects.default_position Objects.parsers
                       Objects.readers Objects.contexts Objects.lists].
    rewrite update_length.
    repeat (split; [reflexivity |]).
    split; [| split; reflexivity].
    intros j Hj. unfold Objects.list_at. cbn. apply nth_update_other.
    intros Heq. apply Hj. symmetry. exact Heq.
Qed.

(** The three ways a handler reports a token. *)
Lemma sim_found_tag (ctx : Objects.ref) (name : string) :
  sim (XsdNode := XsdNode) ctx
    (Objects.bind (Objects.assign_attribute ctx (Objects.o_set_is_tag true))
       (fun _ => Objects.bind
                   (Objects.assign_attribute ctx (Objects.o_set_token_name (Some name)))
                   (fun _ => Objects.raise (A := unit) ContextFoundException)))
    (bind (assign (set_is_tag true))
       (fun _ => bind (assign (set_token_name (Some name)))
                   (fun _ => raise ContextFoundException))).
Proof.
  apply sim_bind; [apply sim_assign_attribute; reflexivity |].
  intros _. apply sim_bind; [apply sim_assign_attribute; reflexivity |].
  intros _. apply sim_raise.
Qed.

Lemma sim_found_attribute (ctx : Objects.ref) (name : string) :
  sim (XsdNode := XsdNode) ctx
    (Objects.bind (Objects.assign_attribute ctx (Objects.o_set_is_attribute true))
       (fun _ => Objects.bind
                   (Objects.assign_attribute ctx (Objects.o_set_token_name (Some name)))
                   (fun _ => Objects.raise (A := unit) ContextFoundException)))
    (bind (assign (set_is_attribute true))
       (fun _ => bind (assign (set_token_name (Some name)))
                   (fun _ => raise ContextFoundException))).
Proof.
  apply sim_bind; [apply sim_assign_attribute; reflexivity |].
  intros _. apply sim_bind; [apply sim_assign_attribute; reflexivity |].
  intros _. apply sim_raise.
Qed.

Lemma sim_found_attribute_value (ctx : Objects.ref) (name : string) :
  sim (XsdNode := XsdNode) ctx
    (Objects.bind (Objects.assign_attribute ctx (Objects.o_set_is_attribute_value true))
       (fun _ => Objects.bind
                   (Objects.assign_attribute ctx (Objects.o_set_token_name (Some name)))
                   (fun _ => Objects.raise (A := unit) ContextFoundException)))
    (bind (assign (set_is_attribute_value true))
       (fun _ => bind (assign (set_token_name (Some name)))
                   (fun _ => raise ContextFoundException))).
Proof.
  apply sim_bind; [apply sim_assign_attribute; reflexivity |].
  intros _. apply sim_bind; [apply sim_assign_attribute; reflexivity |].
  intros _. apply sim_raise.
Qed.

(** *** The handlers *)

Lemma sim_attributes_loop (ctx : Objects.ref) target_offset items :
  forall accum,
    sim (XsdNode := XsdNode) ctx (Objects.attributes_loop ctx target_offset accum items)
      (attributes_loop target_offset accum items).
Proof.
  induction items as [| [attr_name attr_value] rest IH]; intros accum; cbn.
  - apply sim_ret.
  - destruct (_ && _); [apply sim_found_attribute |].
    destruct (_ && _); [apply sim_found_attribute_value | apply IH].
Qed.

Lemma sim_build_context_from_element_line (ctx : Objects.ref) start_position tag attributes :
  sim (XsdNode := XsdNode) ctx (Objects._build_context_from_element_line ctx start_position tag attributes)
    (_build_context_from_element_line start_position tag attributes).
Proof.
  unfold Objects._build_context_from_element_line, _build_context_from_element_line.
  apply sim_read. intros c.
  destruct (_ && _); [apply sim_found_tag | apply sim_attributes_loop].
Qed.

Lemma sim_startElement (ctx : Objects.ref) tag attributes l col :
  sim (XsdNode := XsdNode) ctx (Objects.startElement ctx tag attributes l col) (startElement tag attributes l col).
Proof.
  unfold Objects.startElement, startElement. intros c.
  apply sim_at_bind.
  - exact (sim_at_change_stack ctx c (fun stack => (stack ++ [tag])%list)).
  - intros _. apply sim_read. intros c'.
    destruct (_ =? _); [apply sim_build_context_from_element_line | apply sim_ret].
Qed.

Lemma sim_endElement (ctx : Objects.ref) tag :
  sim (XsdNode := XsdNode) ctx (Objects.endElement ctx tag) (endElement tag).
Proof.
  unfold Objects.endElement, endElement.
  apply sim_read. intros c.
  destruct (node_stack c) eqn:Hstack; [apply sim_raise |].
  rewrite <- Hstack. exact (sim_at_change_stack ctx c (@removelast string)).
Qed.

Lemma sim_attribute_matches_loop (ctx : Objects.ref) target_offset matches :
  sim (XsdNode := XsdNode) ctx (Objects.attribute_matches_loop ctx target_offset matches)
    (attribute_matches_loop target_offset matches).
Proof.
  induction matches as [| [key value] rest IH]; cbn.
  - apply sim_ret.
  - destruct (_ && _); [apply sim_found_attribute |].
    destruct (_ && _); [apply sim_found_attribute_value | exact IH].
Qed.

Lemma sim_fatalError (ctx : Objects.ref) message l col :
  sim (XsdNode := XsdNode) ctx (Objects.fatalError ctx message l col) (fatalError message l col).
Proof.
  unfold Objects.fatalError, fatalError.
  destruct (String.eqb _ _); [| apply sim_ret].
  unfold Objects._try_process_context_from_unclosed_token,
    _try_process_context_from_unclosed_token.
  apply sim_read. intros c. apply sim_bind.
  - unfold Objects._try_get_tag_context_at_line_position,
      _try_get_tag_context_at_line_position.
    apply sim_read. intros c'.
    destruct (Re.search_start_tag _); [| apply sim_ret].
    destruct (_ && _); [apply sim_found_tag | apply sim_ret].
  - intros _.
    unfold Objects._try_get_attribute_context_at_line_position,
      _try_get_attribute_context_at_line_position.
    apply sim_read. intros c'. apply sim_attribute_matches_loop.
Qed.

(** A reader on which both handlers hold the context at [ctx]. *)
Lemma sim_dispatch (ctx : Objects.ref) (reader : Objects.ReaderObject) (ev : SaxEvent) :
  Objects.content_handler reader = Some ctx ->
  Objects.error_handler reader = Some ctx ->
  sim (XsdNode := XsdNode) ctx (Objects.dispatch reader ev) (dispatch ev).
Proof.
  intros Hcontent Herror.
  destruct ev as [tag attributes l col | tag | content | message l col | name];
    cbn [Objects.dispatch dispatch]; rewrite ?Hcontent, ?Herror.
  - apply sim_startElement.
  - apply sim_endElement.
  - apply sim_ret.
  - apply sim_fatalError.
  - apply sim_raise.
Qed.

Lemma sim_deliver (ctx : Objects.ref) (reader : Objects.ReaderObject)
    (events : list SaxEvent) :
  Objects.content_handler reader = Some ctx ->
  Objects.error_handler reader = Some ctx ->
  sim (XsdNode := XsdNode) ctx (Objects.deliver reader events) (reader_parse events).
Proof.
  intros Hcontent Herror.
  induction events as [| ev rest IH]; cbn [Objects.deliver reader_parse].
  - apply sim_ret.
  - apply sim_bind; [apply sim_dispatch; assumption | intros _; exact IH].
Qed.

(** *** The parser and the service *)

Lemma update_node_definition_on_store (ctx : Objects.ref) (tree : XsdTree XsdNode)
    (h : Heap) :
  wf ctx h ->
  frame ctx h (fst (Objects.update_node_definition ctx tree h)) /\
  match snd (Objects.update_node_definition ctx tree h),
        update_node_definition tree (Objects.view h ctx) with
  | Returned _, Returned c' =>
      Objects.view (fst (Objects.update_node_definition ctx tree h)) ctx = c'
  | Raised e, Raised e' => e = e'
  | _, _ => False
  end.
Proof.
  intros Hwf.
  assert (Hassign : forall v,
             frame ctx h (fst (Objects.assign_attribute ctx (Objects.o_set_node v) h)) /\
             Objects.view (fst (Objects.assign_attribute ctx (Objects.o_set_node v) h)) ctx
             = set_node v (Objects.view h ctx)).
  { intros v.
    destruct (sim_assign_attribute ctx (Objects.o_set_node v) (set_node v)
                (fun _ _ _ => eq_refl) (fun _ => eq_refl) (fun _ => eq_refl)
                (Objects.view h ctx) h Hwf eq_refl) as (_ & Hv & Hf).
    split; [exact Hf | exact Hv]. }
  unfold Objects.update_node_definition, update_node_definition,
    Objects.bind, Objects.context_of.
  destruct (index (node_stack (Objects.view h ctx)) (-1)) as [name | e].
  - destruct (find_node_by_name tree name) as [found | e].
    + destruct (Hassign found) as [Hf Hv]. split; [exact Hf | exact Hv].
    + destruct e; try (split; [apply frame_refl | reflexivity]).
      destruct (Hassign (Some (root tree))) as [Hf Hv]. split; [exact Hf | exact Hv].
  - destruct e; try (split; [apply frame_refl | reflexivity]).
    destruct (Hassign (Some (root tree))) as [Hf Hv]. split; [exact Hf | exact Hv].
Qed.

(** A new context: the object comes after the ones there are, with a new
    list of its own, and refers to the position it was given. *)
Lemma XmlContext_init_on_store (h : Heap) (document_line : string) (position : Objects.ref)
    (is_empty : bool) :
  let h' := fst (Objects.XmlContext_init document_line position is_empty h) in
  let ctx := List.length (Objects.contexts h) in
  snd (Objects.XmlContext_init document_line position is_empty h) = Returned ctx /\
  extends h h' /\ wf ctx h' /\
  Objects.o_node_stack (Objects.object h' ctx) = List.length (Objects.lists h) /\
  Objects.view h' ctx
  = XmlContext_init document_line (Objects.position_at h position) is_empty /\
  Objects.o_target_position (Objects.object h' ctx) = position.
Proof.
  cbv zeta. unfold Objects.XmlContext_init, Objects.bind, Objects.new_list,
    Objects.new_context. cbn [fst snd Objects.contexts Objects.lists].
  assert (Hobj : forall o l,
             Objects.object
               {| Objects.positions := Objects.positions h;
                  Objects.lists := l;
                  Objects.contexts := Objects.contexts h ++ [o];
                  Objects.parsers := Objects.parsers h;
                  Objects.readers := Objects.readers h;
                  Objects.default_position := Objects.default_position h |}
               (List.length (Objects.contexts h)) = o).
  { intros o l. unfold Objects.object. cbn. apply nth_new. }
  split; [reflexivity |]. split; [| split; [| split; [| split]]].
  - unfold extends. cbn.
    repeat (split; [reflexivity |]).
    split; [apply prefix_of_app |]. split; [apply prefix_of_app |].
    split; apply prefix_of_refl.
  - split; [cbn; rewrite length_app; cbn; lia |].
    rewrite Hobj. cbn. rewrite length_app. cbn. lia.
  - rewrite Hobj. reflexivity.
  - unfold Objects.view. rewrite Hobj. unfold Objects.list_at, Objects.position_at. cbn.
    rewrite nth_new. reflexivity.
  - rewrite Hobj. reflexivity.
Qed.

Lemma update_new {A : Type} (l : list A) (f : A -> A) (x : A) :
  Objects.update (List.length l) f (l ++ [x])%list = (l ++ [f x])%list.
Proof. induction l as [| y l IH]; cbn; [reflexivity | rewrite IH; reflexivity]. Qed.

(** The reader of a call: a new object, with both features off and both
    handlers holding the context of the call. *)
Lemma reader_set_up {A : Type} (h : Heap) (ctx : Objects.ref)
    (k : Objects.ref -> Objects.M A) :
  Objects.bind (XsdNode := XsdNode) Objects._build_xml_reader
    (fun reader =>
       Objects.bind (Objects.setContentHandler reader ctx)
         (fun _ => Objects.bind (Objects.setErrorHandler reader ctx)
                     (fun _ => k reader))) h
  = k (List.length (Objects.readers h))
      {| Objects.positions := Objects.positions h;
         Objects.lists := Objects.lists h;
         Objects.contexts := Objects.contexts h;
         Objects.parsers := Objects.parsers h;
         Objects.readers :=
           (Objects.readers h
            ++ [{| Objects.feature_namespaces := false;
                   Objects.feature_validation := false;
                   Objects.content_handler := Some ctx;
                   Objects.error_handler := Some ctx |}])%list;
         Objects.default_position := Objects.default_position h |}.
Proof.
  unfold Objects._build_xml_reader, Objects.setContentHandler, Objects.setErrorHandler,
    Objects.bind, Objects.new_reader, Objects.assign_reader, Objects.ret.
  cbn [Objects.positions Objects.lists Objects.contexts Objects.parsers Objects.readers
       Objects.default_position].
  rewrite !update_new. reflexivity.
Qed.

(** [parse] on a store [h] that extends [h0], with a parser that is not
    of [h0]: no object of [h0] is written; a context that is returned is a
    new object with a new list, and it is the context that [parse] on
    values returns for the value of the position; an exception is the one
    that [parse] on values raises. *)
Lemma parse_on_store (sax_reader : SaxReader) (h0 h : Heap) (self : Objects.ref)
    (document : Document) (position : Objects.ref) :
  extends h0 h ->
  (List.length (Objects.parsers h0) <= self)%nat ->
  let out := Objects.parse sax_reader self document position h in
  extends h0 (fst out) /\
  (List.length (Objects.parsers h) <= List.length (Objects.parsers (fst out)))%nat /\
  match snd out with
  | Returned ctx =>
      ctx = List.length (Objects.contexts h) /\ wf ctx (fst out) /\
      (List.length (Objects.lists h)
       <= Objects.o_node_stack (Objects.object (fst out) ctx))%nat /\
      Objects.o_target_position (Objects.object (fst out) ctx)
      = (if is_empty_document document then Objects.default_position h else position) /\
      if is_empty_document document
      then Objects.view (fst out) ctx
           = XmlContext_init "" (Objects.position_at h (Objects.default_position h)) true
      else snd (parse (XsdNode := XsdNode) sax_reader XmlContextParser_init document
                  (Objects.position_at h position))
           = Returned (Objects.view (fst out) ctx)
  | Raised e =>
      is_empty_document document = false /\
      snd (parse (XsdNode := XsdNode) sax_reader XmlContextParser_init document
             (Objects.position_at h position)) = Raised e
  end.
Proof.
  intros Hext Hself. cbv zeta.
  set (h1 := {| Objects.positions := Objects.positions h;
                Objects.lists := Objects.lists h;
                Objects.contexts := Objects.contexts h;
                Objects.parsers :=
                  Objects.update self (fun _ => {| _document := Some document |})
                    (Objects.parsers h);
                Objects.readers := Objects.readers h;
                Objects.default_position := Objects.default_position h |} : Heap).
  assert (Hext1 : extends h0 h1).
  { destruct Hext as (Hp & Hd & Hl & Hc & Hps & Hr). unfold extends. cbn.
    repeat (split; [assumption |]).
    split; [apply prefix_of_update; assumption | assumption]. }
  assert (Hlen1 : List.length (Objects.parsers h1) = List.length (Objects.parsers h))
    by apply update_length.
  remember (Objects.parse sax_reader self document position h) as out eqn:Hout.
  unfold Objects.parse in Hout. unfold Objects.bind at 1 in Hout.
  unfold Objects.assign_parser at 1 in Hout. fold h1 in Hout.
  destruct (is_empty_document document) eqn:He.
  - (* the empty document: the default position *)
    unfold Objects.bind, Objects.the_default_position in Hout.
    destruct (XmlContext_init_on_store h1 "" (Objects.default_position h1) true)
      as (Hr & Hext2 & Hwf & Hstack & Hview & Htarget).
    destruct (Objects.XmlContext_init "" (Objects.default_position h1) true h1) as [h2 r].
    cbn [fst snd] in *. subst r out. cbn [fst snd].
    split; [eapply extends_trans; eassumption |].
    split; [destruct Hext2 as (_ & _ & _ & _ & [Hlen2 _] & _); lia |].
    split; [reflexivity |]. split; [exact Hwf |].
    split; [rewrite Hstack; cbn; lia |]. split; [exact Htarget | exact Hview].
  - unfold Objects.bind at 1 in Hout. unfold Objects.position_of at 1 in Hout.
    change (Objects.position_at h1 position) with (Objects.position_at h position)
      in Hout.
    destruct (index (lines document) (line (Objects.position_at h position)))
      as [context_line | e] eqn:Hl.
    + (* the line is there: a context, a reader, the pass *)
      unfold Objects.bind at 1 in Hout.
      destruct (XmlContext_init_on_store h1 context_line position false)
        as (Hr & Hext2 & Hwf & Hstack & Hview & Htarget).
      destruct (Objects.XmlContext_init context_line position false h1) as [h2 r].
      cbn [fst snd] in Hr, Hext2, Hwf, Hstack, Hview, Htarget. subst r.
      change (List.length (Objects.contexts h1)) with (List.length (Objects.contexts h))
        in *.
      change (List.length (Objects.lists h1)) with (List.length (Objects.lists h)) in *.
      change (Objects.position_at h1 position) with (Objects.position_at h position)
        in Hview.
      set (ctx := List.length (Objects.contexts h)) in *.
      rewrite reader_set_up in Hout.
      match type of Hout with
      | _ = Objects.bind _ _ ?store => set (h3 := store) in *
      end.
      assert (Hext3 : extends h2 h3).
      { unfold extends, h3.
        cbn [Objects.positions Objects.lists Objects.contexts Objects.parsers
             Objects.readers Objects.default_position].
        split; [reflexivity |]. split; [reflexivity |].
        split; [apply prefix_of_refl |]. split; [apply prefix_of_refl |].
        split; [apply prefix_of_refl | apply prefix_of_app]. }
      assert (Hwf3 : wf ctx h3) by exact Hwf.
      assert (Hview3 : Objects.view h3 ctx
                       = XmlContext_init context_line (Objects.position_at h position) false)
        by exact Hview.
      unfold Objects.bind at 1 in Hout. unfold Objects.except_found in Hout.
      unfold Objects.reader_parse in Hout. unfold Objects.bind at 1 in Hout.
      unfold Objects.reader_of in Hout.
      unfold h3 at 1 in Hout. cbn [Objects.readers] in Hout.
      rewrite nth_new in Hout.
      match type of Hout with
      | context [Objects.deliver ?r _ _] => set (ready := r) in *
      end.
      destruct (sim_deliver ctx ready (sax_reader (source document)) eq_refl eq_refl
                  _ h3 Hwf3 Hview3) as (Hres & Hview4 & Hframe).
      rewrite (parse_events sax_reader XmlContextParser_init document
                 (Objects.position_at h position) context_line _ He Hl eq_refl).
      destruct (Objects.deliver ready (sax_reader (source document)) h3) as [h4 r4].
      destruct (reader_parse (sax_reader (source document))
                  (XmlContext_init context_line (Objects.position_at h position) false))
        as [c4 r4'].
      cbn [fst snd] in Hres, Hview4, Hframe. subst r4'.
      assert (Hext4 : extends h0 h4).
      { apply (extends_frame h0 h3 h4 ctx).
        - eapply extends_trans; [exact Hext1 |]. eapply extends_trans; eassumption.
        - exact Hframe.
        - destruct Hext as (_ & _ & _ & [Hlen _] & _). exact Hlen.
        - change (Objects.object h3 ctx) with (Objects.object h2 ctx). rewrite Hstack.
          destruct Hext as (_ & _ & [Hlen _] & _). exact Hlen. }
      assert (Hwf4 : wf ctx h4) by (eapply frame_wf; eassumption).
      assert (Hstack4 : Objects.o_node_stack (Objects.object h4 ctx)
                        = List.length (Objects.lists h)).
      { destruct Hframe as (_ & _ & _ & _ & _ & _ & _ & _ & Hs & _).
        rewrite Hs. exact Hstack. }
      assert (Hlen4 : (List.length (Objects.parsers h)
                       <= List.length (Objects.parsers h4))%nat).
      { destruct Hframe as (_ & _ & Hps & _). rewrite Hps.
        change (Objects.parsers h3) with (Objects.parsers h2).
        destruct Hext2 as (_ & _ & _ & _ & [Hlen2 _] & _). lia. }
      assert (Htarget4 : Objects.o_target_position (Objects.object h4 ctx) = position).
      { destruct Hframe as (_ & _ & _ & _ & _ & _ & _ & _ & _ & Ht).
        rewrite Ht. exact Htarget. }
      destruct r4 as [[] | e4].
      * subst out. cbn. split; [exact Hext4 |]. split; [exact Hlen4 |].
        split; [reflexivity |]. split; [exact Hwf4 |].
        split; [rewrite Hstack4; lia |].
        split; [exact Htarget4 | rewrite Hview4; reflexivity].
      * destruct e4; subst out; cbn.
        -- split; [exact Hext4 | split; [exact Hlen4 | split; reflexivity]].
        -- split; [exact Hext4 | split; [exact Hlen4 | split; reflexivity]].
        -- split; [exact Hext4 |]. split; [exact Hlen4 |].
           split; [reflexivity |]. split; [exact Hwf4 |].
           split; [rewrite Hstack4; lia |].
           split; [exact Htarget4 | rewrite Hview4; reflexivity].
        -- split; [exact Hext4 | split; [exact Hlen4 | split; reflexivity]].
    + (* no such line *)
      subst out. cbn. split; [exact Hext1 |].
      split; [rewrite update_length; lia |]. split; [reflexivity |].
      apply parse_out_of_range; assumption.
Qed.

(** A context that is there, and its list, are in every extension of
    the store as they are in the store. *)
Lemma view_extends (h h' : Heap) (ctx : Objects.ref) :
  wf ctx h -> extends h h' -> Objects.view h' ctx = Objects.view h ctx /\ wf ctx h'.
Proof.
  intros [Hc Hs] (Hp & _ & [Hll Hl] & [Hlc Hco] & _).
  assert (Ho : Objects.object h' ctx = Objects.object h ctx) by (apply Hco; exact Hc).
  split.
  - unfold Objects.view, Objects.position_at, Objects.list_at. rewrite Ho, Hp.
    rewrite (Hl _ Hs). reflexivity.
  - split; [lia | rewrite Ho; lia].
Qed.

Lemma get_xml_context_after_parse (sax_reader : SaxReader) (self : XmlContextService XsdNode)
    (document : Document) (position : Position) :
  snd (get_xml_context sax_reader self document position)
  = match snd (parse sax_reader XmlContextParser_init document position) with
    | Returned c => update_node_definition (xsd_tree self) c
    | Raised e => Raised e
    end.
Proof.
  unfold get_xml_context.
  destruct (parse sax_reader XmlContextParser_init document position) as [p [c | e]];
    reflexivity.
Qed.

(** [get_xml_context] on a store: no object of the store is written, the
    parser is a new object, and so are a context that is returned and its
    list; the context is the one that [get_xml_context] on values returns
    for the value of the position - for an empty document, for the value of
    the default position. *)
Lemma get_xml_context_on_store (sax_reader : SaxReader) (self : XmlContextService XsdNode)
    (document : Document) (position : Objects.ref) (h : Heap) :
  let out := Objects.get_xml_context sax_reader self document position h in
  let value :=
    if is_empty_document document
    then update_node_definition (xsd_tree self)
           (XmlContext_init "" (Objects.position_at h (Objects.default_position h)) true)
    else snd (get_xml_context sax_reader self document (Objects.position_at h position)) in
  extends h (fst out) /\
  (List.length (Objects.parsers h) < List.length (Objects.parsers (fst out)))%nat /\
  match snd out with
  | Returned ctx =>
      (List.length (Objects.contexts h) <= ctx)%nat /\ wf ctx (fst out) /\
      (List.length (Objects.lists h)
       <= Objects.o_node_stack (Objects.object (fst out) ctx))%nat /\
      Objects.o_target_position (Objects.object (fst out) ctx)
      = (if is_empty_document document then Objects.default_position h else position) /\
      value = Returned (Objects.view (fst out) ctx)
  | Raised e => value = Raised e
  end.
Proof.
  cbv zeta.
  remember (Objects.get_xml_context sax_reader self document position h) as out eqn:Hout.
  unfold Objects.get_xml_context in Hout. unfold Objects.bind at 1 in Hout.
  unfold Objects.new_parser at 1 in Hout.
  match type of Hout with
  | _ = Objects.bind _ _ ?store => set (h' := store) in *
  end.
  assert (Hext' : extends h h').
  { unfold extends, h'.
    cbn [Objects.positions Objects.lists Objects.contexts Objects.parsers
         Objects.readers Objects.default_position].
    split; [reflexivity |]. split; [reflexivity |].
    split; [apply prefix_of_refl |]. split; [apply prefix_of_refl |].
    split; [apply prefix_of_app | apply prefix_of_refl]. }
  assert (Hlen' : List.length (Objects.parsers h') = S (List.length (Objects.parsers h))).
  { unfold h'. cbn [Objects.parsers]. rewrite length_app. cbn. lia. }
  pose proof (parse_on_store sax_reader h h' (List.length (Objects.parsers h)) document
                position Hext' (le_n _)) as Hparse.
  cbv zeta in Hparse.
  change (Objects.position_at h' position) with (Objects.position_at h position) in Hparse.
  change (Objects.position_at h' (Objects.default_position h'))
    with (Objects.position_at h (Objects.default_position h)) in Hparse.
  change (List.length (Objects.contexts h')) with (List.length (Objects.contexts h))
    in Hparse.
  change (List.length (Objects.lists h')) with (List.length (Objects.lists h)) in Hparse.
  change (Objects.default_position h') with (Objects.default_position h) in Hparse.
  unfold Objects.bind at 1 in Hout.
  destruct (Objects.parse sax_reader (List.length (Objects.parsers h)) document position h')
    as [hp [ctx | e]]; cbn [fst snd] in Hparse.
  - destruct Hparse as (Hextp & Hlenp & Hctx & Hwfp & Hstackp & Htargetp & Hvalue).
    destruct (update_node_definition_on_store ctx (xsd_tree self) hp Hwfp)
      as (Hframe & Hupdate).
    unfold Objects.bind in Hout.
    assert (Hvalue' :
              (if is_empty_document document
               then update_node_definition (xsd_tree self)
                      (XmlContext_init ""
                         (Objects.position_at h (Objects.default_position h)) true)
               else snd (get_xml_context sax_reader self document
                           (Objects.position_at h position)))
              = update_node_definition (xsd_tree self) (Objects.view hp ctx)).
    { destruct (is_empty_document document).
      - rewrite Hvalue. reflexivity.
      - rewrite get_xml_context_after_parse, Hvalue. reflexivity. }
    rewrite Hvalue'.
    destruct (Objects.update_node_definition ctx (xsd_tree self) hp) as [hu [[] | e]];
      cbn [fst snd] in Hframe, Hupdate;
      destruct (update_node_definition (xsd_tree self) (Objects.view hp ctx)) as [c' | e'];
      try contradiction; subst out; cbn [fst snd Objects.ret].
    + assert (Hextu : extends h hu).
      { apply (extends_frame h hp hu ctx); [exact Hextp | exact Hframe | lia | lia]. }
      split; [exact Hextu |].
      split; [destruct Hframe as (_ & _ & Hps & _); rewrite Hps; lia |].
      split; [lia |]. split; [eapply frame_wf; eassumption |].
      destruct Hframe as (_ & _ & _ & _ & _ & _ & _ & _ & Hs & Ht).
      split; [rewrite Hs; exact Hstackp |].
      split; [rewrite Ht; exact Htargetp | rewrite Hupdate; reflexivity].
    + split; [apply (extends_frame h hp hu ctx); [exact Hextp | exact Hframe | lia | lia] |].
      split; [destruct Hframe as (_ & _ & Hps & _); rewrite Hps; lia |].
      rewrite Hupdate. reflexivity.
  - destruct Hparse as (Hextp & Hlenp & He & Hvalue). subst out. cbn [fst snd].
    split; [exact Hextp |]. split; [lia |].
    rewrite He, get_xml_context_after_parse, Hvalue. reflexivity.
Qed.

(** C9: two successive calls of [get_xml_context] on one service, with the
    same document and the same position object, the second on the store as
    the first left it. Neither call writes an object that was there before
    it (positions, the default position among them, lists, contexts,
    parsers and readers are as they were), and each makes its own parser.
    If the first returns a context so does the second, and the two are
    different objects with different [node_stack] lists, both made by
    their call and equal attribute by attribute ([document_line],
    [target_position], [is_empty], [token_name], [token_type], [node],
    [node_stack] and the three flags); the second call leaves the first
    context as it was; [target_position] is in both the same position
    object, the caller's or, for an empty document, the default one. If
    the first raises, the second raises the same exception. *)
Theorem successive_calls_return_equal_contexts (sax_reader : SaxReader)
    (self : XmlContextService XsdNode) (document : Document) (position : Objects.ref)
    (h : Heap) :
  let first := Objects.get_xml_context sax_reader self document position h in
  let second := Objects.get_xml_context sax_reader self document position (fst first) in
  (extends h (fst first) /\ extends (fst first) (fst second)) /\
  (List.length (Objects.parsers h) < List.length (Objects.parsers (fst first))
   /\ List.length (Objects.parsers (fst first))
      < List.length (Objects.parsers (fst second)))%nat /\
  match snd first, snd second with
  | Returned c1, Returned c2 =>
      Objects.view (fst second) c2 = Objects.view (fst first) c1 /\
      Objects.view (fst second) c1 = Objects.view (fst first) c1 /\
      (List.length (Objects.contexts h) <= c1 /\ c1 < c2)%nat /\
      (List.length (Objects.lists h)
       <= Objects.o_node_stack (Objects.object (fst second) c1)
       /\ Objects.o_node_stack (Objects.object (fst second) c1)
          < Objects.o_node_stack (Objects.object (fst second) c2))%nat /\
      Objects.o_target_position (Objects.object (fst second) c1)
      = Objects.o_target_position (Objects.object (fst second) c2) /\
      Objects.o_target_position (Objects.object (fst second) c2)
      = (if is_empty_document document then Objects.default_position h else position)
  | Raised e1, Raised e2 => e1 = e2
  | _, _ => False
  end.
Proof.
  cbv zeta.
  destruct (get_xml_context_on_store sax_reader self document position h)
    as (Hext1 & Hp1 & H1).
  destruct (get_xml_context_on_store sax_reader self document position
              (fst (Objects.get_xml_context sax_reader self document position h)))
    as (Hext2 & Hp2 & H2).
  cbv zeta in H1, H2.
  destruct (Objects.get_xml_context sax_reader self document position h) as [h1 r1].
  cbn [fst snd] in *.
  destruct (Objects.get_xml_context sax_reader self document position h1) as [h2 r2].
  cbn [fst snd] in *.
  split; [split; assumption |]. split; [split; assumption |].
  assert (Hpos : Objects.position_at h1 position = Objects.position_at h position).
  { unfold Objects.position_at. destruct Hext1 as (-> & _). reflexivity. }
  assert (Hdef : Objects.default_position h1 = Objects.default_position h)
    by (destruct Hext1 as (_ & Hd & _); exact Hd).
  assert (Hdefpos : Objects.position_at h1 (Objects.default_position h1)
                    = Objects.position_at h (Objects.default_position h)).
  { rewrite Hdef. unfold Objects.position_at. destruct Hext1 as (-> & _). reflexivity. }
  rewrite Hpos, Hdefpos, Hdef in H2.
  destruct r1 as [c1 | e1], r2 as [c2 | e2].
  - destruct H1 as (Hc1 & Hwf1 & Hs1 & Ht1 & Hv1), H2 as (Hc2 & Hwf2 & Hs2 & Ht2 & Hv2).
    destruct (view_extends h1 h2 c1 Hwf1 Hext2) as [Hsame _].
    assert (Ho : Objects.object h2 c1 = Objects.object h1 c1).
    { destruct Hwf1 as [Hlt _], Hext2 as (_ & _ & _ & [_ Hco] & _). apply Hco. exact Hlt. }
    assert (Hequal : Objects.view h2 c2 = Objects.view h1 c1).
    { rewrite Hv1 in Hv2.
      apply (f_equal (fun o => match o with
                               | Returned c => c
                               | Raised _ => Objects.view h1 c1
                               end)) in Hv2.
      symmetry. exact Hv2. }
    split; [exact Hequal |].
    split; [exact Hsame |].
    split; [destruct Hwf1 as [Hlt _]; lia |].
    split; [rewrite Ho; destruct Hwf1 as [_ Hlt]; lia |].
    split; [rewrite Ho; congruence | exact Ht2].
  - destruct H1 as (_ & _ & _ & _ & Hv1). rewrite Hv1 in H2. discriminate H2.
  - destruct H2 as (_ & _ & _ & _ & Hv2). rewrite H1 in Hv2. discriminate Hv2.
  - rewrite H1 in H2. injection H2 as H2. exact H2.
Qed.

End Sharing.

(** Two calls on the document with [root] and [a], the cursor on [root]:
    the contexts are the objects 0 and 1, with the lists 0 and 1, both
    refer to the position object of the caller, and they are equal. *)
Lemma successive_calls_on_root_a :
  let first :=
    Objects.get_xml_context Ref.reader small_service doc_root_a 1%nat
      (store_of (at_character 3)) in
  let second :=
    Objects.get_xml_context Ref.reader small_service doc_root_a 1%nat (fst first) in
  snd first = Returned 0%nat /\ snd second = Returned 1%nat /\
  Objects.view (fst second) 1%nat = Objects.view (fst second) 0%nat /\
  token_name (Objects.view (fst second) 1%nat) = Some "root" /\
  node_stack (Objects.view (fst second) 1%nat) = ["root"]%list /\
  Objects.o_node_stack (Objects.object (fst second) 0%nat) = 0%nat /\
  Objects.o_node_stack (Objects.object (fst second) 1%nat) = 1%nat /\
  Objects.o_target_position (Objects.object (fst second) 0%nat) = 1%nat /\
  Objects.o_target_position (Objects.object (fst second) 1%nat) = 1%nat.
Proof. vm_compute. repeat split. Qed.

(** Two calls on a blank document: the two contexts are different objects
    that refer to one position object, the default one, not to the
    caller's. *)
Lemma successive_calls_on_blank :
  let first :=
    Objects.get_xml_context Ref.reader small_service doc_blank 1%nat
      (store_of (at_character 3)) in
  let second :=
    Objects.get_xml_context Ref.reader small_service doc_blank 1%nat (fst first) in
  snd first = Returned 0%nat /\ snd second = Returned 1%nat /\
  Objects.view (fst second) 1%nat = Objects.view (fst second) 0%nat /\
  is_empty (Objects.view (fst second) 1%nat) = true /\
  Objects.o_target_position (Objects.object (fst second) 0%nat) = 0%nat /\
  Objects.o_target_position (Objects.object (fst second) 1%nat) = 0%nat /\
  Objects.positions (fst second) = Objects.positions (store_of (at_character 3)).
Proof. vm_compute. repeat split. Qed.
